(** * scripts/generate.py: a static-site generator driven by git history

    A shallow embedding of [scripts/generate.py] and the properties of its
    page pipeline: discovery of the [.rst] sources, extraction of the commit
    history of each page, ordering of the pages, the repository links handed
    to the templates, and the effects of [main] on the output directory.

    Conventions of the embedding.
    - A Python [str] is a [string]; each character stands for the code point
      of the same number (0..255).  Comparison of [str] values is comparison
      of code points, which is [String.compare].
    - A [dict] with string keys is a [gmap string _].
    - A Python list is a [list]; a loop that appends is a recursion that
      conses in the same order.
    - A call that may raise returns a [result]; calls that read or change
      the world thread a [state]. *)

From Stdlib Require Import ZArith Ascii String List Permutation Sorted Lia Bool DecimalString.
From stdpp Require Import base option list sorting gmap strings.

Local Open Scope Z_scope.
Local Open Scope char_scope.
Local Open Scope stdpp_scope.

(** ** Python [str] methods used by the script *)

Module PyStr.

(** [c in chars], for the character sets given to [rstrip]. *)
Fixpoint mem (c : ascii) (chars : string) : bool :=
  match chars with
  | EmptyString => false
  | String d r => Ascii.eqb c d || mem c r
  end.

(** [bool(s)]: a string is true when it is not empty. *)
Definition truthy (s : string) : bool :=
  match s with
  | EmptyString => false
  | String _ _ => true
  end.

(** [s.rstrip(chars)]: drops the longest run of trailing characters that
    belong to the *set* [chars]. *)
Fixpoint rstrip (chars : string) (s : string) : string :=
  match s with
  | EmptyString => EmptyString
  | String c r =>
      match rstrip chars r with
      | EmptyString => if mem c chars then EmptyString else String c EmptyString
      | r' => String c r'
      end
  end.

(** [s.lstrip(chars)]. *)
Fixpoint lstrip (chars : string) (s : string) : string :=
  match s with
  | EmptyString => EmptyString
  | String c r => if mem c chars then lstrip chars r else s
  end.

(** The characters [str.strip()] removes, among the code points 0..255:
    tab, line feed, vertical tab, form feed, carriage return, the four
    separators 0x1c..0x1f, space, NEL (0x85) and the no-break space. *)
Definition whitespace : string :=
  String (ascii_of_nat 9) (String (ascii_of_nat 10) (String (ascii_of_nat 11)
  (String (ascii_of_nat 12) (String (ascii_of_nat 13) (String (ascii_of_nat 28)
  (String (ascii_of_nat 29) (String (ascii_of_nat 30) (String (ascii_of_nat 31)
  (String (ascii_of_nat 32) (String (ascii_of_nat 133) (String (ascii_of_nat 160)
  EmptyString))))))))))).

(** [s.strip()]. *)
Definition strip (s : string) : string := lstrip whitespace (rstrip whitespace s).

(** [c.lower()] on one character: the letters A..Z move down by 32.  (The
    capital letters of Latin-1 move as well; none of them lowers to a
    character of [".rst"], the only use the script makes of [lower].) *)
Definition lower_char (c : ascii) : ascii :=
  let n := nat_of_ascii c in
  if (Nat.leb 65 n && Nat.leb n 90)
     || (Nat.leb 192 n && Nat.leb n 222 && negb (Nat.eqb n 215))
  then ascii_of_nat (n + 32) else c.

(** [s.lower()]. *)
Fixpoint lower (s : string) : string :=
  match s with
  | EmptyString => EmptyString
  | String c r => String (lower_char c) (lower r)
  end.

(** [s.startswith(p)]. *)
Fixpoint startswith (s p : string) : bool :=
  match p, s with
  | EmptyString, _ => true
  | String _ _, EmptyString => false
  | String d p', String c s' => Ascii.eqb c d && startswith s' p'
  end.

(** [s.endswith(suffix)]. *)
Fixpoint endswith (s suffix : string) : bool :=
  match s with
  | EmptyString => String.eqb suffix EmptyString
  | String _ r => String.eqb s suffix || endswith r suffix
  end.

End PyStr.

(** ** The repository links of [main] (lines 172-182) *)

(** [commit_url(sha)]; [repo_url] is the variable of [main] the closure
    reads. *)
Definition commit_url (repo_url : string) (sha : string) : string :=
  if negb (PyStr.truthy repo_url) then "#"
  else
    let url := PyStr.rstrip "/" (PyStr.rstrip ".git" repo_url) in
    url +:+ "/commit/" +:+ sha.

(** [commits_for_path_url(relpath)]; [repo_url] and [branch] are the
    variables of [main] the closure reads. *)
Definition commits_for_path_url (repo_url branch : string) (relpath : string) : string :=
  if negb (PyStr.truthy repo_url) then "#"
  else
    let url := PyStr.rstrip "/" (PyStr.rstrip ".git" repo_url) in
    url +:+ "/commits/" +:+ branch +:+ "/" +:+ relpath.

(** ** Exceptions and results *)

(** The exceptions the script and the library calls it makes can raise. *)
Inductive exn : Type :=
  | FileNotFoundError
  | NotADirectoryError
  | IsADirectoryError
  | FileExistsError
  | PermissionError
  | ValueError
  | RuntimeError (msg : string)
  | TOMLDecodeError
  | TemplateNotFound (name : string).

(** The outcome of a call: a value, or a raised exception. *)
Inductive result (A : Type) : Type :=
  | Ok (a : A)
  | Raise (e : exn).
Arguments Ok {A} a.
Arguments Raise {A} e.

Definition result_bind {A B} (r : result A) (k : A -> result B) : result B :=
  match r with
  | Ok a => k a
  | Raise e => Raise e
  end.

Definition result_map {A B} (f : A -> B) (r : result A) : result B :=
  result_bind r (fun a => Ok (f a)).

(** ** More of [str]: [split] and [splitlines] *)

Module PyLines.

(** [s.split(sep, maxsplit)] for a separator of one character. *)
Fixpoint split (sep : ascii) (maxsplit : nat) (s : string) : list string :=
  match s with
  | EmptyString => [EmptyString]
  | String c r =>
      if Ascii.eqb c sep then
        match maxsplit with
        | O => [s]
        | S m => EmptyString :: split sep m r
        end
      else
        match split sep maxsplit r with
        | [] => [String c EmptyString]
        | h :: t => String c h :: t
        end
  end.

(** [s.split(sep)], no limit on the number of cuts. *)
Fixpoint split_all (sep : ascii) (s : string) : list string :=
  match s with
  | EmptyString => [EmptyString]
  | String c r =>
      if Ascii.eqb c sep then EmptyString :: split_all sep r
      else
        match split_all sep r with
        | [] => [String c EmptyString]
        | h :: t => String c h :: t
        end
  end.

(** The line boundaries of [str.splitlines] among the code points 0..255:
    LF, VT, FF, CR, FS, GS, RS and NEL (CR LF counts as one). *)
Definition is_linebreak (c : ascii) : bool :=
  let n := nat_of_ascii c in
  Nat.eqb n 10 || Nat.eqb n 11 || Nat.eqb n 12 || Nat.eqb n 13
  || Nat.eqb n 28 || Nat.eqb n 29 || Nat.eqb n 30 || Nat.eqb n 133.

(** [splitlines_from cur s]: the lines of [s], where [cur] holds the
    characters of the line being read ([None] when no line is open). *)
Fixpoint splitlines_from (cur : option string) (s : string) : list string :=
  match s with
  | EmptyString =>
      match cur with
      | None => []
      | Some l => [l]
      end
  | String c r =>
      if is_linebreak c then
        default EmptyString cur ::
          match r with
          | String d r' =>
              if Nat.eqb (nat_of_ascii c) 13 && Nat.eqb (nat_of_ascii d) 10
              then splitlines_from None r'
              else splitlines_from None r
          | EmptyString => []
          end
      else splitlines_from (Some (default EmptyString cur +:+ String c EmptyString)) r
  end.

(** [s.splitlines()]. *)
Definition splitlines (s : string) : list string := splitlines_from None s.

End PyLines.

(** ** [os.path] on POSIX *)

Module PyPath.

(** ["/".join(parts)]. *)
Fixpoint join_sep (parts : list string) : string :=
  match parts with
  | [] => EmptyString
  | [p] => p
  | p :: rest => p +:+ "/" +:+ join_sep rest
  end.

(** [os.path.join(a, b)]. *)
Definition join (a b : string) : string :=
  if PyStr.startswith b "/" then b
  else if negb (PyStr.truthy a) || PyStr.endswith a "/" then a +:+ b
  else a +:+ "/" +:+ b.

(** [(p[:i], p[i:])] for [i = p.rfind("/") + 1]. *)
Fixpoint split_last_sep (p : string) : string * string :=
  match p with
  | EmptyString => (EmptyString, EmptyString)
  | String c r =>
      let (h, t) := split_last_sep r in
      if PyStr.truthy h then (String c h, t)
      else if Ascii.eqb c "/" then (String c EmptyString, t)
      else (EmptyString, String c t)
  end.

(** [os.path.basename(p)]. *)
Definition basename (p : string) : string := snd (split_last_sep p).

(** [".".join(parts)]. *)
Fixpoint join_dot (parts : list string) : string :=
  match parts with
  | [] => EmptyString
  | [p] => p
  | p :: rest => p +:+ "." +:+ join_dot rest
  end.

(** The root part of [os.path.splitext] on a name without ["/"]: the name
    up to its last dot, unless only dots come before that dot. *)
Definition stem (name : string) : string :=
  let before := removelast (PyLines.split_all "." name) in
  if existsb PyStr.truthy before then join_dot before else name.

(** [os.path.splitext(p)[0]]: the extension is looked for in the last
    component only. *)
Definition splitext_root (p : string) : string :=
  let (h, t) := split_last_sep p in h +:+ stem t.

(** One step of the loop of [normpath] for a rooted path; [stack] holds the
    components kept so far, innermost first. *)
Definition norm_step (stack : list string) (comp : string) : list string :=
  if String.eqb comp "" || String.eqb comp "." then stack
  else if String.eqb comp ".." then tail stack
  else comp :: stack.

(** The components of [os.path.abspath(p)] when the working directory is
    [cwd] (an absolute path): those of [normpath(join(cwd, p))]. *)
Definition abs_components (cwd p : string) : list string :=
  rev (fold_left norm_step (PyLines.split_all "/" (join cwd p)) []).

(** [os.path.abspath(p)].  (Python keeps a leading ["//"]; POSIX lets a
    system treat it apart and Linux does not, so it is one slash here.) *)
Definition abspath (cwd p : string) : string := "/" +:+ join_sep (abs_components cwd p).

(** [len(os.path.commonprefix([a, b]))] on lists of components, with the
    rest of each list. *)
Fixpoint strip_common (a b : list string) : list string * list string :=
  match a, b with
  | x :: a', y :: b' => if String.eqb x y then strip_common a' b' else (a, b)
  | _, _ => (a, b)
  end.

(** [os.path.relpath(path, start)]. *)
Definition relpath (cwd path start : string) : result string :=
  if negb (PyStr.truthy path) then Raise ValueError
  else
    let start_list := abs_components cwd start in
    let path_list := abs_components cwd path in
    let (up, down) := strip_common start_list path_list in
    let rel_list := map (fun _ => "..") up ++ down in
    match rel_list with
    | [] => Ok "."
    | _ => Ok (join_sep rel_list)
    end.

End PyPath.

(** ** [sorted] and [list.sort] *)

(** Python sorts with [<] alone and keeps the input order of elements that
    compare equal, also under [reverse=True].  [py_insert] puts [x], which
    stood before every element of [l] in the input, in front of the first
    element that need not precede it. *)
Section PySort.
Context {A K : Type} (lt : K -> K -> bool) (key : A -> K) (reverse : bool).

(** [precedes a b]: [a] must come before [b] in the output. *)
Definition precedes (a b : A) : bool :=
  if reverse then lt (key b) (key a) else lt (key a) (key b).

Fixpoint py_insert (x : A) (l : list A) : list A :=
  match l with
  | [] => [x]
  | y :: r => if precedes y x then y :: py_insert x r else x :: y :: r
  end.

Fixpoint py_sorted (l : list A) : list A :=
  match l with
  | [] => []
  | x :: r => py_insert x (py_sorted r)
  end.
End PySort.

(** ** The file system *)

#[local] Unset Elimination Schemes.
(** A file with its text, or a directory with its entries in the order
    [os.scandir] lists them.  Symbolic links and entries that cannot be read
    are left out: the tree is what the run can see. *)
Inductive node : Type :=
  | File (data : string)
  | Dir (entries : list (string * node)).
#[local] Set Elimination Schemes.


Module FS.

Definition is_dir (n : node) : bool :=
  match n with
  | Dir _ => true
  | File _ => false
  end.

Fixpoint lookup_entry (name : string) (es : list (string * node)) : option node :=
  match es with
  | [] => None
  | (k, v) :: r => if String.eqb k name then Some v else lookup_entry name r
  end.

(** The node a list of components leads to. *)
Fixpoint lookup_path (p : list string) (n : node) : option node :=
  match p with
  | [] => Some n
  | name :: rest =>
      match n with
      | Dir es =>
          match lookup_entry name es with
          | Some child => lookup_path rest child
          | None => None
          end
      | File _ => None
      end
  end.

(** The entries without those named [name]. *)
Fixpoint remove_entry (name : string) (es : list (string * node)) : list (string * node) :=
  match es with
  | [] => []
  | (k, v) :: r =>
      if String.eqb k name then remove_entry name r else (k, v) :: remove_entry name r
  end.

(** [alter_entry name f es]: the entries with [f] applied to the entry
    [name] ([None] when there is none); [f] answers [None] to remove it.  A
    directory lists a name once; a removal takes the name out throughout, so
    that no entry of that name is left in any case. *)
Fixpoint alter_entry (name : string) (f : option node -> result (option node))
    (es : list (string * node)) : result (list (string * node)) :=
  match es with
  | [] =>
      result_map (fun o => match o with
                           | Some n => [(name, n)]
                           | None => []
                           end) (f None)
  | (k, v) :: r =>
      if String.eqb k name then
        result_map (fun o => match o with
                             | Some n => (k, n) :: r
                             | None => remove_entry name r
                             end) (f (Some v))
      else result_map (cons (k, v)) (alter_entry name f r)
  end.

(** [alter_path p f root]: [f] applied at [p]; every directory on the way
    must exist. *)
Fixpoint alter_path (p : list string) (f : option node -> result (option node))
    (n : node) : result node :=
  match p with
  | [] => Raise PermissionError
  | name :: rest =>
      match n with
      | File _ => Raise NotADirectoryError
      | Dir es =>
          match rest with
          | [] => result_map Dir (alter_entry name f es)
          | _ :: _ =>
              result_map Dir
                (alter_entry name
                   (fun o => match o with
                             | None => Raise FileNotFoundError
                             | Some child => result_map Some (alter_path rest f child)
                             end) es)
          end
      end
  end.

(** [os.makedirs(p, exist_ok=True)] below the node [n]. *)
Fixpoint makedirs (p : list string) (n : node) : result node :=
  match p with
  | [] =>
      match n with
      | Dir _ => Ok n
      | File _ => Raise FileExistsError
      end
  | name :: rest =>
      match n with
      | File _ => Raise NotADirectoryError
      | Dir es =>
          result_map Dir
            (alter_entry name
               (fun o => result_map Some (makedirs rest (default (Dir []) o))) es)
      end
  end.

(** [shutil.rmtree(p)]. *)
Definition rmtree (p : list string) (root : node) : result node :=
  alter_path p (fun o => match o with
                         | None => Raise FileNotFoundError
                         | Some (File _) => Raise NotADirectoryError
                         | Some (Dir _) => Ok None
                         end) root.

(** [shutil.copytree(src, dst)]: [src] must be a directory and [dst] must
    not exist; the directories above [dst] are made. *)
Definition copytree (src dst : list string) (root : node) : result node :=
  match lookup_path src root with
  | None => Raise FileNotFoundError
  | Some (File _) => Raise NotADirectoryError
  | Some (Dir es) =>
      match lookup_path dst root with
      | Some _ => Raise FileExistsError
      | None =>
          result_bind (makedirs (removelast dst) root) (fun root' =>
            alter_path dst (fun _ => Ok (Some (Dir es))) root')
      end
  end.

(** [open(p, "w")] followed by [write(data)] and the close. *)
Definition write_file (p : list string) (data : string) (root : node) : result node :=
  alter_path p (fun o => match o with
                         | Some (Dir _) => Raise IsADirectoryError
                         | _ => Ok (Some (File data))
                         end) root.

(** [open(p, "r").read()]. *)
Definition read_file (p : list string) (root : node) : result string :=
  match lookup_path p root with
  | None => Raise FileNotFoundError
  | Some (Dir _) => Raise IsADirectoryError
  | Some (File data) => Ok data
  end.

(** One component of a path, read where the system stands at [pos]: an
    empty component and [.] leave it there, [..] leads to the directory
    above (the root is above itself), a name leads to the entry of that
    name. *)
Definition step (pos : list string) (comp : string) : list string :=
  if String.eqb comp "" || String.eqb comp "." then pos
  else if String.eqb comp ".." then removelast pos
  else pos ++ [comp].

(** The place the system reaches from [pos] along the components: each
    component is read in a directory that exists, the place reached last
    may not exist. *)
Fixpoint follow (root : node) (pos : list string) (comps : list string)
    : option (list string) :=
  match comps with
  | [] => Some pos
  | comp :: rest =>
      match lookup_path pos root with
      | Some (Dir _) => follow root (step pos comp) rest
      | _ => None
      end
  end.

(** What the system finds at the path [p], the working directory being at
    [cwd]: an absolute path is read from the root, the empty path names
    nothing. *)
Definition locate (root : node) (cwd : list string) (p : string) : option node :=
  if negb (PyStr.truthy p) then None
  else
    match follow root (if PyStr.startswith p "/" then [] else cwd)
            (PyLines.split_all "/" p) with
    | Some pos => lookup_path pos root
    | None => None
    end.

(** The names [os.walk] reports as directories and as files. *)
Definition dirnames (es : list (string * node)) : list string :=
  map fst (List.filter (fun e => is_dir (snd e)) es).

Definition filenames (es : list (string * node)) : list string :=
  map fst (List.filter (fun e => negb (is_dir (snd e))) es).

(** [os.walk(top)], top down, where [n] is what [top] names: the triple of
    the directory, then the walks of its subdirectories in order (the walk
    of an entry that is a file is empty). *)
Fixpoint walk_dir (top : string) (n : node) : list (string * list string * list string) :=
  match n with
  | File _ => []
  | Dir es =>
      (top, dirnames es, filenames es) ::
      flat_map (fun e => match e with
                         | (name, child) => walk_dir (PyPath.join top name) child
                         end) es
  end.

(** [os.walk] reports nothing, and does not raise, when [top] cannot be
    listed (it is missing, or a file). *)
Definition walk (top : string) (n : option node) : list (string * list string * list string) :=
  match n with
  | Some d => walk_dir top d
  | None => []
  end.

End FS.

(** ** The data of the script *)

(** A commit as [git_log_commits] builds it (a dict with these four keys). *)
Record Commit : Type := {
  sha : string;
  date : string;
  author : string;
  message : string;
}.

(** A page as [main] builds it (a dict with these eight keys). *)
Record Page : Type := {
  page_path : string;
  page_rel : string;
  page_slug : string;
  page_out_filename : string;
  page_commits : list Commit;
  page_first_commit_date : string;
  page_title : string;
  page_url : string;
}.

(** What [subprocess.run(..., capture_output=True, text=True)] returns. *)
Record CompletedProcess : Type := {
  returncode : Z;
  stdout : string;
}.

(** The parsed command line. *)
Record Args : Type := {
  arg_config : string;
  arg_output : option string;
  arg_skip_render : bool;
  arg_dry_run : bool;
}.

(** The keyword arguments of the two [render] calls. *)
Inductive Bindings : Type :=
  | PageBindings (title site_title static_dir body : string) (commits : list Commit)
      (commit_url : string -> string) (commits_for_path_url : string)
  | IndexBindings (pages : list Page) (site_title static_dir : string).

(** A compiled template: [render] is a function of the bindings. *)
Definition Template : Type := Bindings -> string.

(** What the run reads and does not change: the working directory, the TOML
    parser, git, the clock, and the two optional libraries ([None] when the
    import at the top of the script failed). *)
Record World : Type := {
  getcwd : string;
  toml_loads : string -> result (gmap string string);
  git_log : string -> result CompletedProcess;
  utcnow_isoformat : nat -> string;
  publish_parts : option (string -> gmap string string);
  Environment : option (string -> string -> result Template);
}.

(** A change the run made to the file system. *)
Inductive effect : Type :=
  | Makedirs (path : string)
  | Rmtree (path : string)
  | Copytree (src dst : string)
  | WriteFile (path data : string).

(** What the run changes: the file system, the lines printed, the number of
    readings of the clock, and the changes made so far, oldest first. *)
Record State : Type := {
  fs : node;
  printed : list string;
  clock_reads : nat;
  effects : list effect;
}.

(** A computation that may raise; the state reached is kept either way. *)
Definition M (A : Type) : Type := State -> result A * State.

Definition ret {A} (a : A) : M A := fun s => (Ok a, s).

Definition raise {A} (e : exn) : M A := fun s => (Raise e, s).

Definition bind {A B} (m : M A) (k : A -> M B) : M B :=
  fun s =>
    match m s with
    | (Ok a, s') => k a s'
    | (Raise e, s') => (Raise e, s')
    end.

Definition lift {A} (r : result A) : M A := fun s => (r, s).

#[global] Instance M_ret : MRet M := @ret.
#[global] Instance M_bind : MBind M := fun A B k m => bind m k.

(** [print(line)]. *)
Definition print (line : string) : M unit :=
  fun s => (Ok tt, {| fs := fs s; printed := printed s ++ [line];
                      clock_reads := clock_reads s; effects := effects s |}).

(** A call that changes the file system; [e] is recorded when it succeeds. *)
Definition fs_update (f : node -> result node) (e : effect) : M unit :=
  fun s =>
    match f (fs s) with
    | Ok n => (Ok tt, {| fs := n; printed := printed s;
                         clock_reads := clock_reads s; effects := effects s ++ [e] |})
    | Raise x => (Raise x, s)
    end.

(** A call that reads the file system. *)
Definition fs_read {A} (f : node -> A) : M A := fun s => (Ok (f (fs s)), s).

(** [datetime.now(timezone.utc).isoformat()]. *)
Definition utcnow (w : World) : M string :=
  fun s => (Ok (utcnow_isoformat w (clock_reads s)),
            {| fs := fs s; printed := printed s;
               clock_reads := S (clock_reads s); effects := effects s |}).

(** [try: m  except FileNotFoundError: pass]. *)
Definition except_FileNotFoundError_pass (m : M unit) : M unit :=
  fun s =>
    match m s with
    | (Raise FileNotFoundError, s') => (Ok tt, s')
    | r => r
    end.

(** [str(n)] for a length. *)
Definition str_of_nat (n : nat) : string := DecimalString.NilZero.string_of_uint (Nat.to_uint n).

(** ** The script *)

(** The line feed. *)
Definition nl : string := String (ascii_of_nat 10) EmptyString.

(** The components the system resolves a path to, from the working directory. *)
Definition resolve (w : World) (p : string) : list string :=
  PyPath.abs_components (getcwd w) p.

(** [load_config(path)] (lines 26-29). *)
Definition load_config (w : World) (path : string) : M (gmap string string) :=
  data ← (fun s => (FS.read_file (resolve w path) (fs s), s));
  lift (toml_loads w data).

(** The test of line 36: [fn.lower().endswith(".rst")]. *)
Definition is_rst (fn : string) : bool := PyStr.endswith (PyStr.lower fn) ".rst".

(** The two loops of [find_rst_files] over the triples of [os.walk]. *)
Definition collect_rst (triples : list (string * list string * list string)) : list string :=
  flat_map (fun t => map (PyPath.join (fst (fst t))) (List.filter is_rst (snd t))) triples.

(** What [os.scandir(top)] lists, if anything: the system reads [top] from
    the working directory. *)
Definition scanned (w : World) (root : node) (top : string) : option node :=
  FS.locate root (resolve w "") top.

(** [find_rst_files(content_dir)] (lines 32-38), on the file system [root]. *)
Definition find_rst_files (w : World) (root : node) (content_dir : string) : list string :=
  let rst_files := collect_rst (FS.walk content_dir (scanned w root content_dir)) in
  py_sorted String.ltb id false rst_files.

(** The loop of lines 49-54: a line that gives four parts becomes a commit,
    a line that gives fewer is passed over. *)
Fixpoint parse_lines (lines : list string) : result (list Commit) :=
  match lines with
  | [] => Ok []
  | line :: rest =>
      let parts := PyLines.split "|" 3 line in
      if Nat.ltb (length parts) 4 then parse_lines rest
      else
        match parts with
        | [a; b; c; d] =>
            result_map (cons {| sha := a; date := b; author := c; message := d |})
              (parse_lines rest)
        | _ => Raise ValueError
        end
  end.

(** [git_log_commits(path)] (lines 41-55). *)
Definition git_log_commits (w : World) (path : string) : result (list Commit) :=
  result_bind (PyPath.relpath (getcwd w) path (getcwd w)) (fun rel =>
  result_bind (git_log w rel) (fun res =>
    if negb (Z.eqb (returncode res) 0) then Ok []
    else
      let lines :=
        List.filter (fun l => PyStr.truthy (PyStr.strip l)) (PyLines.splitlines (stdout res)) in
      parse_lines lines)).

(** [first_commit_date(commits)] (lines 58-62). *)
Definition first_commit_date (w : World) (commits : list Commit) : M string :=
  match commits with
  | [] => utcnow w
  | c :: cs => mret (date (List.last cs c))
  end.

(** [render_rst(rst_text)] (lines 65-69). *)
Definition render_rst (w : World) (rst_text : string) : result string :=
  match publish_parts w with
  | None => Raise (RuntimeError "docutils not installed")
  | Some publish =>
      let parts := publish rst_text in
      Ok (default "" (parts !! "html_body"))
  end.

(** [ensure_dir(path)] (lines 72-73). *)
Definition ensure_dir (w : World) (path : string) : M unit :=
  fs_update (FS.makedirs (resolve w path)) (Makedirs path).

(** [os.path.exists(path)]. *)
Definition path_exists (w : World) (path : string) : M bool :=
  fs_read (fun root => bool_decide (is_Some (FS.lookup_path (resolve w path) root))).

(** [copy_static(static_dir, out_dir)] (lines 76-81). *)
Definition copy_static (w : World) (static_dir out_dir : string) : M unit :=
  let src := PyPath.abspath (getcwd w) static_dir in
  let dst := PyPath.join out_dir (PyPath.basename static_dir) in
  found ← path_exists w dst;
  (if found : bool then fs_update (FS.rmtree (resolve w dst)) (Rmtree dst) else mret tt);;
  fs_update (FS.copytree (resolve w src) (resolve w dst)) (Copytree src dst).

(** [copy_media(media_dir, out_dir)] (lines 83-88). *)
Definition copy_media (w : World) (media_dir out_dir : string) : M unit :=
  let src := PyPath.abspath (getcwd w) media_dir in
  let dst := PyPath.join out_dir (PyPath.basename media_dir) in
  found ← path_exists w dst;
  (if found : bool then fs_update (FS.rmtree (resolve w dst)) (Rmtree dst) else mret tt);;
  fs_update (FS.copytree (resolve w src) (resolve w dst)) (Copytree src dst).

(** The loop of lines 112-128. *)
Fixpoint build_pages (w : World) (rst_files : list string) : M (list Page) :=
  match rst_files with
  | [] => mret []
  | path :: rest =>
      commits ← lift (git_log_commits w path);
      first_date ← first_commit_date w commits;
      rel ← lift (PyPath.relpath (getcwd w) path (getcwd w));
      let slug := PyPath.splitext_root (PyPath.basename path) in
      let out_filename := slug +:+ ".html" in
      let page := {| page_path := path; page_rel := rel; page_slug := slug;
                     page_out_filename := out_filename; page_commits := commits;
                     page_first_commit_date := first_date; page_title := slug;
                     page_url := "/" +:+ out_filename |} in
      pages ← build_pages w rest;
      mret (page :: pages)
  end.

(** Lines 131 and 203: the pages by first commit date, newest first. *)
Definition order (pages : list Page) : list Page :=
  py_sorted String.ltb page_first_commit_date true pages.

(** A [for] loop that prints one line per page. *)
Fixpoint print_each (line : Page -> string) (pages : list Page) : M unit :=
  match pages with
  | [] => mret tt
  | p :: rest => print (line p);; print_each line rest
  end.

Definition dry_run_line (p : Page) : string :=
  page_rel p +:+ " first_commit_date= " +:+ page_first_commit_date p
  +:+ " commits= " +:+ str_of_nat (length (page_commits p)).

Definition skip_render_line (p : Page) : string :=
  page_rel p +:+ " -> " +:+ page_out_filename p
  +:+ " commits= " +:+ str_of_nat (length (page_commits p)).

(** The message of line 147. *)
Definition missing_dependencies : string :=
  "Missing dependencies: please install docutils and Jinja2." +:+ nl
  +:+ "Example: python -m pip install docutils Jinja2 tomli" +:+ nl
  +:+ "Or use your environment manager (pixi).".

(** Lines 161-166: the CNAME file, when a domain is given. *)
Definition write_cname (w : World) (domain : option string) (out_dir : string) : M unit :=
  match domain with
  | Some d =>
      if PyStr.truthy d then
        let cname_path := PyPath.join out_dir "CNAME" in
        let text := PyStr.strip d +:+ nl in
        fs_update (FS.write_file (resolve w cname_path) text) (WriteFile cname_path text);;
        print ("Wrote CNAME -> " +:+ cname_path)
      else mret tt
  | None => mret tt
  end.

(** The loop of lines 185-201. *)
Fixpoint render_pages (w : World) (page_tpl : Template)
    (site_title static_dir out_dir repo_url branch : string) (pages : list Page) : M unit :=
  match pages with
  | [] => mret tt
  | p :: rest =>
      rst_text ← (fun s => (FS.read_file (resolve w (page_path p)) (fs s), s));
      body ← lift (render_rst w rst_text);
      let rendered :=
        page_tpl (PageBindings (page_title p) site_title static_dir body (page_commits p)
                    (commit_url repo_url)
                    (commits_for_path_url repo_url branch (page_rel p))) in
      let out_path := PyPath.join out_dir (page_out_filename p) in
      fs_update (FS.write_file (resolve w out_path) rendered) (WriteFile out_path rendered);;
      print ("Wrote " +:+ out_path);;
      render_pages w page_tpl site_title static_dir out_dir repo_url branch rest
  end.

(** Line 103: [args.output or cfg.get("output_dir", "site")]. *)
Definition output_dir (args : Args) (cfg : gmap string string) : string :=
  match arg_output args with
  | Some o => if PyStr.truthy o then o else default "site" (cfg !! "output_dir")
  | None => default "site" (cfg !! "output_dir")
  end.

(** Lines 158-170 of [main]: the output directory, the static files, the
    CNAME file and the media files. *)
Definition publish_assets (w : World) (static_dir media_dir out_dir : string)
    (domain : option string) : M unit :=
  ensure_dir w out_dir;;
  copy_static w static_dir out_dir;;
  write_cname w domain out_dir;;
  except_FileNotFoundError_pass (copy_media w media_dir out_dir).

(** Lines 184-211 of [main]: the pages, then the index; the exit code 0. *)
Definition render_site (w : World) (page_tpl index_tpl : Template)
    (site_title static_dir out_dir repo_url branch : string) (pages : list Page) : M Z :=
  render_pages w page_tpl site_title static_dir out_dir repo_url branch pages;;
  let pages := order pages in
  let index_html := index_tpl (IndexBindings pages site_title static_dir) in
  let index_path := PyPath.join out_dir "index.html" in
  fs_update (FS.write_file (resolve w index_path) index_html)
    (WriteFile index_path index_html);;
  print ("Wrote index for " +:+ str_of_nat (length pages) +:+ " pages");;
  mret 0.

(** [main(argv)] (lines 91-211), from the parsed arguments on; the value is
    the exit code. *)
Definition main (w : World) (args : Args) : M Z :=
  cfg ← load_config w (arg_config args);
  let content_dir := default "content" (cfg !! "content_dir") in
  let static_dir := default "static" (cfg !! "static_dir") in
  let media_dir := default "media" (cfg !! "media_dir") in
  let out_dir := output_dir args cfg in
  let repo_url := default "" (cfg !! "repo_url") in
  let branch := default "main" (cfg !! "branch") in
  let site_title := default "Site" (cfg !! "site_title") in
  let domain := cfg !! "domain" in
  rst_files ← fs_read (fun root => find_rst_files w root content_dir);
  pages ← build_pages w rst_files;
  let pages := order pages in
  if arg_dry_run args then
    print "Dry run: discovered pages:";;
    print_each dry_run_line pages;;
    mret 0
  else if arg_skip_render args then
    print "Skip-render mode: verifying git discovery and listing pages";;
    print_each skip_render_line pages;;
    mret 0
  else
    match publish_parts w, Environment w with
    | Some _, Some environment =>
        let get_template := environment (PyPath.join (getcwd w) "templates") in
        base ← lift (get_template "base.html");
        page_tpl ← lift (get_template "page.html");
        index_tpl ← lift (get_template "index.html");
        publish_assets w static_dir media_dir out_dir domain;;
        render_site w page_tpl index_tpl site_title static_dir out_dir repo_url branch pages
    | _, _ =>
        print missing_dependencies;;
        mret 2
    end.

(** * The vocabulary of the statements *)

(** ** Dates as instants *)

(** The reading of an ISO-8601 timestamp, as git prints it for [%cI]
    ([2023-06-15T10:00:00+02:00], or with [Z] for UTC) and as [isoformat]
    prints the clock ([2026-11-04T10:00:00.250000+00:00]): the instant it
    names, in microseconds since 1970-01-01T00:00:00Z.  The script never
    reads a timestamp this way; this is the meaning of "chronologically
    later" in the statements about the order of the pages. *)
Module Iso8601.

Definition digit (c : ascii) : option Z :=
  let n := nat_of_ascii c in
  if Nat.leb 48 n && Nat.leb n 57 then Some (Z.of_nat n - 48) else None.

(** The number a run of decimal digits writes, most significant first;
    [acc] is the value of the digits read so far. *)
Fixpoint number_from (acc : Z) (s : string) : option Z :=
  match s with
  | EmptyString => Some acc
  | String c r =>
      match digit c with
      | Some d => number_from (10 * acc + d) r
      | None => None
      end
  end.

Definition number (s : string) : option Z :=
  match s with
  | EmptyString => None
  | _ => number_from 0 s
  end.

(** The calendar of [datetime]: the proleptic Gregorian calendar, with its
    count of days in which 1 January of year 1 is day 1. *)
Definition is_leap (y : Z) : bool :=
  Z.eqb (y mod 4) 0 && (negb (Z.eqb (y mod 100) 0) || Z.eqb (y mod 400) 0).

Definition days_before_year (y : Z) : Z :=
  let p := y - 1 in p * 365 + p / 4 - p / 100 + p / 400.

Definition days_before_month (y m : Z) : Z :=
  match m with
  | 1 => 0 | 2 => 31 | 3 => 59 | 4 => 90 | 5 => 120 | 6 => 151
  | 7 => 181 | 8 => 212 | 9 => 243 | 10 => 273 | 11 => 304 | _ => 334
  end + (if Z.ltb 2 m && is_leap y then 1 else 0).

Definition days_in_month (y m : Z) : Z :=
  match m with
  | 2 => if is_leap y then 29 else 28
  | 4 | 6 | 9 | 11 => 30
  | _ => 31
  end.

(** Days from 1970-01-01, which is day 719163, to the given day. *)
Definition days_from_civil (y m d : Z) : Z :=
  days_before_year y + days_before_month y m + d - 719163.

(** The offset of a zone designator, in seconds east of UTC. *)
Definition zone_offset (z : string) : option Z :=
  match z with
  | String "Z" EmptyString => Some 0
  | String sign rest =>
      if Nat.eqb (String.length rest) 5 && Ascii.eqb (default "x"%char (String.get 2 rest)) ":" then
        h ← number (String.substring 0 2 rest);
        m ← number (String.substring 3 2 rest);
        if Ascii.eqb sign "+" then Some (h * 3600 + m * 60)
        else if Ascii.eqb sign "-" then Some (- (h * 3600 + m * 60))
        else None
      else None
  | EmptyString => None
  end.

(** The fraction of a second and the zone that follow the seconds. *)
Definition fraction_and_zone (rest : string) : option (Z * Z) :=
  match rest with
  | String "." r =>
      f ← number (String.substring 0 6 r);
      if Nat.leb 6 (String.length r) then
        o ← zone_offset (String.substring 6 (String.length r - 6)%nat r);
        Some (f, o)
      else None
  | _ => o ← zone_offset rest; Some (0, o)
  end.

(** The instant a timestamp names, when it is well formed. *)
Definition instant (s : string) : option Z :=
  let sep i c := Ascii.eqb (default "x"%char (String.get i s)) c in
  if sep 4%nat "-"%char && sep 7%nat "-"%char && sep 10%nat "T"%char
     && sep 13%nat ":"%char && sep 16%nat ":"%char then
    y ← number (String.substring 0 4 s);
    mo ← number (String.substring 5 2 s);
    d ← number (String.substring 8 2 s);
    h ← number (String.substring 11 2 s);
    mi ← number (String.substring 14 2 s);
    sec ← number (String.substring 17 2 s);
    '(f, o) ← fraction_and_zone (String.substring 19 (String.length s - 19)%nat s);
    Some ((days_from_civil y mo d * 86400 + h * 3600 + mi * 60 + sec - o) * 1000000 + f)
  else None.

(** The day added to a leap year. *)
Definition leap_day (y : Z) : Z := if is_leap y then 1 else 0.

(** A day of the calendar. *)
Definition valid_date (y m d : Z) : Prop := 1 <= m <= 12 /\ 1 <= d <= days_in_month y m.

(** The character of a decimal digit. *)
Definition digit_char (k : Z) : ascii := ascii_of_nat (48 + Z.to_nat k).

(** A number below 100 on two digits, followed by [rest]. *)
Definition two_digits (n : Z) (rest : string) : string :=
  String (digit_char (n / 10)) (String (digit_char (n mod 10)) rest).

(** A number below 10000 on four digits, followed by [rest]. *)
Definition four_digits (n : Z) (rest : string) : string :=
  two_digits (n / 100) (two_digits (n mod 100) rest).

(** The timestamp [YYYY-MM-DDTHH:MM:SS] followed by the zone designator, the
    form in which git prints [%cI]. *)
Definition stamp (y mo d h mi sec : Z) (zone : string) : string :=
  four_digits y (String "-" (two_digits mo (String "-" (two_digits d (String "T"
    (two_digits h (String ":" (two_digits mi (String ":" (two_digits sec zone)))))))))).

(** The fields of a timestamp that names a second of a day of the calendar. *)
Definition valid_stamp (y mo d h mi sec : Z) : Prop :=
  0 <= y <= 9999 /\ valid_date y mo d /\ 0 <= h <= 23 /\ 0 <= mi <= 59 /\ 0 <= sec <= 59.

(** The seconds from 1970-01-01T00:00:00 to the local time of the fields. *)
Definition seconds_of (y mo d h mi sec : Z) : Z :=
  days_from_civil y mo d * 86400 + h * 3600 + mi * 60 + sec.

(** [s] is a timestamp of the form above in the zone [zone]. *)
Definition stamped (zone : string) (s : string) : Prop :=
  exists y mo d h mi sec, valid_stamp y mo d h mi sec /\ s = stamp y mo d h mi sec zone.

End Iso8601.

(** ** What the specification says of the links, the lines and the files *)

(** What the specification describes: the repository URL without one
    trailing ["/"] and without a [".git"] suffix. *)
Definition spec_normalized_url (repo_url : string) : string :=
  let without_slash :=
    if PyStr.endswith repo_url "/"
    then String.substring 0 (String.length repo_url - 1) repo_url else repo_url in
  if PyStr.endswith without_slash ".git"
  then String.substring 0 (String.length without_slash - 4) without_slash
  else without_slash.

(** The number of occurrences of a character. *)
Fixpoint count_char (c : ascii) (s : string) : nat :=
  match s with
  | EmptyString => 0
  | String d r => (if Ascii.eqb d c then 1 else 0) + count_char c r
  end.

(** [sep.join(parts)]. *)
Fixpoint join_with (sep : ascii) (parts : list string) : string :=
  match parts with
  | [] => EmptyString
  | [p] => p
  | p :: rest => p +:+ String sep (join_with sep rest)
  end.





(** A component a normalised path can have. *)
Definition plain_component (c : string) : Prop :=
  c <> "" /\ c <> "." /\ c <> ".." /\ count_char "/" c = 0%nat.

(** The last character of a string. *)
Fixpoint last_char (s : string) : option ascii :=
  match s with
  | EmptyString => None
  | String c r =>
      match last_char r with
      | None => Some c
      | Some d => Some d
      end
  end.

(** ** What a run changes and returns *)

(** [b] may come after [a]: nothing asks for [b] before [a]. *)
Definition may_follow {A K : Type} (lt : K -> K -> bool) (key : A -> K) (reverse : bool)
    (a b : A) : Prop :=
  precedes lt key reverse b a = false.

(** [m] changes neither the file system nor the record of changes. *)
Definition writes_nothing {A} (m : M A) : Prop :=
  forall s, fs (m s).2 = fs s /\ effects (m s).2 = effects s.

(** Every value [m] returns satisfies [P]. *)
Definition returns {A} (P : A -> Prop) (m : M A) : Prop :=
  forall s a, (m s).1 = Ok a -> P a.

(** The states that differ from [s] in the clock alone. *)
Definition later_clock (s s' : State) : Prop :=
  fs s' = fs s /\ printed s' = printed s /\ effects s' = effects s.

#[local] Unset Elimination Schemes.
#[local] Set Elimination Schemes.



(** The run gets as far as publishing: full-render mode, the configuration
    loaded, the histories read into [pages], both libraries imported and the
    three templates found. *)
Definition reaches_publishing (w : World) (args : Args) (s : State)
    (cfg : gmap string string) (pages : list Page) (page_tpl index_tpl : Template)
    (s1 : State) : Prop :=
  arg_dry_run args = false /\ arg_skip_render args = false
  /\ load_config w (arg_config args) s = (Ok cfg, s)
  /\ build_pages w (find_rst_files w (fs s) (default "content" (cfg !! "content_dir"))) s
     = (Ok pages, s1)
  /\ is_Some (publish_parts w)
  /\ exists environment base,
       Environment w = Some environment
       /\ environment (PyPath.join (getcwd w) "templates") "base.html" = Ok base
       /\ environment (PyPath.join (getcwd w) "templates") "page.html" = Ok page_tpl
       /\ environment (PyPath.join (getcwd w) "templates") "index.html" = Ok index_tpl.

(** ** What git prints, where paths lead, and what a page is built from *)

(** The line git prints for a commit with the format [%H|%cI|%an|%s]. *)
Definition format_commit (c : Commit) : string :=
  sha c +:+ "|" +:+ date c +:+ "|" +:+ author c +:+ "|" +:+ message c.

(** The string has a character at which [str.splitlines] cuts. *)
Fixpoint has_linebreak (s : string) : bool :=
  match s with
  | EmptyString => false
  | String c r => PyLines.is_linebreak c || has_linebreak r
  end.

(** A commit whose hash, date and author have no pipe, and whose line has
    no line boundary (the subject may have pipes). *)
Definition clean_commit (c : Commit) : Prop :=
  count_char "|" (sha c) = 0%nat /\ count_char "|" (date c) = 0%nat
  /\ count_char "|" (author c) = 0%nat
  /\ has_linebreak (format_commit c) = false.

(** The character git ends a line with. *)
Definition line_feed : ascii := ascii_of_nat 10.

(** [p] and [q] part ways: from some directory on, they name different entries. *)
Inductive apart : list string -> list string -> Prop :=
  | apart_here (a b : string) (p q : list string) : a <> b -> apart (a :: p) (b :: q)
  | apart_below (a : string) (p q : list string) : apart p q -> apart (a :: p) (a :: q).

(** The HTML of a page (lines 190-198): the page template on the body the
    reStructuredText gives, with the links of the page. *)
Definition page_html (page_tpl : Template) (site_title static_dir repo_url branch : string)
    (p : Page) (body : string) : string :=
  page_tpl (PageBindings (page_title p) site_title static_dir body (page_commits p)
              (commit_url repo_url) (commits_for_path_url repo_url branch (page_rel p))).

(** The file a page is written to. *)
Definition page_out_path (out_dir : string) (p : Page) : string :=
  PyPath.join out_dir (page_out_filename p).

(** What lines 113-128 record of the file of a page: the history git
    gives, the path from the working directory, and the names derived from
    the file name. *)
Definition built_from (w : World) (p : Page) : Prop :=
  git_log_commits w (page_path p) = Ok (page_commits p)
  /\ PyPath.relpath (getcwd w) (page_path p) (getcwd w) = Ok (page_rel p)
  /\ page_slug p = PyPath.splitext_root (PyPath.basename (page_path p))
  /\ page_title p = page_slug p
  /\ page_out_filename p = page_slug p +:+ ".html"
  /\ page_url p = "/" +:+ page_out_filename p.

(** A page git knows no commit of. *)
Definition without_history (p : Page) : bool :=
  match page_commits p with
  | [] => true
  | _ :: _ => false
  end.

(** The first commit date of a page built between the states [s] and
    [s']: the date of the last commit of its history, or, without a
    history, a reading of the clock made in between. *)
Definition dated (w : World) (s s' : State) (p : Page) : Prop :=
  match page_commits p with
  | [] =>
      exists k, (clock_reads s <= k < clock_reads s')%nat
                /\ page_first_commit_date p = utcnow_isoformat w k
  | c :: cs => page_first_commit_date p = date (List.last cs c)
  end.

(** [m] only adds lines to what is printed. *)
Definition prints_on {A} (m : M A) : Prop :=
  forall s, exists lines, printed (m s).2 = printed s ++ lines.

(** [m] leaves what the path [p] leads to as it is. *)
Definition keeps {A} (p : list string) (m : M A) : Prop :=
  forall s, FS.lookup_path p (fs (m s).2) = FS.lookup_path p (fs s).

(** A path that is not empty and has no component [..]: the system
    resolves it to the place [normpath] gives, whatever exists. *)
Definition plain_path (p : string) : Prop :=
  p <> "" /\ Forall (fun c => c <> "..") (PyLines.split_all "/" p).

(** ** The lines of git *)



(** ** Well-formed trees *)

#[local] Unset Elimination Schemes.
#[local] Set Elimination Schemes.



(** * Concrete sites *)

(** A site in [/home/u/site]: four source files (one of them in a
    subdirectory, one with an upper-case extension), a note that is not a
    source, and a static directory; no media directory. *)
Definition site_tree : node :=
  Dir [("home", Dir [("u", Dir [("site", Dir [
    ("config.toml", File "site");
    ("content", Dir [("news.rst", File "News");
                     ("about.RST", File "About");
                     ("notes.txt", File "todo");
                     ("drafts", Dir [("draft.rst", File "Draft")])]);
    ("static", Dir [("style.css", File "body {}")])])])])].

Definition site_cfg : gmap string string :=
  <["domain" := " example.org "]> (<["repo_url" := "https://example.com/repo.git"]> ∅).

(** The history git prints for [content/news.rst]: two commits, and a line
    that is no commit. *)
Definition news_log : string :=
  "h2|2023-06-15T10:00:00+02:00|Ann|Fix typo" +:+ nl
  +:+ "h1|2020-01-01T10:00:00+00:00|Bob|Add news | first post" +:+ nl
  +:+ "warning: something" +:+ nl.

(** A template that shows what it is given. *)
Definition show_bindings (b : Bindings) : string :=
  match b with
  | PageBindings title _ _ body _ _ history => title +:+ ": " +:+ body +:+ " " +:+ history
  | IndexBindings pages _ _ => PyPath.join_sep (map page_slug pages)
  end.

(** The world of the site; [libraries] tells whether docutils and Jinja2
    can be imported.  [content/about.RST] is not tracked (git prints
    nothing), and git fails on [content/drafts/draft.rst]. *)
Definition site_world (libraries : bool) : World := {|
  getcwd := "/home/u/site";
  toml_loads := fun data => if String.eqb data "site" then Ok site_cfg else Raise TOMLDecodeError;
  git_log := fun rel =>
    if String.eqb rel "content/news.rst" then Ok {| returncode := 0; stdout := news_log |}
    else if String.eqb rel "content/drafts/draft.rst" then Ok {| returncode := 128; stdout := "" |}
    else Ok {| returncode := 0; stdout := "" |};
  utcnow_isoformat := fun n => "2026-11-04T10:00:0" +:+ str_of_nat n +:+ ".250000+00:00";
  publish_parts :=
    if libraries then Some (fun text => <["html_body" := "<p>" +:+ text +:+ "</p>"]> ∅) else None;
  Environment := if libraries then Some (fun _ _ => Ok show_bindings) else None;
|}.

Definition site_state : State :=
  {| fs := site_tree; printed := []; clock_reads := 0; effects := [] |}.

Definition site_args (dry_run skip_render : bool) : Args :=
  {| arg_config := "config.toml"; arg_output := None;
     arg_skip_render := skip_render; arg_dry_run := dry_run |}.

(** The pages of the site as [main] builds them, and the state then. *)
Definition site_pages : list Page :=
  match (build_pages (site_world true)
           (find_rst_files (site_world true) site_tree "content") site_state).1 with
  | Ok pages => pages
  | Raise _ => []
  end.

Definition site_state_built : State :=
  (build_pages (site_world true)
     (find_rst_files (site_world true) site_tree "content") site_state).2.

(** The state of the site once the output directory, the static files and
    the CNAME file are in place. *)
Definition site_state_published : State :=
  ((ensure_dir (site_world true) "site";;
    copy_static (site_world true) "static" "site";;
    write_cname (site_world true) (Some " example.org ") "site") site_state_built).2.

(** A repository whose committers live in different time zones.  The first
    commit of [east.rst] was made at 20:00 UTC on 14 June 2023 by a
    committer at UTC+05:00, the first commit of [west.rst] four hours
    later by a committer at UTC-01:00; [recent.rst] was committed at 09:30
    UTC on 4 November 2026 by a committer at UTC+02:00, half an hour before
    the run; any other file is not tracked.  The clock reads 10:00:00.25
    UTC on 4 November 2026. *)
Definition zones_world : World := {|
  getcwd := "/home/u/site";
  toml_loads := fun _ => Ok ∅;
  git_log := fun rel =>
    if String.eqb rel "content/east.rst"
    then Ok {| returncode := 0; stdout := "e1|2023-06-15T01:00:00+05:00|Ann|Add east" |}
    else if String.eqb rel "content/west.rst"
    then Ok {| returncode := 0; stdout := "w1|2023-06-14T23:00:00-01:00|Bob|Add west" |}
    else if String.eqb rel "content/recent.rst"
    then Ok {| returncode := 0; stdout := "r1|2026-11-04T11:30:00+02:00|Cy|Add recent" |}
    else Ok {| returncode := 0; stdout := "" |};
  utcnow_isoformat := fun _ => "2026-11-04T10:00:00.250000+00:00";
  publish_parts := None;
  Environment := None;
|}.

(** The page [main] builds for a file of [content], given its history and
    its date. *)
Definition content_page (name : string) (commits : list Commit) (first_date : string) : Page :=
  {| page_path := "content/" +:+ name +:+ ".rst";
     page_rel := "content/" +:+ name +:+ ".rst";
     page_slug := name;
     page_out_filename := name +:+ ".html";
     page_commits := commits;
     page_first_commit_date := first_date;
     page_title := name;
     page_url := "/" +:+ name +:+ ".html" |}.

Definition east_page : Page :=
  content_page "east"
    [{| sha := "e1"; date := "2023-06-15T01:00:00+05:00"; author := "Ann"; message := "Add east" |}]
    "2023-06-15T01:00:00+05:00".

Definition west_page : Page :=
  content_page "west"
    [{| sha := "w1"; date := "2023-06-14T23:00:00-01:00"; author := "Bob"; message := "Add west" |}]
    "2023-06-14T23:00:00-01:00".

Definition recent_page : Page :=
  content_page "recent"
    [{| sha := "r1"; date := "2026-11-04T11:30:00+02:00"; author := "Cy"; message := "Add recent" |}]
    "2026-11-04T11:30:00+02:00".

Definition untracked_page : Page :=
  content_page "untracked" [] "2026-11-04T10:00:00.250000+00:00".

(** The state of the site once the output directory is made. *)
Definition site_state_ensured : State :=
  (ensure_dir (site_world true) "site" site_state_built).2.

(** The state of the site after a full run. *)
Definition site_state_rendered : State :=
  (main (site_world true) (site_args false false) site_state).2.

(** The site after an earlier run that published media files, the media
    directory having been removed since. *)
Definition site_state_stale : State :=
  {| fs := Dir [("home", Dir [("u", Dir [("site", Dir [
             ("config.toml", File "site");
             ("content", Dir [("news.rst", File "News")]);
             ("static", Dir [("style.css", File "body {}")]);
             ("site", Dir [("media", Dir [("old.png", File "png")])])])])])];
     printed := []; clock_reads := 0; effects := [] |}.

(** The world of the site on a machine without git: starting it raises
    [FileNotFoundError]. *)
Definition gitless_world : World := {|
  getcwd := "/home/u/site";
  toml_loads := toml_loads (site_world true);
  git_log := fun _ => Raise FileNotFoundError;
  utcnow_isoformat := utcnow_isoformat (site_world true);
  publish_parts := publish_parts (site_world true);
  Environment := Environment (site_world true);
|}.




(** The site with the media directory named with a trailing slash, which
    is how a directory is often written; there is no such directory. *)
Definition slash_media_world : World := {|
  getcwd := "/home/u/site";
  toml_loads := fun _ => Ok (<["media_dir" := "media/"]> site_cfg);
  git_log := git_log (site_world true);
  utcnow_isoformat := utcnow_isoformat (site_world true);
  publish_parts := publish_parts (site_world true);
  Environment := Environment (site_world true);
|}.

(** A site without a domain, whose static directory holds a [CNAME] file
    and is named with a trailing slash. *)
Definition marker_state : State :=
  {| fs := Dir [("home", Dir [("u", Dir [("site", Dir [
             ("config.toml", File "site");
             ("content", Dir [("news.rst", File "News")]);
             ("static", Dir [("style.css", File "body {}");
                             ("CNAME", File "old.example.org")])])])])];
     printed := []; clock_reads := 0; effects := [] |}.

Definition marker_cfg : gmap string string := <["static_dir" := "static/"]> ∅.

Definition marker_world : World := {|
  getcwd := "/home/u/site";
  toml_loads := fun _ => Ok marker_cfg;
  git_log := git_log (site_world true);
  utcnow_isoformat := utcnow_isoformat (site_world true);
  publish_parts := publish_parts (site_world true);
  Environment := Environment (site_world true);
|}.


(** The world of the site once the domain is taken out of its
    configuration. *)
Definition domainless_world : World := {|
  getcwd := "/home/u/site";
  toml_loads := fun _ => Ok (<["repo_url" := "https://example.com/repo.git"]> ∅);
  git_log := git_log (site_world true);
  utcnow_isoformat := utcnow_isoformat (site_world true);
  publish_parts := publish_parts (site_world true);
  Environment := Environment (site_world true);
|}.

(** * Properties *)

(** ** The library functions on examples *)

Example commit_url_example :
  commit_url "https://example.com/repo.git" "abc123"
  = "https://example.com/repo/commit/abc123".
Proof. reflexivity. Qed.

Example commits_for_path_url_example :
  commits_for_path_url "https://example.com/repo.git" "main" "docs/x.rst"
  = "https://example.com/repo/commits/main/docs/x.rst".
Proof. reflexivity. Qed.

Example splitlines_example :
  PyLines.splitlines (String "a" (String (ascii_of_nat 13) (String (ascii_of_nat 10)
     (String (ascii_of_nat 10) (String "b" (String (ascii_of_nat 10) EmptyString))))))
  = ["a"; ""; "b"].
Proof. reflexivity. Qed.

Example split_example :
  PyLines.split "|" 3 "h|d|a|s|t" = ["h"; "d"; "a"; "s|t"]
  /\ PyLines.split "|" 3 "h|d|a" = ["h"; "d"; "a"]
  /\ PyLines.split "|" 3 "" = [""].
Proof. repeat split. Qed.

Example basename_example :
  PyPath.basename "content/blog/post.RST" = "post.RST"
  /\ PyPath.splitext_root "post.tar.rst" = "post.tar"
  /\ PyPath.splitext_root ".rst" = ".rst"
  /\ PyPath.splitext_root "a/b.c/d" = "a/b.c/d".
Proof. repeat split. Qed.

Example relpath_example :
  PyPath.relpath "/home/u/site" "content/a.rst" "/home/u/site" = Ok "content/a.rst"
  /\ PyPath.relpath "/home/u/site" "/home/u/other/./x/../a.rst" "/home/u/site" = Ok "../other/a.rst"
  /\ PyPath.relpath "/home/u/site" "." "/home/u/site" = Ok "."
  /\ PyPath.abspath "/home/u/site" "static/" = "/home/u/site/static".
Proof. repeat split. Qed.

Example instant_epoch :
  Iso8601.instant "1970-01-01T00:00:00+00:00" = Some 0
  /\ Iso8601.instant "1970-01-01T01:00:00+01:00" = Some 0
  /\ Iso8601.instant "1969-12-31T23:00:00-01:00" = Some 0
  /\ Iso8601.instant "1970-01-02T00:00:00Z" = Some 86400000000
  /\ Iso8601.instant "2000-03-01T00:00:00.000001+00:00" = Some 951868800000001
  /\ Iso8601.instant "yesterday" = None.
Proof. repeat split. Qed.

(** ** Repository links *)

Lemma truthy_false (s : string) : PyStr.truthy s = false <-> s = "".
Proof. destruct s; simpl; split; congruence. Qed.

(** C8. When no repository URL is configured ([repo_url] is missing from the
    configuration or is the empty string), [commit_url] and
    [commits_for_path_url] return ["#"] for every hash, branch and path. *)
Theorem links_are_placeholders_without_repo_url
    (cfg : gmap string string) (branch sha relpath : string) :
  cfg !! "repo_url" = None \/ cfg !! "repo_url" = Some "" ->
  commit_url (default "" (cfg !! "repo_url")) sha = "#"
  /\ commits_for_path_url (default "" (cfg !! "repo_url")) branch relpath = "#".
Proof.
  intros [-> | ->]; simpl; split; reflexivity.
Qed.

Lemma links_are_placeholders_without_repo_url_witness :
  commit_url (default "" ((<["branch" := "main"]> ∅ : gmap string string) !! "repo_url")) "abc123" = "#"
  /\ commits_for_path_url (default "" ((<["branch" := "main"]> ∅ : gmap string string) !! "repo_url"))
       "main" "docs/x.rst" = "#".
Proof.
  apply (links_are_placeholders_without_repo_url (<["branch" := "main"]> ∅)).
  left. reflexivity.
Defined.

(** C2, on the code.  The example of the specification holds, but
    [rstrip(".git")] removes trailing characters of the set [. g i t], not
    the suffix: a repository URL that ends in one of these letters loses
    them, although it has neither a trailing ["/"] nor a [".git"] suffix. *)
Theorem commit_url_strips_letters_of_the_name :
  spec_normalized_url "https://example.com/widget" = "https://example.com/widget"
  /\ commit_url "https://example.com/widget" "abc123"
     = "https://example.com/widge/commit/abc123"
  /\ commits_for_path_url "https://example.com/widget" "main" "docs/x.rst"
     = "https://example.com/widge/commits/main/docs/x.rst"
  /\ commit_url "https://example.com/repo.git" "abc123"
     = spec_normalized_url "https://example.com/repo.git" +:+ "/commit/abc123"
  /\ commits_for_path_url "https://example.com/repo.git" "main" "docs/x.rst"
     = spec_normalized_url "https://example.com/repo.git" +:+ "/commits/main/docs/x.rst".
Proof. repeat split. Qed.

Lemma rstrip_fixed (chars s : string) (c : ascii) :
  last_char s = Some c -> PyStr.mem c chars = false -> PyStr.rstrip chars s = s.
Proof.
  intros Hlast Hc. induction s as [|d r IH]; [done|].
  simpl in Hlast |- *. destruct (last_char r) as [x|] eqn:Hr.
  - rewrite (IH Hlast). by destruct r.
  - destruct r; [|simpl in Hr; by destruct (last_char r)].
    injection Hlast as ->. simpl. by rewrite Hc.
Qed.

Lemma rstrip_suffix (chars s t : string) :
  PyStr.rstrip chars t = "" -> PyStr.rstrip chars (s +:+ t) = PyStr.rstrip chars s.
Proof.
  intros Ht. induction s as [|d r IH]; [done|].
  change (PyStr.rstrip chars (String d (r +:+ t)) = PyStr.rstrip chars (String d r)).
  simpl. by rewrite IH.
Qed.

(** Where the code does what the specification describes: a repository URL
    that ends in [.git], after a name whose last character is none of
    [. g i t /], gives the links of the URL without that suffix. *)
Lemma links_of_git_suffix (base : string) (c : ascii) (sha branch relpath : string) :
  last_char base = Some c -> PyStr.mem c ".git/" = false ->
  commit_url (base +:+ ".git") sha = base +:+ "/commit/" +:+ sha
  /\ commits_for_path_url (base +:+ ".git") branch relpath
     = base +:+ "/commits/" +:+ branch +:+ "/" +:+ relpath.
Proof.
  intros Hlast Hc.
  assert (Hgit : PyStr.mem c ".git" = false /\ PyStr.mem c "/" = false).
  { simpl in Hc |- *. repeat (apply orb_false_elim in Hc as [? Hc]).
    split; [|by rewrite orb_false_r].
    repeat (apply orb_false_intro; [done|]). done. }
  destruct Hgit as [Hgit Hslash].
  assert (Hurl : PyStr.rstrip "/" (PyStr.rstrip ".git" (base +:+ ".git")) = base).
  { rewrite rstrip_suffix by done. rewrite (rstrip_fixed ".git" base c) by done.
    by apply (rstrip_fixed "/" base c). }
  assert (Htruthy : PyStr.truthy (base +:+ ".git") = true) by (by destruct base).
  unfold commit_url, commits_for_path_url. by rewrite Htruthy, Hurl.
Qed.

Lemma links_of_git_suffix_witness :
  commit_url ("https://example.com/repo" +:+ ".git") "abc123"
  = "https://example.com/repo" +:+ "/commit/" +:+ "abc123"
  /\ commits_for_path_url ("https://example.com/repo" +:+ ".git") "main" "docs/x.rst"
     = "https://example.com/repo" +:+ "/commits/" +:+ "main" +:+ "/" +:+ "docs/x.rst".
Proof.
  apply (links_of_git_suffix "https://example.com/repo" "o"); reflexivity.
Defined.

(** ** Sorting *)

Section PySortFacts.
Context {A K : Type} (lt : K -> K -> bool) (key : A -> K) (reverse : bool).
Hypothesis lt_asym : forall a b, lt a b = true -> lt b a = false.
Hypothesis lt_negtrans : forall a b c, lt b a = false -> lt c b = false -> lt c a = false.

Lemma precedes_asym (a b : A) :
  precedes lt key reverse a b = true -> precedes lt key reverse b a = false.
Proof. unfold precedes. destruct reverse; apply lt_asym. Qed.

Lemma may_follow_trans (a b c : A) :
  may_follow lt key reverse a b -> may_follow lt key reverse b c ->
  may_follow lt key reverse a c.
Proof.
  unfold may_follow, precedes. destruct reverse; intros Hab Hbc.
  - exact (lt_negtrans _ _ _ Hbc Hab).
  - exact (lt_negtrans _ _ _ Hab Hbc).
Qed.

Lemma py_insert_perm (x : A) (l : list A) :
  Permutation (py_insert lt key reverse x l) (x :: l).
Proof.
  induction l as [|y r IH]; simpl; [reflexivity|].
  destruct (precedes lt key reverse y x); [|reflexivity].
  rewrite IH. apply perm_swap.
Qed.

Lemma py_sorted_perm (l : list A) : Permutation (py_sorted lt key reverse l) l.
Proof.
  induction l as [|x r IH]; simpl; [reflexivity|].
  rewrite py_insert_perm. by constructor.
Qed.

Lemma py_insert_sorted (x : A) (l : list A) :
  StronglySorted (may_follow lt key reverse) l ->
  StronglySorted (may_follow lt key reverse) (py_insert lt key reverse x l).
Proof.
  induction l as [|y r IH]; simpl; intros Hs.
  - repeat constructor.
  - apply StronglySorted_cons in Hs as [Hy Hr].
    destruct (precedes lt key reverse y x) eqn:Hyx.
    + apply StronglySorted_cons. split; [|by apply IH].
      rewrite py_insert_perm. constructor; [|done].
      by apply precedes_asym.
    + apply StronglySorted_cons. split; [|by apply StronglySorted_cons].
      constructor; [done|].
      eapply Forall_impl; [exact Hy|].
      intros z Hz. by apply (may_follow_trans x y z).
Qed.

Lemma py_sorted_sorted (l : list A) :
  StronglySorted (may_follow lt key reverse) (py_sorted lt key reverse l).
Proof.
  induction l as [|x r IH]; simpl; [constructor|]. by apply py_insert_sorted.
Qed.

(** Stability: elements none of which must precede another keep their
    input order. *)
Lemma py_insert_filter (f : A -> bool) (x : A) (l : list A) :
  (forall a b, f a = true -> f b = true -> precedes lt key reverse a b = false) ->
  List.filter f (py_insert lt key reverse x l) = List.filter f (x :: l).
Proof.
  intros Htie. induction l as [|y r IH]; [done|].
  cbn [py_insert]. destruct (precedes lt key reverse y x) eqn:Hyx; [|done].
  cbn [List.filter] in *. rewrite IH.
  destruct (f y) eqn:Hfy, (f x) eqn:Hfx; try done.
  rewrite (Htie y x Hfy Hfx) in Hyx. discriminate.
Qed.

Lemma py_sorted_stable (f : A -> bool) (l : list A) :
  (forall a b, f a = true -> f b = true -> precedes lt key reverse a b = false) ->
  List.filter f (py_sorted lt key reverse l) = List.filter f l.
Proof.
  intros Htie. induction l as [|x r IH]; [done|].
  cbn [py_sorted]. rewrite py_insert_filter by done.
  cbn [List.filter]. by rewrite IH.
Qed.

(** In a sorted list, an element that must precede another stands at a
    smaller index. *)
Lemma sorted_lookup_lt (l : list A) (i j : nat) (a b : A) :
  StronglySorted (may_follow lt key reverse) l ->
  l !! i = Some a -> l !! j = Some b ->
  precedes lt key reverse a b = true -> (i < j)%nat.
Proof.
  intros Hs Hi Hj Hab.
  destruct (decide (i < j)%nat) as [|Hge]; [done|exfalso].
  assert (Hirr : precedes lt key reverse a a = false).
  { destruct (precedes lt key reverse a a) eqn:E; [|done].
    by rewrite (precedes_asym _ _ E) in E. }
  destruct (decide (i = j)) as [->|Hne].
  { simplify_eq. congruence. }
  assert (Hji : (j < i)%nat) by lia.
  apply lookup_lt_Some in Hi as Hlen.
  apply list_elem_of_split_length in Hi as (l1 & l2 & -> & ->).
  rewrite lookup_app_l in Hj by done.
  apply list_elem_of_lookup_2 in Hj.
  apply StronglySorted_app in Hs as (H12 & _ & _).
  specialize (H12 b a Hj ltac:(left)).
  unfold may_follow in H12. congruence.
Qed.

End PySortFacts.

Lemma StronglySorted_weaken {A} (R S : A -> A -> Prop) (l : list A) :
  (forall a b, R a b -> S a b) -> StronglySorted R l -> StronglySorted S l.
Proof.
  intros HRS. induction 1 as [|x l Hl IH Hx]; constructor; [done|].
  eapply Forall_impl; [exact Hx|]. intros y. apply HRS.
Qed.

(** ** The order of [str] *)

Lemma ascii_compare_lt_trans (a b c : ascii) :
  Ascii.compare a b = Lt -> Ascii.compare b c = Lt -> Ascii.compare a c = Lt.
Proof.
  unfold Ascii.compare. rewrite !N.compare_lt_iff. lia.
Qed.

Lemma ascii_compare_refl (a : ascii) : Ascii.compare a a = Eq.
Proof. unfold Ascii.compare. apply N.compare_refl. Qed.

Lemma string_compare_lt_trans (a b c : string) :
  String.compare a b = Lt -> String.compare b c = Lt -> String.compare a c = Lt.
Proof.
  revert b c. induction a as [|x a IH]; intros [|y b] [|z c]; simpl; try congruence.
  destruct (Ascii.compare x y) eqn:Hxy; try congruence.
  - apply Ascii.compare_eq_iff in Hxy as ->.
    destruct (Ascii.compare y z); try congruence. apply IH.
  - destruct (Ascii.compare y z) eqn:Hyz; try congruence.
    + apply Ascii.compare_eq_iff in Hyz as <-. by rewrite Hxy.
    + by rewrite (ascii_compare_lt_trans _ _ _ Hxy Hyz).
Qed.

Lemma string_ltb_asym (a b : string) : String.ltb a b = true -> String.ltb b a = false.
Proof.
  unfold String.ltb. rewrite (String.compare_antisym a b).
  destruct (String.compare b a); simpl; congruence.
Qed.

Lemma string_ltb_negtrans (a b c : string) :
  String.ltb b a = false -> String.ltb c b = false -> String.ltb c a = false.
Proof.
  unfold String.ltb. intros Hba Hcb.
  destruct (String.compare c a) eqn:Hca; try done.
  destruct (String.compare b a) eqn:Eba; try done.
  - apply String.compare_eq_iff in Eba as ->. by rewrite Hca in Hcb.
  - assert (Hab : String.compare a b = Lt).
    { rewrite String.compare_antisym, Eba. done. }
    by rewrite (string_compare_lt_trans _ _ _ Hca Hab) in Hcb.
Qed.

Lemma string_ltb_irrefl (a : string) : String.ltb a a = false.
Proof.
  destruct (String.ltb a a) eqn:E; [|done]. by rewrite (string_ltb_asym _ _ E) in E.
Qed.

(** ** The order of the pages *)

(** [order] keeps the pages: the output is a rearrangement of the input. *)
Lemma order_permutation (pages : list Page) : Permutation (order pages) pages.
Proof. apply py_sorted_perm. Qed.

(** The dates go down along the output, as [str] values: no page is
    followed by a page with a greater date string. *)
Lemma order_sorted (pages : list Page) :
  StronglySorted
    (fun p q => String.ltb (page_first_commit_date p) (page_first_commit_date q) = false)
    (order pages).
Proof.
  apply (py_sorted_sorted String.ltb page_first_commit_date true
           string_ltb_asym string_ltb_negtrans).
Qed.

(** A page whose date string is greater stands before every page whose
    date string is smaller, whatever the input order. *)
Lemma order_greater_string_first (pages : list Page) (i j : nat) (p q : Page) :
  order pages !! i = Some p -> order pages !! j = Some q ->
  String.ltb (page_first_commit_date q) (page_first_commit_date p) = true ->
  (i < j)%nat.
Proof.
  intros Hi Hj Hlt.
  exact (sorted_lookup_lt String.ltb page_first_commit_date true
           string_ltb_asym _ i j p q
           (py_sorted_sorted _ _ _ string_ltb_asym string_ltb_negtrans pages) Hi Hj Hlt).
Qed.

(** Pages with one and the same date string keep their input order. *)
Lemma order_stable (pages : list Page) (d : string) :
  List.filter (fun p => String.eqb (page_first_commit_date p) d) (order pages)
  = List.filter (fun p => String.eqb (page_first_commit_date p) d) pages.
Proof.
  apply py_sorted_stable.
  intros a b Ha%String.eqb_eq Hb%String.eqb_eq. unfold precedes.
  rewrite Ha, Hb. apply string_ltb_irrefl.
Qed.

(** What [order] does: its output is a rearrangement of the pages in which
    the date strings go down, a page with a greater date string stands
    before any page with a smaller one, and the pages that share a date
    string are in their input order. *)
Theorem order_is_stable_descending_sort (pages : list Page) :
  Permutation (order pages) pages
  /\ StronglySorted
       (fun p q => String.leb (page_first_commit_date q) (page_first_commit_date p) = true)
       (order pages)
  /\ (forall i j p q,
        order pages !! i = Some p -> order pages !! j = Some q ->
        String.ltb (page_first_commit_date q) (page_first_commit_date p) = true ->
        (i < j)%nat)
  /\ (forall d,
        List.filter (fun p => String.eqb (page_first_commit_date p) d) (order pages)
        = List.filter (fun p => String.eqb (page_first_commit_date p) d) pages).
Proof.
  split; [apply order_permutation|]. split; [|split].
  - eapply StronglySorted_weaken; [|apply order_sorted].
    intros p q. unfold String.ltb, String.leb.
    by destruct (String.compare (page_first_commit_date p) (page_first_commit_date q)) eqn:E;
      rewrite String.compare_antisym, E.
  - intros i j p q. apply order_greater_string_first.
  - apply order_stable.
Qed.

(** ** Dates in one zone *)

Import Iso8601.

Lemma days_before_year_succ (y : Z) :
  days_before_year (y + 1) = days_before_year y + 365 + leap_day y.
Proof.
  unfold days_before_year, leap_day, is_leap. cbv zeta.
  replace (y + 1 - 1) with y by lia.
  destruct (Z.eqb_spec (y mod 4) 0), (Z.eqb_spec (y mod 100) 0), (Z.eqb_spec (y mod 400) 0);
    simpl; Z.div_mod_to_equations; lia.
Qed.

Lemma days_before_year_mono (a b : Z) : a <= b -> days_before_year a <= days_before_year b.
Proof.
  intros H. unfold days_before_year. cbv zeta. Z.div_mod_to_equations. lia.
Qed.

Ltac month_cases m H :=
  assert (m = 1 \/ m = 2 \/ m = 3 \/ m = 4 \/ m = 5 \/ m = 6 \/ m = 7 \/ m = 8
          \/ m = 9 \/ m = 10 \/ m = 11 \/ m = 12) as H by lia;
  repeat (destruct H as [H|H]); subst m.

Lemma day_of_year_bound (y m d : Z) :
  valid_date y m d -> 1 <= days_before_month y m + d <= 365 + leap_day y.
Proof.
  intros [Hm Hd]. unfold leap_day. month_cases m Hc;
    unfold days_before_month, days_in_month in *; simpl in *;
    destruct (is_leap y); simpl in *; lia.
Qed.

Lemma month_start_mono (y m m' : Z) :
  1 <= m -> m < m' -> m' <= 12 ->
  days_before_month y m + days_in_month y m <= days_before_month y m'.
Proof.
  intros H1 H2 H3. month_cases m Hc; month_cases m' Hc'; try lia;
    unfold days_before_month, days_in_month; simpl; destruct (is_leap y); simpl; lia.
Qed.

Lemma days_from_civil_lt (y m d y' m' d' : Z) :
  valid_date y m d -> valid_date y' m' d' ->
  y < y' \/ (y = y' /\ (m < m' \/ (m = m' /\ d < d'))) ->
  days_from_civil y m d < days_from_civil y' m' d'.
Proof.
  intros Hv Hv' Hlt. unfold days_from_civil.
  pose proof (day_of_year_bound _ _ _ Hv). pose proof (day_of_year_bound _ _ _ Hv').
  destruct Hlt as [Hy|[-> [Hm|[-> Hd]]]].
  - pose proof (days_before_year_succ y).
    pose proof (days_before_year_mono (y + 1) y' ltac:(lia)). lia.
  - destruct Hv as [? ?], Hv' as [? ?].
    pose proof (month_start_mono y' m m' ltac:(lia) Hm ltac:(lia)). lia.
  - lia.
Qed.

Ltac digit_cases k H :=
  assert (k = 0 \/ k = 1 \/ k = 2 \/ k = 3 \/ k = 4 \/ k = 5 \/ k = 6 \/ k = 7
          \/ k = 8 \/ k = 9) as H by lia;
  repeat (destruct H as [H|H]); subst k.

Lemma digit_digit_char (k : Z) : 0 <= k <= 9 -> digit (digit_char k) = Some k.
Proof. intros Hk. digit_cases k H; reflexivity. Qed.

Lemma ascii_compare_digit (x y : Z) :
  0 <= x <= 9 -> 0 <= y <= 9 -> Ascii.compare (digit_char x) (digit_char y) = Z.compare x y.
Proof. intros Hx Hy. digit_cases x H; digit_cases y H'; reflexivity. Qed.

Lemma number_two_digits (n : Z) :
  0 <= n <= 99 -> number (two_digits n "") = Some n.
Proof.
  intros Hn. unfold number, two_digits. cbn [number_from].
  rewrite !digit_digit_char by (Z.div_mod_to_equations; lia).
  f_equal. Z.div_mod_to_equations; lia.
Qed.

Lemma number_four_digits (n : Z) :
  0 <= n <= 9999 -> number (four_digits n "") = Some n.
Proof.
  intros Hn. unfold number, four_digits, two_digits. cbn [number_from].
  rewrite !digit_digit_char by (Z.div_mod_to_equations; lia).
  f_equal. Z.div_mod_to_equations; lia.
Qed.

Lemma compare_base (a b qa ra qb rb k : Z) (c : comparison) :
  a = k * qa + ra -> b = k * qb + rb -> 0 <= ra < k -> 0 <= rb < k ->
  match Z.compare qa qb with Eq => match Z.compare ra rb with Eq => c | o => o end | o => o end
  = match Z.compare a b with Eq => c | o => o end.
Proof.
  intros -> -> Hra Hrb.
  destruct (Z.compare_spec qa qb) as [->|H|H].
  - destruct (Z.compare_spec ra rb) as [->|H|H].
    + by rewrite Z.compare_refl.
    + assert (Z.compare (k * qb + ra) (k * qb + rb) = Lt) as -> by (apply Z.compare_lt_iff; lia). done.
    + assert (Z.compare (k * qb + ra) (k * qb + rb) = Gt) as -> by (apply Z.compare_gt_iff; lia). done.
  - assert (Z.compare (k * qa + ra) (k * qb + rb) = Lt) as -> by (apply Z.compare_lt_iff; nia). done.
  - assert (Z.compare (k * qa + ra) (k * qb + rb) = Gt) as -> by (apply Z.compare_gt_iff; nia). done.
Qed.

Lemma compare_two_digits (a b : Z) (r1 r2 : string) :
  0 <= a <= 99 -> 0 <= b <= 99 ->
  String.compare (two_digits a r1) (two_digits b r2)
  = match Z.compare a b with Eq => String.compare r1 r2 | o => o end.
Proof.
  intros Ha Hb. unfold two_digits. cbn [String.compare].
  rewrite !ascii_compare_digit by (Z.div_mod_to_equations; lia).
  apply (compare_base a b (a / 10) (a mod 10) (b / 10) (b mod 10) 10);
    Z.div_mod_to_equations; lia.
Qed.

Lemma compare_four_digits (a b : Z) (r1 r2 : string) :
  0 <= a <= 9999 -> 0 <= b <= 9999 ->
  String.compare (four_digits a r1) (four_digits b r2)
  = match Z.compare a b with Eq => String.compare r1 r2 | o => o end.
Proof.
  intros Ha Hb. unfold four_digits.
  rewrite compare_two_digits by (Z.div_mod_to_equations; lia).
  rewrite compare_two_digits by (Z.div_mod_to_equations; lia).
  apply (compare_base a b (a / 100) (a mod 100) (b / 100) (b mod 100) 100);
    Z.div_mod_to_equations; lia.
Qed.

Lemma compare_same_char (c : ascii) (r1 r2 : string) :
  String.compare (String c r1) (String c r2) = String.compare r1 r2.
Proof. cbn [String.compare]. by rewrite ascii_compare_refl. Qed.

Lemma string_compare_refl (s : string) : String.compare s s = Eq.
Proof. induction s as [|c r IH]; [done|]. by rewrite compare_same_char. Qed.

Lemma substring_all (s : string) : String.substring 0 (String.length s) s = s.
Proof. induction s as [|c r IH]; [done|]. simpl. by rewrite IH. Qed.

Lemma zone_is_no_fraction (zone : string) (off : Z) :
  zone_offset zone = Some off -> fraction_and_zone zone = Some (0, off).
Proof.
  destruct zone as [|c r]; [done|].
  intros Hz. unfold fraction_and_zone.
  destruct (Ascii.eqb_spec c ".") as [->|Hne].
  - exfalso. unfold zone_offset in Hz. cbn in Hz.
    destruct (_ && _) in Hz; [|done].
    destruct (number (String.substring 0 2 r)) in Hz; [|done]. cbn in Hz.
    destruct (number (String.substring 3 2 r)) in Hz; done.
  - assert (Hsame : forall (A : Type) (x y : A),
              match String c r with String "." _ => x | _ => y end = y).
    { intros A x y. destruct c as [[] [] [] [] [] [] [] []]; try done. }
    rewrite Hsame. rewrite Hz. done.
Qed.

Lemma days_in_month_le (y mo : Z) : days_in_month y mo <= 31.
Proof.
  unfold days_in_month. repeat case_match; lia.
Qed.

Lemma instant_stamp (y mo d h mi sec : Z) (zone : string) (off : Z) :
  valid_stamp y mo d h mi sec -> zone_offset zone = Some off ->
  instant (stamp y mo d h mi sec zone)
  = Some ((seconds_of y mo d h mi sec - off) * 1000000 + 0).
Proof.
  intros (Hy & [Hmo Hd] & Hh & Hmi & Hsec) Hzone.
  pose proof (days_in_month_le y mo) as Hd'.
  unfold instant, stamp, four_digits, two_digits.
  cbn [String.get String.substring String.length default Nat.sub].
  unfold id. cbn [Ascii.eqb Bool.eqb andb].
  replace (String.substring 0 0 zone) with "" by (by destruct zone).
  rewrite Nat.sub_0_r, substring_all.
  change (String (digit_char ((y / 100) / 10)) (String (digit_char ((y / 100) mod 10))
            (String (digit_char ((y mod 100) / 10))
               (String (digit_char ((y mod 100) mod 10)) ""))))
    with (four_digits y "").
  repeat match goal with
         | |- context [String (digit_char (?n / 10)) (String (digit_char (?n mod 10)) "")] =>
             change (String (digit_char (n / 10)) (String (digit_char (n mod 10)) ""))
               with (two_digits n "")
         end.
  rewrite number_four_digits by lia.
  rewrite !number_two_digits by lia.
  rewrite (zone_is_no_fraction zone off Hzone). reflexivity.
Qed.

Lemma seconds_of_lt (y mo d h mi sec y' mo' d' h' mi' sec' : Z) :
  valid_stamp y mo d h mi sec -> valid_stamp y' mo' d' h' mi' sec' ->
  y < y' \/ (y = y' /\ (mo < mo' \/ (mo = mo' /\ (d < d' \/ (d = d' /\
    (h < h' \/ (h = h' /\ (mi < mi' \/ (mi = mi' /\ sec < sec'))))))))) ->
  seconds_of y mo d h mi sec < seconds_of y' mo' d' h' mi' sec'.
Proof.
  intros (Hy & Hdate & Hh & Hmi & Hsec) (Hy' & Hdate' & Hh' & Hmi' & Hsec') Hlt.
  unfold seconds_of.
  assert (Hdays : days_from_civil y mo d < days_from_civil y' mo' d'
                  \/ (days_from_civil y mo d = days_from_civil y' mo' d'
                      /\ (h < h' \/ (h = h' /\ (mi < mi' \/ (mi = mi' /\ sec < sec')))))).
  { destruct Hlt as [H|[-> [H|[-> [H|[-> H]]]]]].
    - left. apply days_from_civil_lt; auto.
    - left. apply days_from_civil_lt; auto.
    - left. apply days_from_civil_lt; auto.
    - right. done. }
  lia.
Qed.

(** With one zone, the order of the strings is the order of the instants. *)
Lemma stamp_ltb (y mo d h mi sec y' mo' d' h' mi' sec' : Z) (zone : string) :
  valid_stamp y mo d h mi sec -> valid_stamp y' mo' d' h' mi' sec' ->
  String.ltb (stamp y mo d h mi sec zone) (stamp y' mo' d' h' mi' sec' zone) = true
  <-> seconds_of y mo d h mi sec < seconds_of y' mo' d' h' mi' sec'.
Proof.
  intros Hv Hv'.
  pose proof (seconds_of_lt _ _ _ _ _ _ _ _ _ _ _ _ Hv Hv') as Hlt.
  pose proof (seconds_of_lt _ _ _ _ _ _ _ _ _ _ _ _ Hv' Hv) as Hgt.
  destruct Hv as (Hy & [Hmo Hd] & Hh & Hmi & Hsec).
  destruct Hv' as (Hy' & [Hmo' Hd'] & Hh' & Hmi' & Hsec').
  pose proof (days_in_month_le y mo). pose proof (days_in_month_le y' mo').
  unfold String.ltb, stamp.
  rewrite compare_four_digits by lia. rewrite compare_same_char.
  rewrite compare_two_digits by lia. rewrite compare_same_char.
  rewrite compare_two_digits by lia. rewrite compare_same_char.
  rewrite compare_two_digits by lia. rewrite compare_same_char.
  rewrite compare_two_digits by lia. rewrite compare_same_char.
  rewrite compare_two_digits by lia. rewrite string_compare_refl.
  destruct (Z.compare_spec y y') as [->|?|?]; [|split; [intros _; apply Hlt; lia|done]
                                               |split; [done|intros ?; exfalso; specialize (Hgt ltac:(lia)); lia]].
  destruct (Z.compare_spec mo mo') as [->|?|?]; [|split; [intros _; apply Hlt; lia|done]
                                               |split; [done|intros ?; exfalso; specialize (Hgt ltac:(lia)); lia]].
  destruct (Z.compare_spec d d') as [->|?|?]; [|split; [intros _; apply Hlt; lia|done]
                                               |split; [done|intros ?; exfalso; specialize (Hgt ltac:(lia)); lia]].
  destruct (Z.compare_spec h h') as [->|?|?]; [|split; [intros _; apply Hlt; lia|done]
                                               |split; [done|intros ?; exfalso; specialize (Hgt ltac:(lia)); lia]].
  destruct (Z.compare_spec mi mi') as [->|?|?]; [|split; [intros _; apply Hlt; lia|done]
                                               |split; [done|intros ?; exfalso; specialize (Hgt ltac:(lia)); lia]].
  destruct (Z.compare_spec sec sec') as [->|?|?]; [|split; [intros _; apply Hlt; lia|done]
                                               |split; [done|intros ?; exfalso; specialize (Hgt ltac:(lia)); lia]].
  split; [done|lia].
Qed.

(** When the dates of all pages are timestamps of one zone, the order of the
    pages is the order of the instants: a page whose first commit is
    chronologically later stands before the other, whatever the input
    order. *)
Theorem order_chronological_in_one_zone
    (zone : string) (off : Z) (pages : list Page) (i j : nat) (p q : Page) (tp tq : Z) :
  zone_offset zone = Some off ->
  Forall (fun p => stamped zone (page_first_commit_date p)) pages ->
  order pages !! i = Some p -> order pages !! j = Some q ->
  instant (page_first_commit_date p) = Some tp ->
  instant (page_first_commit_date q) = Some tq ->
  tq < tp -> (i < j)%nat.
Proof.
  intros Hzone Hall Hi Hj Hp Hq Hlt.
  assert (Hin : forall k r, order pages !! k = Some r ->
                  stamped zone (page_first_commit_date r)).
  { intros k r Hk. rewrite List.Forall_forall in Hall. apply Hall.
    apply (Permutation_in _ (order_permutation pages)).
    apply list_elem_of_In. by eapply list_elem_of_lookup_2. }
  destruct (Hin i p Hi) as (y & mo & d & h & mi & sec & Hv & Hsp).
  destruct (Hin j q Hj) as (y' & mo' & d' & h' & mi' & sec' & Hv' & Hsq).
  rewrite Hsp, (instant_stamp _ _ _ _ _ _ _ _ Hv Hzone) in Hp.
  rewrite Hsq, (instant_stamp _ _ _ _ _ _ _ _ Hv' Hzone) in Hq.
  injection Hp as <-. injection Hq as <-.
  eapply order_greater_string_first; [exact Hi|exact Hj|].
  rewrite Hsp, Hsq. apply stamp_ltb; [done|done|lia].
Qed.

Lemma order_chronological_in_one_zone_witness :
  (0 < 1)%nat.
Proof.
  apply (order_chronological_in_one_zone "+02:00" 7200
           [ content_page "old" [] (stamp 2020 1 1 10 0 0 "+02:00");
             content_page "new" [] (stamp 2023 6 15 9 30 0 "+02:00") ]
           0 1
           (content_page "new" [] (stamp 2023 6 15 9 30 0 "+02:00"))
           (content_page "old" [] (stamp 2020 1 1 10 0 0 "+02:00"))
           1686814200000000 1577865600000000).
  - reflexivity.
  - repeat constructor;
      [exists 2020, 1, 1, 10, 0, 0|exists 2023, 6, 15, 9, 30, 0];
      (split; [vm_compute; intuition congruence|reflexivity]).
  - reflexivity.
  - reflexivity.
  - reflexivity.
  - reflexivity.
  - reflexivity.
Defined.

(** ** Dates of first commit *)

Lemma last_default {A} (l : list A) (d x : A) : last l = Some x -> List.last l d = x.
Proof.
  induction l as [|a [|b l'] IH]; [done|by intros [= ->]|].
  intros Hlast. by apply IH.
Qed.

(** The date of a history that is not empty is the date of its last commit,
    and the clock is not read. *)
Lemma first_commit_date_of_history (w : World) (commits : list Commit) (c : Commit) (s : State) :
  last commits = Some c -> first_commit_date w commits s = (Ok (date c), s).
Proof.
  destruct commits as [|c0 [|c1 cs]]; [done|by intros [= ->]|].
  intros Hlast. unfold first_commit_date.
  by rewrite (last_default (c1 :: cs) c0 c Hlast).
Qed.

(** The date of the empty history is the reading of the clock. *)
Lemma first_commit_date_of_no_history (w : World) (s : State) :
  (first_commit_date w [] s).1 = Ok (utcnow_isoformat w (clock_reads s))
  /\ clock_reads (first_commit_date w [] s).2 = S (clock_reads s).
Proof. done. Qed.

(** [first_commit_date] on any history: the date of the last commit, the
    oldest of a history that git lists newest first, and for the empty
    history the reading of the clock. *)
Theorem first_commit_date_is_last_or_now (w : World) (commits : list Commit) (s : State) :
  match last commits with
  | Some c => first_commit_date w commits s = (Ok (date c), s)
  | None =>
      commits = []
      /\ (first_commit_date w commits s).1 = Ok (utcnow_isoformat w (clock_reads s))
      /\ clock_reads (first_commit_date w commits s).2 = S (clock_reads s)
  end.
Proof.
  destruct (last commits) as [c|] eqn:Hlast.
  - by apply first_commit_date_of_history.
  - apply last_None in Hlast as ->. split; [done|]. apply first_commit_date_of_no_history.
Qed.

(** C1, on the code.  [order] compares the dates as strings.  The pages of
    [east.rst] and [west.rst] are what [main] builds from their histories;
    the first commit of [west.rst] is the later one, by four hours, yet
    [east.rst] comes first whatever the input order, because its date is
    written in a zone where the day had already changed. *)
Theorem order_follows_date_strings_across_zones :
  (build_pages zones_world ["content/east.rst"; "content/west.rst"] site_state).1
  = Ok [east_page; west_page]
  /\ Iso8601.instant (page_first_commit_date east_page) = Some 1686772800000000
  /\ Iso8601.instant (page_first_commit_date west_page) = Some 1686787200000000
  /\ order [east_page; west_page] = [east_page; west_page]
  /\ order [west_page; east_page] = [east_page; west_page].
Proof. vm_compute. repeat split. Qed.

(** C3, on the code.  The date of a history is the date of its last commit
    and the date of no history is the reading of the clock, but the page
    without history does not sort as the newest: [recent.rst] was committed
    half an hour before the clock was read, and its page comes first,
    because its date is written in a zone that is two hours ahead. *)
Theorem page_without_history_is_not_always_first :
  (build_pages zones_world ["content/recent.rst"; "content/untracked.rst"] site_state).1
  = Ok [recent_page; untracked_page]
  /\ page_commits untracked_page = []
  /\ page_first_commit_date untracked_page = utcnow_isoformat zones_world 0
  /\ Iso8601.instant (page_first_commit_date recent_page) = Some 1793784600000000
  /\ Iso8601.instant (page_first_commit_date untracked_page) = Some 1793786400250000
  /\ order [recent_page; untracked_page] = [recent_page; untracked_page]
  /\ order [untracked_page; recent_page] = [recent_page; untracked_page].
Proof. vm_compute. repeat split. Qed.

(** ** Splitting lines into fields *)


Lemma split_length (sep : ascii) (n : nat) (s : string) :
  length (PyLines.split sep n s) = S (Nat.min n (count_char sep s)).
Proof.
  revert n. induction s as [|c r IH]; intros n; simpl; [by rewrite Nat.min_0_r|].
  destruct (Ascii.eqb c sep); simpl.
  - destruct n as [|m]; simpl; [done|]. by rewrite IH.
  - specialize (IH n). destruct (PyLines.split sep n r); simpl in *; lia.
Qed.



(** Stripping keeps a character that is not in the set stripped. *)
Lemma rstrip_keeps (chars : string) (c : ascii) (s : string) :
  PyStr.mem c chars = false -> (0 < count_char c s)%nat ->
  (0 < count_char c (PyStr.rstrip chars s))%nat.
Proof.
  intros Hc. induction s as [|d r IH]; simpl; [done|].
  destruct (Ascii.eqb d c) eqn:Hd.
  - apply Ascii.eqb_eq in Hd as ->. intros _.
    destruct (PyStr.rstrip chars r); [rewrite Hc|]; simpl; rewrite Ascii.eqb_refl; lia.
  - intros Hr. specialize (IH Hr).
    destruct (PyStr.rstrip chars r); simpl in *; [lia|]. rewrite Hd. lia.
Qed.

Lemma lstrip_keeps (chars : string) (c : ascii) (s : string) :
  PyStr.mem c chars = false -> (0 < count_char c s)%nat ->
  (0 < count_char c (PyStr.lstrip chars s))%nat.
Proof.
  intros Hc. induction s as [|d r IH]; simpl; [done|].
  destruct (PyStr.mem d chars) eqn:Hd.
  - destruct (Ascii.eqb d c) eqn:E; [|done].
    apply Ascii.eqb_eq in E as ->. congruence.
  - simpl. done.
Qed.

Lemma blank_line_has_no_pipe (l : string) :
  PyStr.truthy (PyStr.strip l) = false -> count_char "|" l = 0%nat.
Proof.
  intros Hblank. destruct (count_char "|" l) as [|k] eqn:E; [done|exfalso].
  assert (H : (0 < count_char "|" (PyStr.strip l))%nat).
  { unfold PyStr.strip. apply lstrip_keeps; [done|]. apply rstrip_keeps; [done|lia]. }
  apply truthy_false in Hblank. rewrite Hblank in H. simpl in H. lia.
Qed.

(** ** History extraction *)


Lemma parse_lines_skips_blank (lines : list string) :
  parse_lines (List.filter (fun l => PyStr.truthy (PyStr.strip l)) lines) = parse_lines lines.
Proof.
  induction lines as [|line rest IH]; [done|].
  cbn [List.filter]. destruct (PyStr.truthy (PyStr.strip line)) eqn:Hblank.
  - cbn [parse_lines]. by rewrite IH.
  - cbn [parse_lines]. rewrite IH.
    apply blank_line_has_no_pipe in Hblank.
    pose proof (split_length "|" 3 line) as Hlen. rewrite Hblank in Hlen.
    simpl in Hlen. rewrite Hlen. done.
Qed.

(** ** Content discovery *)





Lemma endswith_iff (s suffix : string) :
  PyStr.endswith s suffix = true <-> exists front, s = front +:+ suffix.
Proof.
  induction s as [|c r IH]; cbn [PyStr.endswith].
  - destruct (String.eqb_spec suffix "") as [->|Hne]; split; try done.
    + intros _. by exists "".
    + intros [[|d front] H]; cbn in H; [by subst|discriminate].
  - rewrite orb_true_iff, IH.
    destruct (String.eqb_spec (String c r) suffix) as [<-|Hne]; split.
    + intros _. by exists "".
    + intros _. by left.
    + intros [|[front ->]]; [done|]. by exists (String c front).
    + intros [[|d front] H]; cbn in H; [by subst|].
      injection H as -> ->. right. by exists front.
Qed.







(** ** Absolute paths *)

Lemma split_all_no_sep (sep : ascii) (s : string) :
  Forall (fun p => count_char sep p = 0%nat) (PyLines.split_all sep s).
Proof.
  induction s as [|c r IH]; simpl; [by repeat constructor|].
  destruct (Ascii.eqb c sep) eqn:Hc; [by constructor|].
  destruct (PyLines.split_all sep r) as [|h t].
  - constructor; [|constructor]. simpl. by rewrite Hc.
  - apply Forall_cons in IH as [Hh Ht]. constructor; [|done]. simpl. by rewrite Hc, Hh.
Qed.

Lemma split_all_piece (sep : ascii) (a : string) :
  count_char sep a = 0%nat -> PyLines.split_all sep a = [a].
Proof.
  induction a as [|c r IH]; simpl; [done|].
  destruct (Ascii.eqb c sep); [done|]. intros Hr. by rewrite (IH Hr).
Qed.

Lemma split_all_app (sep : ascii) (a b : string) :
  count_char sep a = 0%nat ->
  PyLines.split_all sep (a +:+ String sep b) = a :: PyLines.split_all sep b.
Proof.
  induction a as [|c r IH]; intros Ha.
  - change (PyLines.split_all sep (String sep b) = "" :: PyLines.split_all sep b).
    simpl. by rewrite Ascii.eqb_refl.
  - change (PyLines.split_all sep (String c (r +:+ String sep b))
            = String c r :: PyLines.split_all sep b).
    simpl in Ha |- *. destruct (Ascii.eqb c sep); [done|]. by rewrite IH.
Qed.

Lemma split_all_join_sep (cs : list string) :
  Forall plain_component cs -> cs <> [] -> PyLines.split_all "/" (PyPath.join_sep cs) = cs.
Proof.
  induction 1 as [|c [|c' cs'] Hc Hcs IH]; [done| |]; intros _.
  - simpl. apply split_all_piece, Hc.
  - change (PyPath.join_sep (c :: c' :: cs')) with (c +:+ String "/" (PyPath.join_sep (c' :: cs'))).
    rewrite split_all_app by apply Hc. by rewrite IH.
Qed.

Lemma norm_step_plain (stack : list string) (comp : string) :
  Forall plain_component stack -> count_char "/" comp = 0%nat ->
  Forall plain_component (PyPath.norm_step stack comp).
Proof.
  intros Hstack Hcomp. unfold PyPath.norm_step.
  destruct (String.eqb_spec comp "") as [|H1]; [done|].
  destruct (String.eqb_spec comp ".") as [|H2]; [done|]. simpl.
  destruct (String.eqb_spec comp "..") as [|H3].
  - destruct Hstack; [constructor|done].
  - by constructor.
Qed.

Lemma fold_norm_step_plain (comps stack : list string) :
  Forall plain_component stack -> Forall (fun p => count_char "/" p = 0%nat) comps ->
  Forall plain_component (fold_left PyPath.norm_step comps stack).
Proof.
  intros Hstack Hcomps. revert stack Hstack.
  induction Hcomps as [|c cs Hc Hcs IH]; intros stack Hstack; [done|].
  simpl. apply IH. by apply norm_step_plain.
Qed.

Lemma abs_components_plain (cwd p : string) : Forall plain_component (PyPath.abs_components cwd p).
Proof.
  unfold PyPath.abs_components. apply Forall_rev.
  apply fold_norm_step_plain; [constructor|apply split_all_no_sep].
Qed.

Lemma fold_norm_step_push (cs stack : list string) :
  Forall plain_component cs -> fold_left PyPath.norm_step cs stack = rev cs ++ stack.
Proof.
  intros Hcs. revert stack. induction Hcs as [|c cs (H1 & H2 & H3 & _) Hcs IH]; intros stack; [done|].
  simpl. rewrite IH. unfold PyPath.norm_step.
  destruct (String.eqb_spec c "") as [|_]; [done|].
  destruct (String.eqb_spec c ".") as [|_]; [done|].
  destruct (String.eqb_spec c "..") as [|_]; [done|]. simpl.
  by rewrite <- app_assoc.
Qed.

Lemma join_absolute (a b : string) : PyPath.join a (String "/" b) = String "/" b.
Proof. unfold PyPath.join. simpl. by destruct b. Qed.

(** The system resolves [os.path.abspath(p)] to the directory it resolves
    [p] to. *)
Lemma resolve_abspath (w : World) (p : string) :
  resolve w (PyPath.abspath (getcwd w) p) = resolve w p.
Proof.
  unfold resolve, PyPath.abspath.
  pose proof (abs_components_plain (getcwd w) p) as Hplain.
  set (cs := PyPath.abs_components (getcwd w) p) in *.
  unfold PyPath.abs_components.
  change ("/" +:+ PyPath.join_sep cs) with (String "/" (PyPath.join_sep cs)).
  rewrite join_absolute.
  cbn [PyLines.split_all Ascii.eqb Bool.eqb fold_left].
  change (PyPath.norm_step [] "") with (@nil string).
  destruct cs as [|c cs'] eqn:Hcs; [done|].
  rewrite split_all_join_sep by done.
  rewrite fold_norm_step_push by done. by rewrite app_nil_r, rev_involutive.
Qed.


(** ** Runs: what a computation leaves unchanged, and what it returns *)

Lemma bind_ok {A B} (m : M A) (k : A -> M B) (s s' : State) (a : A) :
  m s = (Ok a, s') -> (m ≫= k) s = k a s'.
Proof. intros H. unfold mbind, M_bind, bind. by rewrite H. Qed.

Lemma bind_raise {A B} (m : M A) (k : A -> M B) (s s' : State) (e : exn) :
  m s = (Raise e, s') -> (m ≫= k) s = (Raise e, s').
Proof. intros H. unfold mbind, M_bind, bind. by rewrite H. Qed.

Lemma writes_nothing_bind {A B} (m : M A) (k : A -> M B) :
  writes_nothing m -> (forall a, writes_nothing (k a)) -> writes_nothing (m ≫= k).
Proof.
  intros Hm Hk s. unfold mbind, M_bind, bind.
  destruct (Hm s) as [Hfs Heff]. destruct (m s) as [[a|e] s']; simpl in *.
  - destruct (Hk a s') as [Hfs' Heff']. split; congruence.
  - done.
Qed.

Lemma writes_nothing_ret {A} (a : A) : writes_nothing (mret a : M A).
Proof. done. Qed.

Lemma writes_nothing_lift {A} (r : result A) : writes_nothing (lift r).
Proof. done. Qed.

Lemma writes_nothing_print (line : string) : writes_nothing (print line).
Proof. done. Qed.

Lemma writes_nothing_fs_read {A} (f : node -> A) : writes_nothing (fs_read f).
Proof. done. Qed.

Lemma writes_nothing_utcnow (w : World) : writes_nothing (utcnow w).
Proof. done. Qed.


Lemma writes_nothing_first_commit_date (w : World) (commits : list Commit) :
  writes_nothing (first_commit_date w commits).
Proof. destruct commits; [apply writes_nothing_utcnow|apply writes_nothing_ret]. Qed.

Lemma writes_nothing_build_pages (w : World) (rst_files : list string) :
  writes_nothing (build_pages w rst_files).
Proof.
  induction rst_files as [|path rest IH]; [apply writes_nothing_ret|].
  cbn [build_pages].
  apply writes_nothing_bind; [apply writes_nothing_lift|intros commits].
  apply writes_nothing_bind; [apply writes_nothing_first_commit_date|intros first_date].
  apply writes_nothing_bind; [apply writes_nothing_lift|intros rel].
  apply writes_nothing_bind; [apply IH|intros pages].
  apply writes_nothing_ret.
Qed.

Lemma writes_nothing_print_each (line : Page -> string) (pages : list Page) :
  writes_nothing (print_each line pages).
Proof.
  induction pages as [|p rest IH]; [apply writes_nothing_ret|].
  cbn [print_each]. apply writes_nothing_bind; [apply writes_nothing_print|by intros _].
Qed.



(** ** Runs that do not raise *)



Lemma append_assoc (a b c : string) : (a +:+ b) +:+ c = a +:+ (b +:+ c).
Proof.
  induction a as [|x a IH]; [done|].
  change (String x ((a +:+ b) +:+ c) = String x (a +:+ (b +:+ c))). by rewrite IH.
Qed.

Lemma join_ends_with (a b : string) : exists front, PyPath.join a b = front +:+ b.
Proof.
  unfold PyPath.join. destruct (PyStr.startswith b "/"); [by exists ""|].
  destruct (negb (PyStr.truthy a) || PyStr.endswith a "/"); [by exists a|].
  exists (a +:+ "/"). by rewrite append_assoc.
Qed.

Lemma append_empty (a b : string) : a +:+ b = "" -> b = "".
Proof. destruct a; [done|discriminate]. Qed.






Lemma print_each_run (line : Page -> string) (pages : list Page) (s : State) :
  print_each line pages s
  = (Ok tt, {| fs := fs s; printed := printed s ++ map line pages;
               clock_reads := clock_reads s; effects := effects s |}).
Proof.
  revert s. induction pages as [|p rest IH]; intros s.
  - destruct s. simpl. by rewrite app_nil_r.
  - cbn [print_each]. erewrite bind_ok by reflexivity. rewrite IH. simpl.
    by rewrite <- app_assoc.
Qed.

(** ** The modes of [main] *)





(** ** Last characters *)

Lemma last_char_app (a b : string) : b <> "" -> last_char (a +:+ b) = last_char b.
Proof.
  intros Hb. induction a as [|c a IH]; [done|].
  change (last_char (String c (a +:+ b)) = last_char b). simpl. rewrite IH.
  destruct b as [|d b]; [done|]. simpl. by destruct (last_char b).
Qed.

Lemma last_char_join (a b : string) : b <> "" -> last_char (PyPath.join a b) = last_char b.
Proof. intros Hb. destruct (join_ends_with a b) as [front ->]. by apply last_char_app. Qed.

Lemma build_pages_out_filename (w : World) (rst_files : list string) (s : State) :
  forall pages s',
    build_pages w rst_files s = (Ok pages, s') ->
    Forall (fun p => exists slug, page_out_filename p = slug +:+ ".html") pages.
Proof.
  revert s. induction rst_files as [|path rest IH]; intros s pages s'.
  - intros [= <- _]. constructor.
  - cbn [build_pages]. unfold mbind, M_bind, bind, lift.
    destruct (git_log_commits w path) as [commits|]; [|done].
    destruct (first_commit_date w commits s) as [[first_date|] s1]; [|done].
    destruct (PyPath.relpath _ _ _) as [rel|]; [|done].
    destruct (build_pages w rest s1) as [[pages'|] s2] eqn:E; [|done].
    intros [= <- <-]. constructor; [by eexists|]. by eapply IH.
Qed.

(** ** Facts about the file system *)

Lemma remove_entry_lookup (name k : string) (es : list (string * node)) :
  FS.lookup_entry k (FS.remove_entry name es)
  = if String.eqb k name then None else FS.lookup_entry k es.
Proof.
  induction es as [|[k' v] r IH]; simpl; [by destruct (String.eqb k name)|].
  destruct (String.eqb_spec k' name) as [->|Hne]; simpl.
  - rewrite IH. destruct (String.eqb_spec k name) as [->|Hk]; [done|].
    destruct (String.eqb_spec name k) as [<-|]; done.
  - rewrite IH. destruct (String.eqb_spec k' k) as [->|Hk'].
    + destruct (String.eqb_spec k name); done.
    + done.
Qed.

(** After [alter_entry], the entry [name] is what [f] answered, and the
    others are as before. *)
Lemma alter_entry_lookup (name : string) (f : option node -> result (option node))
    (es es' : list (string * node)) :
  FS.alter_entry name f es = Ok es' ->
  f (FS.lookup_entry name es) = Ok (FS.lookup_entry name es')
  /\ (forall k, k <> name -> FS.lookup_entry k es' = FS.lookup_entry k es).
Proof.
  revert es'. induction es as [|[k v] r IH]; intros es'; simpl.
  - destruct (f None) as [[n|]|e]; simpl; intros [= <-]; simpl.
    + rewrite String.eqb_refl. split; [done|]. intros k Hk.
      by destruct (String.eqb_spec name k) as [<-|].
    + done.
  - destruct (String.eqb_spec k name) as [->|Hne].
    + destruct (f (Some v)) as [[n|]|e]; simpl; intros [= <-]; simpl.
      * rewrite String.eqb_refl. split; [done|]. intros k Hk.
        by destruct (String.eqb_spec name k) as [<-|].
      * rewrite remove_entry_lookup, String.eqb_refl. split; [done|]. intros k Hk.
        rewrite remove_entry_lookup.
        destruct (String.eqb_spec k name); [done|].
        by destruct (String.eqb_spec name k) as [<-|].
    + destruct (FS.alter_entry name f r) as [r'|e]; simpl; intros [= <-]; simpl.
      destruct (IH r' eq_refl) as [Hf Hother].
      destruct (String.eqb_spec k name); [done|]. split; [done|].
      intros k' Hk'. rewrite Hother by done. done.
Qed.

(** [alter_entry] on a name that is listed applies [f] to its node. *)
Lemma alter_entry_found (name : string) (f : option node -> result (option node))
    (es : list (string * node)) (v : node) :
  FS.lookup_entry name es = Some v ->
  (forall e, f (Some v) = Raise e -> FS.alter_entry name f es = Raise e)
  /\ (forall o, f (Some v) = Ok o -> exists es', FS.alter_entry name f es = Ok es').
Proof.
  induction es as [|[k v'] r IH]; simpl; [done|].
  destruct (String.eqb_spec k name) as [->|Hne].
  - intros [= ->]. split.
    + intros e ->. done.
    + intros o ->. simpl. by eexists.
  - intros Hv. destruct (IH Hv) as [Hraise Hok]. split.
    + intros e He. by rewrite (Hraise e He).
    + intros o Ho. destruct (Hok o Ho) as [es' ->]. simpl. by eexists.
Qed.

(** A path that leads nowhere still leads nowhere after [rmtree]. *)
Lemma rmtree_keeps_absent (q p : list string) (t t' : node) :
  FS.rmtree q t = Ok t' -> FS.lookup_path p t = None -> FS.lookup_path p t' = None.
Proof.
  unfold FS.rmtree. revert p t t'.
  induction q as [|qn qrest IH]; intros p t t'; [done|].
  cbn [FS.alter_path]. destruct t as [data|es]; [done|].
  destruct p as [|name rest]; [done|].
  assert (Hstep : forall g es',
            FS.alter_entry qn g es = Ok es' ->
            (forall v o, g (Some v) = Ok o ->
               FS.lookup_path rest v = None ->
               match o with Some v' => FS.lookup_path rest v' = None | None => True end) ->
            g None = Raise FileNotFoundError ->
            FS.lookup_path (name :: rest) (Dir es) = None ->
            FS.lookup_path (name :: rest) (Dir es') = None).
  { intros g es' Halter Hg Hnone. cbn [FS.lookup_path].
    destruct (alter_entry_lookup _ _ _ _ Halter) as [Hf Hother].
    destruct (decide (name = qn)) as [->|Hne].
    - destruct (FS.lookup_entry qn es) as [v|] eqn:Ev.
      + intros Hrest. specialize (Hg v _ Hf Hrest).
        by destruct (FS.lookup_entry qn es').
      + rewrite Hnone in Hf. done.
    - by rewrite (Hother name Hne). }
  destruct qrest as [|qn' qrest'].
  - destruct (FS.alter_entry qn _ es) as [es'|e] eqn:Halter; simpl; [|done].
    intros [= <-]. eapply Hstep; [exact Halter| |done].
    intros [data|sub] o; [done|]. by intros [= <-].
  - destruct (FS.alter_entry qn _ es) as [es'|e] eqn:Halter; simpl; [|done].
    intros [= <-]. eapply Hstep; [exact Halter| |done].
    intros v o Ho Hrest. cbv beta iota in Ho.
    destruct (FS.alter_path (qn' :: qrest') _ v) as [v'|e] eqn:Hv; [|done].
    injection Ho as <-. by eapply IH.
Qed.

(** [rmtree] of a directory other than the root succeeds. *)
Lemma rmtree_ok (q : list string) (t : node) (es : list (string * node)) :
  q <> [] -> FS.lookup_path q t = Some (Dir es) -> exists t', FS.rmtree q t = Ok t'.
Proof.
  unfold FS.rmtree. revert t. induction q as [|qn qrest IH]; intros t Hq; [done|].
  cbn [FS.lookup_path FS.alter_path]. destruct t as [data|es0]; [done|].
  destruct (FS.lookup_entry qn es0) as [v|] eqn:Ev; [|done].
  destruct qrest as [|qn' qrest'].
  - intros [= ->].
    destruct (alter_entry_found qn
                (fun o => match o with
                          | None => Raise FileNotFoundError
                          | Some (File _) => Raise NotADirectoryError
                          | Some (Dir _) => Ok None
                          end) es0 _ Ev) as [_ Hok].
    destruct (Hok None eq_refl) as [es' ->]. simpl. by eexists.
  - intros Hrest. destruct (IH v ltac:(done) Hrest) as [v' Hv'].
    destruct (alter_entry_found qn
                (fun o => match o with
                          | None => Raise FileNotFoundError
                          | Some child =>
                              result_map Some
                                (FS.alter_path (qn' :: qrest')
                                   (fun o0 => match o0 with
                                              | None => Raise FileNotFoundError
                                              | Some (File _) => Raise NotADirectoryError
                                              | Some (Dir _) => Ok None
                                              end) child)
                          end) es0 _ Ev) as [_ Hok].
    destruct (Hok (Some v')) as [es' ->]; [by rewrite Hv'|]. simpl. by eexists.
Qed.

(** ** Asset publishing *)




Lemma fs_update_ok (f : node -> result node) (e : effect) (s : State) (n : node) :
  f (fs s) = Ok n ->
  fs_update f e s
  = (Ok tt, {| fs := n; printed := printed s;
               clock_reads := clock_reads s; effects := effects s ++ [e] |}).
Proof. intros H. unfold fs_update. by rewrite H. Qed.

Lemma fs_update_raise (f : node -> result node) (e : effect) (s : State) (x : exn) :
  f (fs s) = Raise x -> fs_update f e s = (Raise x, s).
Proof. intros H. unfold fs_update. by rewrite H. Qed.

Lemma copytree_absent (src dst : list string) (root : node) :
  FS.lookup_path src root = None -> FS.copytree src dst root = Raise FileNotFoundError.
Proof. intros H. unfold FS.copytree. by rewrite H. Qed.


Lemma bind_inv_ok {A B} (m : M A) (k : A -> M B) (s s' : State) (b : B) :
  (m ≫= k) s = (Ok b, s') -> exists a s0, m s = (Ok a, s0) /\ k a s0 = (Ok b, s').
Proof.
  unfold mbind, M_bind, bind. destruct (m s) as [[a|e] s0]; [|done].
  intros H. by exists a, s0.
Qed.

Lemma main_reaches_publishing (w : World) (args : Args) (s : State)
    (cfg : gmap string string) (pages : list Page) (page_tpl index_tpl : Template)
    (s1 : State) :
  reaches_publishing w args s cfg pages page_tpl index_tpl s1 ->
  main w args s
  = (publish_assets w (default "static" (cfg !! "static_dir"))
       (default "media" (cfg !! "media_dir")) (output_dir args cfg) (cfg !! "domain");;
     render_site w page_tpl index_tpl (default "Site" (cfg !! "site_title"))
       (default "static" (cfg !! "static_dir")) (output_dir args cfg)
       (default "" (cfg !! "repo_url")) (default "main" (cfg !! "branch")) (order pages)) s1.
Proof.
  intros (Hdry & Hskip & Hcfg & Hpages & [publish Hpublish]
          & environment & base & Henv & Hbase & Hpage & Hindex).
  unfold main. rewrite Hdry, Hskip, Hpublish, Henv.
  erewrite bind_ok by exact Hcfg.
  erewrite bind_ok by reflexivity.
  erewrite bind_ok by exact Hpages.
  rewrite Hbase, Hpage, Hindex.
  erewrite !bind_ok by reflexivity. done.
Qed.

(** ** A missing static directory *)


(** ** What git prints comes back *)

Lemma splitlines_from_line (cur : option string) (l rest : string) :
  has_linebreak l = false ->
  PyLines.splitlines_from cur (l +:+ String line_feed rest)
  = (default "" cur +:+ l) :: PyLines.splitlines_from None rest.
Proof.
  revert cur. induction l as [|c r IH]; intros cur Hl.
  - change (PyLines.splitlines_from cur (String line_feed rest)
            = (default "" cur +:+ "") :: PyLines.splitlines_from None rest).
    assert (Hnil : forall s : string, s +:+ "" = s).
    { intros s. induction s as [|x s IHs]; [done|].
      change (String x (s +:+ "") = String x s). by rewrite IHs. }
    rewrite Hnil. cbn. by destruct rest.
  - change (PyLines.splitlines_from cur (String c (r +:+ String line_feed rest))
            = (default "" cur +:+ String c r) :: PyLines.splitlines_from None rest).
    simpl in Hl. apply orb_false_elim in Hl as [Hc Hr].
    cbn [PyLines.splitlines_from]. rewrite Hc. rewrite IH by done.
    f_equal. change (default "" (Some (default "" cur +:+ String c ""))) with (default "" cur +:+ String c "").
    by rewrite append_assoc.
Qed.

Lemma splitlines_from_last (cur : option string) (l : string) :
  has_linebreak l = false -> l <> "" ->
  PyLines.splitlines_from cur l = [default "" cur +:+ l].
Proof.
  revert cur. induction l as [|c r IH]; intros cur Hl Hne; [done|].
  simpl in Hl. apply orb_false_elim in Hl as [Hc Hr].
  cbn [PyLines.splitlines_from]. rewrite Hc.
  destruct r as [|d r'].
  - done.
  - rewrite IH by done.
    change (default "" (Some (default "" cur +:+ String c ""))) with (default "" cur +:+ String c "").
    by rewrite append_assoc.
Qed.

Lemma splitlines_join (lines : list string) :
  Forall (fun l => has_linebreak l = false /\ l <> "") lines ->
  PyLines.splitlines (join_with line_feed lines) = lines.
Proof.
  unfold PyLines.splitlines.
  induction 1 as [|l [|l' rest] [Hl Hne] Hrest IH]; [done| |].
  - simpl. by rewrite splitlines_from_last.
  - change (join_with line_feed (l :: l' :: rest))
      with (l +:+ String line_feed (join_with line_feed (l' :: rest))).
    rewrite splitlines_from_line by done. by rewrite IH.
Qed.

Lemma split_piece (sep : ascii) (n : nat) (a b : string) :
  count_char sep a = 0%nat ->
  PyLines.split sep (S n) (a +:+ String sep b) = a :: PyLines.split sep n b.
Proof.
  induction a as [|c r IH]; intros Ha.
  - change (PyLines.split sep (S n) (String sep b) = "" :: PyLines.split sep n b).
    simpl. by rewrite Ascii.eqb_refl.
  - change (PyLines.split sep (S n) (String c (r +:+ String sep b))
            = String c r :: PyLines.split sep n b).
    simpl in Ha |- *. destruct (Ascii.eqb c sep); [done|]. by rewrite IH.
Qed.

Lemma split_zero (sep : ascii) (s : string) : PyLines.split sep 0 s = [s].
Proof.
  induction s as [|c r IH]; [done|]. simpl. rewrite IH. by destruct (Ascii.eqb c sep).
Qed.

Lemma split_format_commit (c : Commit) :
  count_char "|" (sha c) = 0%nat -> count_char "|" (date c) = 0%nat ->
  count_char "|" (author c) = 0%nat ->
  PyLines.split "|" 3 (format_commit c) = [sha c; date c; author c; message c].
Proof.
  intros Hs Hd Ha. unfold format_commit.
  change (sha c +:+ "|" +:+ date c +:+ "|" +:+ author c +:+ "|" +:+ message c)
    with (sha c +:+ String "|" (date c +:+ String "|" (author c +:+ String "|" (message c)))).
  rewrite !split_piece by done. by rewrite split_zero.
Qed.

Lemma count_char_app (c : ascii) (a b : string) :
  count_char c (a +:+ b) = (count_char c a + count_char c b)%nat.
Proof.
  induction a as [|x a IH]; [done|].
  change (count_char c (String x (a +:+ b)) = (count_char c (String x a) + count_char c b)%nat).
  simpl. rewrite IH. lia.
Qed.

Lemma parse_lines_format (commits : list Commit) :
  Forall clean_commit commits ->
  parse_lines (map format_commit commits) = Ok commits.
Proof.
  induction 1 as [|c rest (Hs & Hd & Ha & _) Hrest IH]; [done|].
  cbn [map parse_lines]. rewrite split_format_commit by done.
  cbn. rewrite IH. simpl. by destruct c.
Qed.

Lemma format_commit_not_blank (c : Commit) :
  PyStr.truthy (PyStr.strip (format_commit c)) = true.
Proof.
  destruct (PyStr.truthy (PyStr.strip (format_commit c))) eqn:E; [done|].
  apply blank_line_has_no_pipe in E. unfold format_commit in E.
  rewrite !count_char_app in E. simpl in E. lia.
Qed.

(** When git exits with status zero and prints one line per commit, in
    the format [%H|%cI|%an|%s] and separated by line feeds,
    [git_log_commits] returns exactly these commits, in the order of the
    lines, provided no hash, date or author has a pipe and no line has a
    line boundary; the subject comes back whole, pipes included. *)
Theorem git_log_commits_round_trip
    (w : World) (path rel : string) (commits : list Commit) :
  PyPath.relpath (getcwd w) path (getcwd w) = Ok rel ->
  git_log w rel
  = Ok {| returncode := 0; stdout := join_with line_feed (map format_commit commits) |} ->
  Forall clean_commit commits ->
  git_log_commits w path = Ok commits.
Proof.
  intros Hrel Hgit Hclean. unfold git_log_commits. rewrite Hrel. simpl. rewrite Hgit. simpl.
  rewrite parse_lines_skips_blank.
  rewrite splitlines_join.
  - by apply parse_lines_format.
  - apply Forall_map. eapply Forall_impl; [exact Hclean|].
    intros c (_ & _ & _ & Hnl). split; [done|].
    intros Hempty. pose proof (format_commit_not_blank c) as Hb. by rewrite Hempty in Hb.
Qed.

(** ** Changes of the file system *)

Lemma lookup_path_single (name : string) (es : list (string * node)) :
  FS.lookup_path [name] (Dir es) = FS.lookup_entry name es.
Proof. simpl. by destruct (FS.lookup_entry name es). Qed.

(** After [alter_path], the node at [p] is what [f] answered. *)
Lemma alter_path_lookup (p : list string) (f : option node -> result (option node))
    (t t' : node) :
  FS.alter_path p f t = Ok t' -> f (FS.lookup_path p t) = Ok (FS.lookup_path p t').
Proof.
  revert t t'. induction p as [|name rest IH]; intros t t'; [done|].
  cbn [FS.alter_path]. destruct t as [data|es]; [done|].
  destruct rest as [|name' rest'].
  - destruct (FS.alter_entry name f es) as [es'|e] eqn:Halter; [|done].
    intros [= <-]. rewrite !lookup_path_single.
    by destruct (alter_entry_lookup _ _ _ _ Halter).
  - destruct (FS.alter_entry name _ es) as [es'|e] eqn:Halter; [|done].
    intros [= <-].
    destruct (alter_entry_lookup _ _ _ _ Halter) as [Hf _].
    cbn [FS.lookup_path].
    destruct (FS.lookup_entry name es) as [child|]; [|done].
    destruct (FS.alter_path (name' :: rest') f child) as [child'|e] eqn:Hchild; [|done].
    simpl in Hf. injection Hf as <-. by apply IH.
Qed.

(** A path that parts ways with [q] leads where it led before. *)
Lemma alter_path_apart (q p : list string) (f : option node -> result (option node))
    (t t' : node) :
  FS.alter_path q f t = Ok t' -> apart p q -> FS.lookup_path p t' = FS.lookup_path p t.
Proof.
  intros Halter Hapart. revert t t' Halter.
  induction Hapart as [a b p q Hab|a p q Hapart IH]; intros t t'.
  - cbn [FS.alter_path]. destruct t as [data|es]; [done|].
    assert (Hother : forall g es', FS.alter_entry b g es = Ok es' ->
              FS.lookup_path (a :: p) (Dir es') = FS.lookup_path (a :: p) (Dir es)).
    { intros g es' Hg. cbn [FS.lookup_path].
      destruct (alter_entry_lookup _ _ _ _ Hg) as [_ Hother]. by rewrite Hother. }
    destruct q; (destruct (FS.alter_entry b _ es) as [es'|e] eqn:Hg; [|done]);
      intros [= <-]; by eapply Hother.
  - cbn [FS.alter_path]. destruct t as [data|es]; [done|].
    destruct q as [|b q']; [inversion Hapart|].
    destruct (FS.alter_entry a _ es) as [es'|e] eqn:Hg; [|done].
    intros [= <-]. cbn [FS.lookup_path].
    destruct (alter_entry_lookup _ _ _ _ Hg) as [Hf _].
    destruct (FS.lookup_entry a es) as [child|]; [|done].
    destruct (FS.alter_path (b :: q') f child) as [child'|e] eqn:Hchild; [|done].
    simpl in Hf. injection Hf as <-. by eapply IH.
Qed.

Lemma alter_entry_ok (name : string) (f : option node -> result (option node))
    (es : list (string * node)) (o : option node) :
  f (FS.lookup_entry name es) = Ok o -> exists es', FS.alter_entry name f es = Ok es'.
Proof.
  induction es as [|[k v] r IH]; simpl.
  - intros ->. by eexists.
  - destruct (String.eqb k name).
    + intros ->. by eexists.
    + intros Hf. destruct (IH Hf) as [es' ->]. by eexists.
Qed.

Lemma alter_path_cons (name name' : string) (rest' : list string)
    (f : option node -> result (option node)) (es : list (string * node)) :
  FS.alter_path (name :: name' :: rest') f (Dir es)
  = result_map Dir
      (FS.alter_entry name
         (fun o => match o with
                   | None => Raise FileNotFoundError
                   | Some child => result_map Some (FS.alter_path (name' :: rest') f child)
                   end) es).
Proof. reflexivity. Qed.

(** [alter_path] succeeds when the directory above [p] is there and [f] answers. *)
Lemma alter_path_ok (p : list string) (f : option node -> result (option node))
    (t : node) (es : list (string * node)) (o : option node) :
  p <> [] -> FS.lookup_path (removelast p) t = Some (Dir es) ->
  f (FS.lookup_path p t) = Ok o -> exists t', FS.alter_path p f t = Ok t'.
Proof.
  revert t. induction p as [|name rest IH]; intros t Hp; [done|].
  destruct rest as [|name' rest'].
  - intros Hparent Hf. cbn in Hparent. injection Hparent as ->.
    rewrite lookup_path_single in Hf. cbn [FS.alter_path].
    destruct (alter_entry_ok _ _ _ _ Hf) as [es' ->]. by eexists.
  - change (removelast (name :: name' :: rest')) with (name :: removelast (name' :: rest')).
    cbn [FS.lookup_path]. destruct t as [data|es0]; [done|].
    destruct (FS.lookup_entry name es0) as [child|] eqn:Hchild; [|done].
    intros Hparent Hf. destruct (IH child ltac:(done) Hparent Hf) as [child' Hchild'].
    rewrite alter_path_cons.
    destruct (alter_entry_ok name
                (fun o0 => match o0 with
                           | None => Raise FileNotFoundError
                           | Some c => result_map Some (FS.alter_path (name' :: rest') f c)
                           end) es0 (Some child')) as [es' ->].
    { rewrite Hchild. by rewrite Hchild'. }
    by eexists.
Qed.

(** After [alter_path] the directory above [p] is there. *)
Lemma alter_path_parent (p : list string) (f : option node -> result (option node))
    (t t' : node) :
  FS.alter_path p f t = Ok t' -> exists es', FS.lookup_path (removelast p) t' = Some (Dir es').
Proof.
  revert t t'. induction p as [|name rest IH]; intros t t'; [done|].
  cbn [FS.alter_path]. destruct t as [data|es]; [done|].
  destruct rest as [|name' rest'].
  - destruct (FS.alter_entry name f es) as [es'|e]; [|done]. intros [= <-]. by eexists.
  - destruct (FS.alter_entry name _ es) as [es'|e] eqn:Halter; [|done].
    intros [= <-].
    change (removelast (name :: name' :: rest')) with (name :: removelast (name' :: rest')).
    cbn [FS.lookup_path].
    destruct (alter_entry_lookup _ _ _ _ Halter) as [Hf _].
    destruct (FS.lookup_entry name es) as [child|]; [|done].
    destruct (FS.alter_path (name' :: rest') f child) as [child'|e] eqn:Hchild; [|done].
    simpl in Hf. injection Hf as <-. by eapply IH.
Qed.

Lemma alter_entry_same (name : string) (f : option node -> result (option node))
    (es : list (string * node)) (v : node) :
  FS.lookup_entry name es = Some v -> f (Some v) = Ok (Some v) ->
  FS.alter_entry name f es = Ok es.
Proof.
  intros Hv Hf. induction es as [|[k v'] r IH]; simpl in *; [done|].
  destruct (String.eqb k name).
  - injection Hv as ->. by rewrite Hf.
  - by rewrite IH.
Qed.

Lemma makedirs_cons (name : string) (rest : list string) (es : list (string * node)) :
  FS.makedirs (name :: rest) (Dir es)
  = result_map Dir
      (FS.alter_entry name
         (fun o => result_map Some (FS.makedirs rest (default (Dir []) o))) es).
Proof. reflexivity. Qed.

(** [makedirs] leaves a tree in which the directory is there as it is. *)
Lemma makedirs_existing (q : list string) (t : node) (es : list (string * node)) :
  FS.lookup_path q t = Some (Dir es) -> FS.makedirs q t = Ok t.
Proof.
  revert t. induction q as [|name rest IH]; intros t.
  - by intros [= ->].
  - cbn [FS.lookup_path]. destruct t as [data|es0]; [done|].
    destruct (FS.lookup_entry name es0) as [child|] eqn:Hchild; [|done].
    intros Hrest. rewrite makedirs_cons.
    rewrite (alter_entry_same name _ es0 child); [done|done|].
    simpl. by rewrite (IH child Hrest).
Qed.

(** After [makedirs] the directory is there. *)
Lemma makedirs_lookup (q : list string) (t t' : node) :
  FS.makedirs q t = Ok t' -> exists es, FS.lookup_path q t' = Some (Dir es).
Proof.
  revert t t'. induction q as [|name rest IH]; intros t t'.
  - simpl. destruct t as [data|es]; [done|]. intros [= <-]. by eexists.
  - destruct t as [data|es0]; [done|]. rewrite makedirs_cons.
    destruct (FS.alter_entry name _ es0) as [es'|e] eqn:Halter; [|done].
    intros [= <-]. cbn [FS.lookup_path].
    destruct (alter_entry_lookup _ _ _ _ Halter) as [Hf _].
    destruct (FS.makedirs rest (default (Dir []) (FS.lookup_entry name es0)))
      as [child'|e] eqn:Hchild; [|done].
    simpl in Hf. injection Hf as <-. by eapply IH.
Qed.

(** [makedirs] changes no file. *)
Lemma makedirs_keeps_files (q p : list string) (t t' : node) (data : string) :
  FS.makedirs q t = Ok t' -> FS.lookup_path p t = Some (File data) ->
  FS.lookup_path p t' = Some (File data).
Proof.
  revert p t t'. induction q as [|name rest IH]; intros p t t'.
  - simpl. destruct t; [done|]. by intros [= <-].
  - destruct t as [d|es0]; [done|]. rewrite makedirs_cons.
    destruct (FS.alter_entry name _ es0) as [es'|e] eqn:Halter; [|done].
    intros [= <-]. destruct p as [|pn prest]; [done|]. cbn [FS.lookup_path].
    destruct (alter_entry_lookup _ _ _ _ Halter) as [Hf Hother].
    destruct (decide (pn = name)) as [->|Hne]; [|by rewrite (Hother pn Hne)].
    destruct (FS.lookup_entry name es0) as [child|]; [|done].
    change (default (Dir []) (Some child)) with child in Hf.
    destruct (FS.makedirs rest child) as [child'|e] eqn:Hchild; [|done].
    simpl in Hf. injection Hf as <-. by eapply IH.
Qed.

(** [makedirs q] changes nothing at a path that parts ways with [q], or
    that goes on below [q]. *)
Lemma makedirs_unaffected (q p : list string) (t t' : node) :
  FS.makedirs q t = Ok t' ->
  apart p q \/ (exists x r, p = q ++ x :: r) ->
  FS.lookup_path p t' = FS.lookup_path p t.
Proof.
  revert p t t'. induction q as [|name rest IH]; intros p t t'.
  - simpl. destruct t; [done|]. by intros [= <-].
  - destruct t as [d|es0]; [done|]. rewrite makedirs_cons.
    destruct (FS.alter_entry name _ es0) as [es'|e] eqn:Halter; [|done].
    intros [= <-] Hp.
    destruct (alter_entry_lookup _ _ _ _ Halter) as [Hf Hother].
    destruct p as [|pn prest].
    { destruct Hp as [Hp|(x & r & Hp)]; [inversion Hp|done]. }
    cbn [FS.lookup_path].
    destruct (decide (pn = name)) as [->|Hne]; [|by rewrite (Hother pn Hne)].
    assert (Hrest : apart prest rest \/ (exists x r, prest = rest ++ x :: r)).
    { destruct Hp as [Hp|(x & r & Hp)].
      - left. by inversion Hp.
      - right. exists x, r. by injection Hp. }
    destruct (FS.makedirs rest (default (Dir []) (FS.lookup_entry name es0)))
      as [child'|e] eqn:Hchild; [|done].
    simpl in Hf. injection Hf as <-.
    rewrite (IH prest _ _ Hchild Hrest).
    destruct (FS.lookup_entry name es0) as [child|]; [done|]. simpl.
    destruct Hrest as [Hr|(x & r & ->)]; [by inversion Hr|by destruct rest].
Qed.


(** ** The output directory *)

(** [ensure_dir] makes the directory: when it returns, the path is a
    directory, every file there was is still there with its content,
    nothing is printed, and a second call returns as well and changes
    nothing in the file system. *)
Theorem ensure_dir_makes_directory (w : World) (path : string) (s s' : State) :
  ensure_dir w path s = (Ok tt, s') ->
  (exists es, FS.lookup_path (resolve w path) (fs s') = Some (Dir es))
  /\ (forall p data,
        FS.lookup_path p (fs s) = Some (File data) ->
        FS.lookup_path p (fs s') = Some (File data))
  /\ printed s' = printed s
  /\ exists s'', ensure_dir w path s' = (Ok tt, s'') /\ fs s'' = fs s'.
Proof.
  unfold ensure_dir, fs_update.
  destruct (FS.makedirs (resolve w path) (fs s)) as [t'|e] eqn:Hmk; [|done].
  intros [= <-]. cbn [fs printed].
  destruct (makedirs_lookup _ _ _ Hmk) as [es Hes].
  split; [by exists es|]. split; [intros p data; by apply (makedirs_keeps_files _ _ _ _ _ Hmk)|].
  split; [done|].
  rewrite (makedirs_existing _ _ _ Hes). by eexists.
Qed.


(** ** Copies of a directory *)

Lemma apart_nonempty (p q : list string) : apart p q -> q <> [].
Proof. by intros []. Qed.

Lemma rmtree_run (dst : list string) (t : node) (d : list (string * node)) :
  dst <> [] -> FS.lookup_path dst t = Some (Dir d) ->
  exists t',
    FS.rmtree dst t = Ok t'
    /\ FS.lookup_path dst t' = None
    /\ (forall p, apart p dst -> FS.lookup_path p t' = FS.lookup_path p t)
    /\ exists parent, FS.lookup_path (removelast dst) t' = Some (Dir parent).
Proof.
  intros Hne Hd. destruct (rmtree_ok dst t d Hne Hd) as [t' Hrm].
  exists t'. split; [done|]. unfold FS.rmtree in Hrm. repeat split.
  - apply alter_path_lookup in Hrm. rewrite Hd in Hrm. by injection Hrm as <-.
  - intros p Hp. by eapply alter_path_apart.
  - by eapply alter_path_parent.
Qed.

Lemma copytree_run (src dst : list string) (t : node) (es parent : list (string * node)) :
  dst <> [] ->
  FS.lookup_path src t = Some (Dir es) ->
  FS.lookup_path dst t = None ->
  FS.lookup_path (removelast dst) t = Some (Dir parent) ->
  exists t',
    FS.copytree src dst t = Ok t'
    /\ FS.lookup_path dst t' = Some (Dir es)
    /\ (forall p, apart p dst -> FS.lookup_path p t' = FS.lookup_path p t)
    /\ exists parent', FS.lookup_path (removelast dst) t' = Some (Dir parent').
Proof.
  intros Hne Hsrc Hdst Hparent. unfold FS.copytree. rewrite Hsrc, Hdst.
  rewrite (makedirs_existing _ _ _ Hparent). cbn [result_bind].
  destruct (alter_path_ok dst (fun _ => Ok (Some (Dir es))) t parent (Some (Dir es)))
    as [t' Ht']; [done..|].
  exists t'. split; [done|]. repeat split.
  - apply alter_path_lookup in Ht'. by injection Ht' as <-.
  - intros p Hp. by eapply alter_path_apart.
  - by eapply alter_path_parent.
Qed.

(** The body of [copy_static], which is that of [copy_media] too. *)
Lemma copy_static_run (w : World) (static_dir out_dir : string) (s : State)
    (es parent : list (string * node)) :
  let src := resolve w static_dir in
  let dst := resolve w (PyPath.join out_dir (PyPath.basename static_dir)) in
  apart src dst ->
  FS.lookup_path src (fs s) = Some (Dir es) ->
  FS.lookup_path (removelast dst) (fs s) = Some (Dir parent) ->
  (forall data, FS.lookup_path dst (fs s) <> Some (File data)) ->
  exists s',
    copy_static w static_dir out_dir s = (Ok tt, s')
    /\ FS.lookup_path dst (fs s') = Some (Dir es)
    /\ (forall p, apart p dst -> FS.lookup_path p (fs s') = FS.lookup_path p (fs s))
    /\ (exists parent', FS.lookup_path (removelast dst) (fs s') = Some (Dir parent'))
    /\ printed s' = printed s.
Proof.
  intros src dst Hapart Hsrc Hparent Hfile.
  pose proof (apart_nonempty _ _ Hapart) as Hne.
  unfold copy_static. rewrite resolve_abspath. fold src dst.
  erewrite bind_ok by reflexivity.
  destruct (FS.lookup_path dst (fs s)) as [[data|d]|] eqn:Hdst.
  - by destruct (Hfile data).
  - rewrite bool_decide_eq_true_2 by (by eexists).
    destruct (rmtree_run dst (fs s) d Hne Hdst) as (t1 & Hrm & Hgone & Hframe & parent1 & Hp1).
    erewrite bind_ok by (by apply fs_update_ok).
    destruct (copytree_run src dst t1 es parent1 Hne) as (t2 & Hcp & Hthere & Hframe2 & Hp2);
      [by rewrite Hframe|done|done|].
    erewrite fs_update_ok by exact Hcp.
    eexists. split; [done|]. cbn [fs printed]. repeat split; [done| |done..].
    intros p Hp. by rewrite Hframe2, Hframe.
  - rewrite bool_decide_eq_false_2
      by (intros [x Hx]; change (FS.lookup_path dst (fs s) = Some x) in Hx; congruence).
    erewrite bind_ok by reflexivity.
    destruct (copytree_run src dst (fs s) es parent Hne) as (t2 & Hcp & Hthere & Hframe2 & Hp2);
      [done..|].
    erewrite fs_update_ok by exact Hcp.
    eexists. split; [done|]. cbn [fs printed]. by repeat split.
Qed.

(** [copy_static] replaces the copy in the output directory by the static
    directory as it is now.  When the static directory is named by a path
    that ends in a plain name, the place of the copy is named by a plain
    path and parts ways with the static directory, the static directory
    exists, the place of the copy is in a directory and holds no file: the
    call returns; the copy then has exactly the entries of the
    static directory (what was there before is gone); nothing changes at
    the paths that part ways with the copy, so the static directory is
    left as it is; nothing is printed; and a second call returns with the
    same copy. *)
Theorem copy_static_replaces_copy (w : World) (static_dir out_dir : string) (s : State)
    (es parent : list (string * node)) :
  let src := resolve w static_dir in
  let dst := resolve w (PyPath.join out_dir (PyPath.basename static_dir)) in
  plain_component (PyPath.basename static_dir) ->
  plain_path (PyPath.join out_dir (PyPath.basename static_dir)) ->
  apart src dst ->
  FS.lookup_path src (fs s) = Some (Dir es) ->
  FS.lookup_path (removelast dst) (fs s) = Some (Dir parent) ->
  (forall data, FS.lookup_path dst (fs s) <> Some (File data)) ->
  exists s',
    copy_static w static_dir out_dir s = (Ok tt, s')
    /\ FS.lookup_path dst (fs s') = Some (Dir es)
    /\ (forall p, apart p dst -> FS.lookup_path p (fs s') = FS.lookup_path p (fs s))
    /\ printed s' = printed s
    /\ exists s'',
         copy_static w static_dir out_dir s' = (Ok tt, s'')
         /\ FS.lookup_path dst (fs s'') = Some (Dir es)
         /\ (forall p, apart p dst -> FS.lookup_path p (fs s'') = FS.lookup_path p (fs s)).
Proof.
  intros src dst _ _ Hapart Hsrc Hparent Hfile.
  destruct (copy_static_run w static_dir out_dir s es parent Hapart Hsrc Hparent Hfile)
    as (s' & Hrun & Hthere & Hframe & [parent' Hparent'] & Hprinted).
  fold src dst in Hthere, Hframe, Hparent'.
  exists s'. repeat split; [done..|].
  destruct (copy_static_run w static_dir out_dir s' es parent' Hapart)
    as (s'' & Hrun' & Hthere' & Hframe' & _ & _).
  - fold src. by rewrite Hframe.
  - done.
  - fold dst. rewrite Hthere. done.
  - fold src dst in Hthere', Hframe'. exists s''. repeat split; [done..|].
    intros p Hp. by rewrite Hframe', Hframe.
Qed.

(** When the source directory, named by a path that ends in a plain
    name, is missing from a directory that exists, and the output
    directory holds a copy from an earlier run (at a plain path), the copy
    is removed before the source is looked at: [copy_static] raises [FileNotFoundError] with the copy
    gone, and the guarded [copy_media] returns, having removed the copy and
    changed nothing at the paths that part ways with it. *)
Theorem copy_of_missing_source_removes_old_copy
    (w : World) (src_dir out_dir : string) (s : State) (above old : list (string * node)) :
  let dst_path := PyPath.join out_dir (PyPath.basename src_dir) in
  let dst := resolve w dst_path in
  plain_component (PyPath.basename src_dir) ->
  plain_path dst_path ->
  dst <> [] ->
  FS.lookup_path (removelast (resolve w src_dir)) (fs s) = Some (Dir above) ->
  FS.lookup_path (resolve w src_dir) (fs s) = None ->
  FS.lookup_path dst (fs s) = Some (Dir old) ->
  exists s',
    copy_static w src_dir out_dir s = (Raise FileNotFoundError, s')
    /\ except_FileNotFoundError_pass (copy_media w src_dir out_dir) s = (Ok tt, s')
    /\ FS.lookup_path dst (fs s') = None
    /\ (forall p, apart p dst -> FS.lookup_path p (fs s') = FS.lookup_path p (fs s))
    /\ effects s' = effects s ++ [Rmtree dst_path]
    /\ printed s' = printed s.
Proof.
  intros dst_path dst _ _ Hne _ Hsrc Hdst.
  destruct (rmtree_run dst (fs s) old Hne Hdst) as (t1 & Hrm & Hgone & Hframe & _).
  assert (Hcopy : copy_static w src_dir out_dir s
                  = (Raise FileNotFoundError,
                     {| fs := t1; printed := printed s; clock_reads := clock_reads s;
                        effects := effects s ++ [Rmtree dst_path] |})).
  { unfold copy_static. rewrite resolve_abspath. fold dst_path dst.
    erewrite bind_ok by reflexivity.
    rewrite bool_decide_eq_true_2 by (exists (Dir old); exact Hdst).
    erewrite bind_ok by (by apply fs_update_ok).
    apply fs_update_raise. apply copytree_absent. cbn [fs].
    by eapply rmtree_keeps_absent. }
  eexists. split; [exact Hcopy|]. split.
  - unfold except_FileNotFoundError_pass.
    change (copy_media w src_dir out_dir s) with (copy_static w src_dir out_dir s).
    by rewrite Hcopy.
  - by cbn [fs printed effects].
Qed.

(** ** Paths in a directory *)

Lemma append_nil_r (a : string) : a +:+ "" = a.
Proof.
  induction a as [|c a IH]; [done|]. change (String c (a +:+ "") = String c a). by rewrite IH.
Qed.

Lemma endswith_app (a b suffix : string) :
  b <> "" -> suffix <> "" -> String.length suffix = 1%nat ->
  PyStr.endswith (a +:+ b) suffix = PyStr.endswith b suffix.
Proof.
  intros Hb Hs Hlen. induction a as [|c a IH]; [done|].
  change (PyStr.endswith (String c (a +:+ b)) suffix = PyStr.endswith b suffix).
  cbn [PyStr.endswith]. rewrite IH.
  destruct (String.eqb_spec (String c (a +:+ b)) suffix) as [<-|_]; [|done].
  simpl in Hlen. destruct (a +:+ b) eqn:E; [|done].
  by apply append_empty in E.
Qed.

Lemma split_all_nonempty (sep : ascii) (s : string) : PyLines.split_all sep s <> [].
Proof.
  destruct s as [|c r]; simpl; [done|].
  destruct (Ascii.eqb c sep); [done|]. by destruct (PyLines.split_all sep r).
Qed.

Lemma split_all_snoc (sep : ascii) (a b : string) :
  count_char sep b = 0%nat ->
  PyLines.split_all sep (a +:+ String sep b) = PyLines.split_all sep a ++ [b].
Proof.
  intros Hb. induction a as [|c r IH].
  - change (PyLines.split_all sep (String sep b) = [""] ++ [b]).
    simpl. by rewrite Ascii.eqb_refl, split_all_piece.
  - change (PyLines.split_all sep (String c (r +:+ String sep b))
            = PyLines.split_all sep (String c r) ++ [b]).
    simpl. rewrite IH. destruct (Ascii.eqb c sep); [done|].
    pose proof (split_all_nonempty sep r).
    by destruct (PyLines.split_all sep r).
Qed.

Lemma plain_component_relative (name : string) :
  plain_component name -> PyStr.startswith name "/" = false.
Proof.
  intros (Hne & _ & _ & Hcount). destruct name as [|c r]; [done|].
  simpl in Hcount |- *. destruct (Ascii.eqb c "/"); [done|]. by destruct r.
Qed.

(** [os.path.join] is associative when the last part is relative. *)
Lemma join_join (a b name : string) :
  PyStr.startswith name "/" = false ->
  PyPath.join a (PyPath.join b name) = PyPath.join (PyPath.join a b) name.
Proof.
  intros Hname. destruct b as [|c b'].
  - change (PyPath.join "" name) with (if PyStr.startswith name "/" then name else "" +:+ name).
    rewrite Hname. change ("" +:+ name) with name.
    assert (Hinner : PyPath.join a ""
                     = if negb (PyStr.truthy a) || PyStr.endswith a "/" then a else a +:+ "/").
    { unfold PyPath.join. cbn [PyStr.startswith].
      destruct (negb (PyStr.truthy a) || PyStr.endswith a "/"); [apply append_nil_r|done]. }
    rewrite Hinner.
    destruct (negb (PyStr.truthy a) || PyStr.endswith a "/") eqn:Ha; [done|].
    unfold PyPath.join. rewrite Hname.
    destruct a as [|x a']; [done|]. cbn [PyStr.truthy negb orb] in Ha |- *.
    rewrite Ha.
    rewrite (endswith_app (String x a') "/" "/") by done. cbn.
    by rewrite append_assoc.
  - destruct (Ascii.eqb_spec c "/") as [->|Hc].
    + rewrite (join_absolute a b').
      assert (exists r, PyPath.join (String "/" b') name = String "/" r) as [r ->];
        [|apply join_absolute].
      unfold PyPath.join. rewrite Hname. cbn [PyStr.truthy negb orb].
      destruct (PyStr.endswith _ _); by eexists.
    + assert (Hb : PyStr.startswith (String c b') "/" = false).
      { cbn. destruct (Ascii.eqb_spec c "/"); [done|]. done. }
      unfold PyPath.join. rewrite Hname, Hb. cbn [PyStr.truthy negb orb].
      assert (Hrel : forall r, PyStr.startswith (String c b' +:+ r) "/" = false).
      { intros r. change (PyStr.startswith (String c (b' +:+ r)) "/" = false).
        cbn. destruct (Ascii.eqb_spec c "/"); [done|]. done. }
      destruct (negb (PyStr.truthy a) || PyStr.endswith a "/") eqn:Ha.
      * rewrite (endswith_app a (String c b') "/") by done.
        assert (Hne : PyStr.truthy (a +:+ String c b') = true) by (by destruct a).
        rewrite Hne. cbn [negb orb].
        destruct (PyStr.endswith (String c b') "/"); rewrite Hrel, ?append_assoc; done.
      * change (a +:+ "/" +:+ String c b') with (a +:+ String "/" (String c b')).
        rewrite (endswith_app a (String "/" (String c b')) "/") by done.
        assert (Hne : PyStr.truthy (a +:+ String "/" (String c b')) = true) by (by destruct a).
        rewrite Hne. cbn [negb orb].
        change (PyStr.endswith (String "/" (String c b')) "/")
          with (PyStr.endswith (String c b') "/").
        destruct (PyStr.endswith (String c b') "/"); rewrite Hrel.
        -- change (a +:+ "/" +:+ String c b' +:+ name)
             with (a +:+ (String "/" (String c b') +:+ name)).
           by rewrite append_assoc.
        -- change (a +:+ "/" +:+ String c b' +:+ "/" +:+ name)
             with (a +:+ (String "/" (String c b') +:+ "/" +:+ name)).
           by rewrite append_assoc.
Qed.

(** The components of [join(a, name)] are those of [a], then [name]. *)
Lemma abs_components_join (cwd a name : string) :
  plain_component name ->
  PyPath.abs_components cwd (PyPath.join a name) = PyPath.abs_components cwd a ++ [name].
Proof.
  intros Hplain. pose proof (plain_component_relative _ Hplain) as Hrel.
  unfold PyPath.abs_components. rewrite (join_join cwd a name Hrel).
  set (A := PyPath.join cwd a).
  assert (Hstep : forall stack, PyPath.norm_step stack name = name :: stack).
  { intros stack. destruct Hplain as (H1 & H2 & H3 & _). unfold PyPath.norm_step.
    destruct (String.eqb_spec name "") as [|_]; [done|].
    destruct (String.eqb_spec name ".") as [|_]; [done|].
    by destruct (String.eqb_spec name "..") as [|_]. }
  assert (Hcount : count_char "/" name = 0%nat) by apply Hplain.
  unfold PyPath.join. rewrite Hrel.
  destruct A as [|x A'] eqn:HA.
  - cbn [PyStr.truthy negb orb]. change ("" +:+ name) with name.
    rewrite (split_all_piece "/" name Hcount). cbn [PyLines.split_all fold_left].
    rewrite Hstep. done.
  - cbn [PyStr.truthy negb orb]. rewrite <- HA.
    destruct (PyStr.endswith A "/") eqn:Hend.
    + apply endswith_iff in Hend as [front Hfront]. rewrite Hfront at 1.
      rewrite append_assoc. change ("/" +:+ name) with (String "/" name).
      rewrite split_all_snoc by done.
      rewrite Hfront at 1. change (front +:+ "/") with (front +:+ String "/" "").
      rewrite split_all_snoc by done.
      rewrite !fold_left_app. cbn [fold_left]. rewrite Hstep.
      change (PyPath.norm_step ?s "") with s. done.
    + change (A +:+ "/" +:+ name) with (A +:+ String "/" name).
      rewrite split_all_snoc by done.
      rewrite fold_left_app. cbn [fold_left]. by rewrite Hstep.
Qed.

Lemma resolve_join (w : World) (a name : string) :
  plain_component name -> resolve w (PyPath.join a name) = resolve w a ++ [name].
Proof. apply abs_components_join. Qed.

Lemma apart_last (l : list string) (a b : string) : a <> b -> apart (l ++ [a]) (l ++ [b]).
Proof. intros Hne. induction l as [|x l IH]; simpl; by constructor. Qed.

Lemma removelast_snoc (l : list string) (a : string) : removelast (l ++ [a]) = l.
Proof. by rewrite removelast_last. Qed.

(** ** The sources discovered, each once *)
















(** ** Where a path leads *)












(** ** The lines of the history *)





(** ** Files written *)

Lemma write_file_run (p : list string) (data : string) (t : node)
    (parent : list (string * node)) :
  p <> [] ->
  FS.lookup_path (removelast p) t = Some (Dir parent) ->
  (forall sub, FS.lookup_path p t <> Some (Dir sub)) ->
  exists t',
    FS.write_file p data t = Ok t'
    /\ FS.lookup_path p t' = Some (File data)
    /\ (forall q, apart q p -> FS.lookup_path q t' = FS.lookup_path q t)
    /\ exists parent', FS.lookup_path (removelast p) t' = Some (Dir parent').
Proof.
  intros Hne Hparent Hdir. unfold FS.write_file.
  set (f := fun o : option node => match o with
                                   | Some (Dir _) => Raise IsADirectoryError
                                   | _ => Ok (Some (File data))
                                   end).
  assert (Hf : f (FS.lookup_path p t) = Ok (Some (File data))).
  { destruct (FS.lookup_path p t) as [[d|sub]|] eqn:E; [done| |done]. by destruct (Hdir sub). }
  destruct (alter_path_ok p f t parent _ Hne Hparent Hf) as [t' Ht'].
  exists t'. split; [done|]. repeat split.
  - apply alter_path_lookup in Ht'. rewrite Hf in Ht'. by injection Ht' as <-.
  - intros q Hq. by eapply alter_path_apart.
  - by eapply alter_path_parent.
Qed.

Lemma write_file_lookup (p : list string) (data : string) (t t' : node) :
  FS.write_file p data t = Ok t' ->
  FS.lookup_path p t' = Some (File data)
  /\ (forall q, apart q p -> FS.lookup_path q t' = FS.lookup_path q t).
Proof.
  unfold FS.write_file. intros Hw. split.
  - apply alter_path_lookup in Hw.
    destruct (FS.lookup_path p t) as [[d|sub]|]; [|done|]; by injection Hw as <-.
  - intros q Hq. by eapply alter_path_apart.
Qed.

Lemma plain_CNAME : plain_component "CNAME".
Proof. by repeat split. Qed.

(** With a domain that is not empty, an output directory that exists (at
    a plain path) and no directory named [CNAME] in it, [write_cname] returns; the file
    [CNAME] of the output directory then holds the domain, stripped, and a
    line feed; nothing changes at the paths that part ways with the file;
    and one line is printed. *)
Theorem write_cname_writes_the_domain
    (w : World) (d out_dir : string) (s : State) (es : list (string * node)) :
  let cname_path := PyPath.join out_dir "CNAME" in
  plain_path out_dir ->
  d <> "" ->
  FS.lookup_path (resolve w out_dir) (fs s) = Some (Dir es) ->
  (forall sub, FS.lookup_path (resolve w cname_path) (fs s) <> Some (Dir sub)) ->
  exists s',
    write_cname w (Some d) out_dir s = (Ok tt, s')
    /\ FS.read_file (resolve w cname_path) (fs s') = Ok (PyStr.strip d +:+ nl)
    /\ (forall p, apart p (resolve w cname_path) ->
                  FS.lookup_path p (fs s') = FS.lookup_path p (fs s))
    /\ printed s' = printed s ++ ["Wrote CNAME -> " +:+ cname_path].
Proof.
  intros cname_path _ Hd Hout Hdir. unfold write_cname. fold cname_path.
  destruct d as [|c d']; [done|]. cbn [PyStr.truthy].
  assert (Hres : resolve w cname_path = resolve w out_dir ++ ["CNAME"])
    by apply resolve_join, plain_CNAME.
  destruct (write_file_run (resolve w cname_path) (PyStr.strip (String c d') +:+ nl)
              (fs s) es) as (t' & Hw & Hthere & Hframe & _).
  - rewrite Hres. by destruct (resolve w out_dir).
  - by rewrite Hres, removelast_snoc.
  - done.
  - erewrite bind_ok by (by apply fs_update_ok).
    eexists. split; [done|]. cbn [fs printed]. unfold FS.read_file. by rewrite Hthere.
Qed.

Section Rendering.
Variables (w : World) (page_tpl index_tpl : Template).
Variables (site_title static_dir out_dir repo_url branch : string).

Lemma render_pages_cons (p : Page) (rest : list Page) (s s' : State) :
  render_pages w page_tpl site_title static_dir out_dir repo_url branch (p :: rest) s
  = (Ok tt, s') ->
  exists text body t1,
    FS.read_file (resolve w (page_path p)) (fs s) = Ok text
    /\ render_rst w text = Ok body
    /\ FS.write_file (resolve w (page_out_path out_dir p))
         (page_html page_tpl site_title static_dir repo_url branch p body) (fs s) = Ok t1
    /\ render_pages w page_tpl site_title static_dir out_dir repo_url branch rest
         {| fs := t1; printed := printed s ++ ["Wrote " +:+ page_out_path out_dir p];
            clock_reads := clock_reads s;
            effects := effects s
                       ++ [WriteFile (page_out_path out_dir p)
                             (page_html page_tpl site_title static_dir repo_url branch p body)] |}
       = (Ok tt, s').
Proof.
  cbn [render_pages]. intros Hrun.
  apply bind_inv_ok in Hrun as (text & s0 & Hread & Hrun).
  injection Hread as Hread <-.
  apply bind_inv_ok in Hrun as (body & s0 & Hbody & Hrun).
  injection Hbody as Hbody <-.
  apply bind_inv_ok in Hrun as ([] & s1 & Hwrite & Hrun).
  apply bind_inv_ok in Hrun as ([] & s2 & Hprint & Hrun).
  unfold fs_update in Hwrite.
  destruct (FS.write_file _ _ (fs s)) as [t1|] eqn:Hw; [|done].
  injection Hwrite as <-. injection Hprint as <-.
  by exists text, body, t1.
Qed.

Lemma render_pages_app (front back : list Page) (s s' : State) :
  render_pages w page_tpl site_title static_dir out_dir repo_url branch (front ++ back) s
  = (Ok tt, s') ->
  exists s1,
    render_pages w page_tpl site_title static_dir out_dir repo_url branch front s = (Ok tt, s1)
    /\ render_pages w page_tpl site_title static_dir out_dir repo_url branch back s1
       = (Ok tt, s').
Proof.
  revert s. induction front as [|p front IH]; intros s Hrun; [by exists s|].
  change ((p :: front) ++ back) with (p :: (front ++ back)) in Hrun.
  pose proof Hrun as Hcons.
  apply render_pages_cons in Hcons as (text & body & t1 & Hread & Hbody & Hw & Hrest).
  destruct (IH _ Hrest) as (s1 & Hfront & Hback).
  exists s1. split; [|done].
  cbn [render_pages].
  erewrite bind_ok by (by rewrite Hread).
  erewrite bind_ok by (unfold lift; by rewrite Hbody).
  erewrite bind_ok by (apply fs_update_ok; exact Hw).
  erewrite bind_ok by reflexivity. exact Hfront.
Qed.

Lemma render_pages_frame (pages : list Page) (s s' : State) (q : list string) :
  render_pages w page_tpl site_title static_dir out_dir repo_url branch pages s = (Ok tt, s') ->
  Forall (fun p => apart q (resolve w (page_out_path out_dir p))) pages ->
  FS.lookup_path q (fs s') = FS.lookup_path q (fs s).
Proof.
  intros Hrun Hq. revert s Hrun. induction Hq as [|p rest Hp Hrest IH]; intros s Hrun.
  - by injection Hrun as <-.
  - apply render_pages_cons in Hrun as (text & body & t1 & _ & _ & Hw & Hrun).
    rewrite (IH _ Hrun). cbn [fs]. by apply (write_file_lookup _ _ _ _ Hw).
Qed.

Lemma render_pages_printed (pages : list Page) (s s' : State) :
  render_pages w page_tpl site_title static_dir out_dir repo_url branch pages s = (Ok tt, s') ->
  printed s' = printed s ++ map (fun p => "Wrote " +:+ page_out_path out_dir p) pages.
Proof.
  revert s. induction pages as [|p rest IH]; intros s Hrun.
  - injection Hrun as <-. by rewrite app_nil_r.
  - apply render_pages_cons in Hrun as (text & body & t1 & _ & _ & _ & Hrun).
    rewrite (IH _ Hrun). cbn [printed map]. by rewrite <- app_assoc.
Qed.

(** The file of a page holds the page, rendered from the text its source
    had when it was read, unless a later page has the same output name. *)
Lemma render_pages_last_wins (front back : list Page) (p : Page) (s s' : State) :
  render_pages w page_tpl site_title static_dir out_dir repo_url branch (front ++ p :: back) s
  = (Ok tt, s') ->
  Forall (fun q => plain_component (page_out_filename q)) (p :: back) ->
  Forall (fun q => page_out_filename q <> page_out_filename p) back ->
  exists s1 text body,
    render_pages w page_tpl site_title static_dir out_dir repo_url branch front s = (Ok tt, s1)
    /\ FS.read_file (resolve w (page_path p)) (fs s1) = Ok text
    /\ render_rst w text = Ok body
    /\ FS.lookup_path (resolve w (page_out_path out_dir p)) (fs s')
       = Some (File (page_html page_tpl site_title static_dir repo_url branch p body)).
Proof.
  intros Hrun Hplain Hback.
  apply render_pages_app in Hrun as (s1 & Hfront & Hrun).
  apply render_pages_cons in Hrun as (text & body & t1 & Hread & Hbody & Hw & Hrun).
  exists s1, text, body. split; [done|]. split; [done|]. split; [done|].
  rewrite (render_pages_frame _ _ _ _ Hrun).
  - cbn [fs]. by apply (write_file_lookup _ _ _ _ Hw).
  - apply Forall_cons in Hplain as [Hp Hplain].
    apply List.Forall_forall. intros q Hin.
    rewrite List.Forall_forall in Hplain, Hback.
    unfold page_out_path. rewrite !resolve_join by auto.
    apply apart_last. intros Heq. by apply (Hback q Hin).
Qed.

End Rendering.

(** ** Output names *)

Lemma split_last_sep_snd (p : string) : count_char "/" (snd (PyPath.split_last_sep p)) = 0%nat.
Proof.
  induction p as [|c r IH]; [done|]. cbn [PyPath.split_last_sep].
  destruct (PyPath.split_last_sep r) as [h t]. cbn [snd] in IH.
  destruct (PyStr.truthy h); [done|].
  destruct (Ascii.eqb c "/") eqn:Hc; [done|]. cbn [snd count_char]. by rewrite Hc, IH.
Qed.

Lemma split_last_sep_name (x : string) :
  count_char "/" x = 0%nat -> PyPath.split_last_sep x = ("", x).
Proof.
  induction x as [|c r IH]; [done|]. cbn [count_char PyPath.split_last_sep].
  destruct (Ascii.eqb c "/") eqn:Hc; [done|]. intros Hr. by rewrite (IH Hr).
Qed.

Lemma split_all_count (sep c : ascii) (s : string) :
  count_char c s = 0%nat -> Forall (fun p => count_char c p = 0%nat) (PyLines.split_all sep s).
Proof.
  induction s as [|d r IH]; cbn [count_char PyLines.split_all]; [by repeat constructor|].
  destruct (Ascii.eqb d c) eqn:Hd; [done|]. intros Hr. specialize (IH Hr).
  destruct (Ascii.eqb d sep); [by constructor|].
  destruct (PyLines.split_all sep r) as [|h t].
  - constructor; [|done]. cbn. by rewrite Hd.
  - apply Forall_cons in IH as [Hh Ht]. constructor; [|done]. cbn. by rewrite Hd, Hh.
Qed.

Lemma join_dot_count (c : ascii) (parts : list string) :
  c <> "."%char -> Forall (fun p => count_char c p = 0%nat) parts ->
  count_char c (PyPath.join_dot parts) = 0%nat.
Proof.
  intros Hc. induction 1 as [|p [|q rest] Hp Hrest IH]; [done|done|].
  change (PyPath.join_dot (p :: q :: rest)) with (p +:+ String "." (PyPath.join_dot (q :: rest))).
  rewrite count_char_app, Hp. cbn [count_char].
  destruct (Ascii.eqb_spec "." c) as [<-|_]; [done|]. by rewrite IH.
Qed.

Lemma Forall_removelast {A} (P : A -> Prop) (l : list A) : Forall P l -> Forall P (removelast l).
Proof.
  induction 1 as [|x [|y r] Hx Hr IH]; [done|done|].
  change (removelast (x :: y :: r)) with (x :: removelast (y :: r)). by constructor.
Qed.

Lemma stem_count (x : string) :
  count_char "/" x = 0%nat -> count_char "/" (PyPath.stem x) = 0%nat.
Proof.
  intros Hx. unfold PyPath.stem. destruct (existsb _ _); [|done].
  apply join_dot_count; [done|]. by apply Forall_removelast, split_all_count.
Qed.

(** The output name of a page is a plain file name: the pages are written
    side by side in the output directory. *)
Lemma out_filename_plain (path : string) :
  plain_component (PyPath.splitext_root (PyPath.basename path) +:+ ".html").
Proof.
  set (slug := PyPath.splitext_root (PyPath.basename path)).
  assert (Hslug : count_char "/" slug = 0%nat).
  { unfold slug, PyPath.splitext_root, PyPath.basename.
    rewrite split_last_sep_name by apply split_last_sep_snd.
    apply stem_count, split_last_sep_snd. }
  repeat split.
  - by intros ?%append_empty.
  - destruct slug as [|c r]; [done|]. intros [= _ ?%append_empty]. done.
  - destruct slug as [|c [|c' r]]; [done|done|]. intros [= _ _ ?%append_empty]. done.
  - by rewrite count_char_app, Hslug.
Qed.

(** ** The pages built *)

(** What [build_pages] records for the file [path]: the history git
    gives, the path from the working directory, the names derived from
    the file name, and as first commit date that of the last commit of
    the history. *)
Lemma build_pages_cons (w : World) (path : string) (rest : list string) (s s' : State)
    (pages : list Page) :
  build_pages w (path :: rest) s = (Ok pages, s') ->
  exists commits first_date rel s1 pages',
    git_log_commits w path = Ok commits
    /\ first_commit_date w commits s = (Ok first_date, s1)
    /\ PyPath.relpath (getcwd w) path (getcwd w) = Ok rel
    /\ build_pages w rest s1 = (Ok pages', s')
    /\ pages = {| page_path := path; page_rel := rel;
                  page_slug := PyPath.splitext_root (PyPath.basename path);
                  page_out_filename := PyPath.splitext_root (PyPath.basename path) +:+ ".html";
                  page_commits := commits; page_first_commit_date := first_date;
                  page_title := PyPath.splitext_root (PyPath.basename path);
                  page_url := "/" +:+ PyPath.splitext_root (PyPath.basename path) +:+ ".html" |}
               :: pages'.
Proof.
  cbn [build_pages]. intros Hrun.
  apply bind_inv_ok in Hrun as (commits & s0 & Hcommits & Hrun).
  injection Hcommits as Hcommits <-.
  apply bind_inv_ok in Hrun as (first_date & s1 & Hdate & Hrun).
  apply bind_inv_ok in Hrun as (rel & s2 & Hrel & Hrun).
  injection Hrel as Hrel <-.
  apply bind_inv_ok in Hrun as (pages' & s3 & Hrest & Hrun).
  injection Hrun as <- <-.
  by exists commits, first_date, rel, s1, pages'.
Qed.

Lemma dated_wider (w : World) (s0 s s' s1 : State) (p : Page) :
  (clock_reads s0 <= clock_reads s)%nat -> (clock_reads s' <= clock_reads s1)%nat ->
  dated w s s' p -> dated w s0 s1 p.
Proof.
  unfold dated. intros H0 H1. destruct (page_commits p); [|done].
  intros (k & Hk & Hdate). exists k. split; [lia|done].
Qed.

Lemma build_pages_run (w : World) (rst_files : list string) (s s' : State) (pages : list Page) :
  build_pages w rst_files s = (Ok pages, s') ->
  Forall (fun p => plain_component (page_out_filename p)) pages /\ later_clock s s'.
Proof.
  revert s pages. induction rst_files as [|path rest IH]; intros s pages Hrun.
  - by injection Hrun as <- <-.
  - apply build_pages_cons in Hrun
      as (commits & first_date & rel & s1 & pages' & _ & Hdate & _ & Hrest & ->).
    destruct (IH _ _ Hrest) as (Hplain & Hfs & Hprinted & Heff).
    split; [constructor; [apply out_filename_plain|done]|].
    destruct commits; simpl in Hdate; injection Hdate as <- <-; by repeat split.
Qed.

(** [build_pages] gives one page per file, in the order of the files; each
    page records the history, the relative path and the names of its file,
    its output name is a plain file name, and its first commit date is the
    date of the last commit of its history or, without a history, a reading
    of the clock; the clock is read once for each page without a history,
    and nothing else changes. *)
Theorem build_pages_one_page_per_file
    (w : World) (rst_files : list string) (s s' : State) (pages : list Page) :
  build_pages w rst_files s = (Ok pages, s') ->
  map page_path pages = rst_files
  /\ Forall (built_from w) pages
  /\ Forall (fun p => plain_component (page_out_filename p)) pages
  /\ Forall (dated w s s') pages
  /\ later_clock s s'
  /\ clock_reads s' = (clock_reads s + length (List.filter without_history pages))%nat.
Proof.
  revert s pages. induction rst_files as [|path rest IH]; intros s pages Hrun.
  - injection Hrun as <- <-. repeat split; try done; simpl; lia.
  - apply build_pages_cons in Hrun
      as (commits & first_date & rel & s1 & pages' & Hcommits & Hdate & Hrel & Hrest & ->).
    destruct (IH _ _ Hrest) as (Hpaths & Hbuilt & Hplain & Hdated & (Hfs & Hprinted & Heff) & Hclock).
    assert (Hfirst : later_clock s s1
                     /\ clock_reads s1
                        = (clock_reads s + if without_history
                             {| page_path := path; page_rel := rel;
                                page_slug := PyPath.splitext_root (PyPath.basename path);
                                page_out_filename :=
                                  PyPath.splitext_root (PyPath.basename path) +:+ ".html";
                                page_commits := commits; page_first_commit_date := first_date;
                                page_title := PyPath.splitext_root (PyPath.basename path);
                                page_url :=
                                  "/" +:+ PyPath.splitext_root (PyPath.basename path)
                                  +:+ ".html" |} then 1 else 0)%nat
                     /\ match commits with
                        | [] => first_date = utcnow_isoformat w (clock_reads s)
                        | c :: cs => first_date = date (List.last cs c)
                        end).
    { unfold without_history. cbn [page_commits].
      destruct commits as [|c cs]; simpl in Hdate; injection Hdate as <- <-;
        cbn [clock_reads]; repeat split; lia. }
    destruct Hfirst as ((Hfs1 & Hprinted1 & Heff1) & Hclock1 & Hfirst).
    split; [by rewrite <- Hpaths|].
    split; [constructor; [by repeat split|done]|].
    split; [constructor; [apply out_filename_plain|done]|].
    split; [|split; [repeat split; congruence|]].
    + constructor.
      * unfold dated. cbn [page_commits page_first_commit_date].
        destruct commits as [|c cs]; [|done].
        exists (clock_reads s). split; [|done].
        unfold without_history in Hclock1. cbn [page_commits] in Hclock1. lia.
      * eapply Forall_impl; [exact Hdated|]. intros p. apply dated_wider; lia.
    + cbn [List.filter]. destruct (without_history _); cbn [length]; lia.
Qed.

(** ** Sorting twice *)

Lemma py_sorted_fixed {A K : Type} (lt : K -> K -> bool) (key : A -> K) (reverse : bool)
    (l : list A) :
  StronglySorted (may_follow lt key reverse) l -> py_sorted lt key reverse l = l.
Proof.
  induction 1 as [|x r Hr IH Hx]; [done|].
  cbn [py_sorted]. rewrite IH. destruct Hx as [|y r' Hy _]; [done|].
  cbn [py_insert]. unfold may_follow in Hy. by rewrite Hy.
Qed.

(** Sorting the pages a second time (line 203) changes nothing: [order]
    leaves a list it has ordered as it is. *)
Theorem order_twice (pages : list Page) : order (order pages) = order pages.
Proof.
  apply py_sorted_fixed.
  apply (py_sorted_sorted String.ltb page_first_commit_date true
           string_ltb_asym string_ltb_negtrans).
Qed.

Lemma prints_on_bind {A B} (m : M A) (k : A -> M B) :
  prints_on m -> (forall a, prints_on (k a)) -> prints_on (m ≫= k).
Proof.
  intros Hm Hk s. unfold mbind, M_bind, bind.
  destruct (Hm s) as (lines & Hlines). destruct (m s) as [[a|e] s1]; simpl in *.
  - destruct (Hk a s1) as (lines' & Hlines'). exists (lines ++ lines').
    by rewrite Hlines', Hlines, app_assoc.
  - by exists lines.
Qed.

Lemma prints_on_fs_update (f : node -> result node) (e : effect) : prints_on (fs_update f e).
Proof. intros s. exists []. unfold fs_update. destruct (f (fs s)); simpl; by rewrite app_nil_r. Qed.

Lemma prints_on_print (line : string) : prints_on (print line).
Proof. intros s. by exists [line]. Qed.

Lemma prints_on_ret {A} (a : A) : prints_on (mret a : M A).
Proof. intros s. exists []. simpl. by rewrite app_nil_r. Qed.

Lemma prints_on_fs_read {A} (f : node -> A) : prints_on (fs_read f).
Proof. intros s. exists []. simpl. by rewrite app_nil_r. Qed.

Lemma prints_on_except (m : M unit) : prints_on m -> prints_on (except_FileNotFoundError_pass m).
Proof.
  intros Hm s. unfold except_FileNotFoundError_pass.
  destruct (Hm s) as (lines & Hlines). exists lines.
  by destruct (m s) as [[[]|[]] s1].
Qed.

Lemma prints_on_copy (w : World) (src_dir out_dir : string) :
  prints_on (copy_static w src_dir out_dir).
Proof.
  unfold copy_static. apply prints_on_bind; [apply prints_on_fs_read|intros found].
  apply prints_on_bind; [|intros _; apply prints_on_fs_update].
  destruct found; [apply prints_on_fs_update|apply prints_on_ret].
Qed.

Lemma prints_on_publish_assets (w : World) (static_dir media_dir out_dir : string)
    (domain : option string) :
  prints_on (publish_assets w static_dir media_dir out_dir domain).
Proof.
  unfold publish_assets.
  apply prints_on_bind; [apply prints_on_fs_update|intros _].
  apply prints_on_bind; [apply prints_on_copy|intros _].
  apply prints_on_bind; [|intros _; apply prints_on_except, prints_on_copy].
  unfold write_cname. destruct domain as [d|]; [|apply prints_on_ret].
  destruct (PyStr.truthy d); [|apply prints_on_ret].
  apply prints_on_bind; [apply prints_on_fs_update|intros _; apply prints_on_print].
Qed.

(** ** What a run prints *)

Lemma plain_index_html : plain_component "index.html".
Proof. by repeat split. Qed.

(** ** Runs that stop early *)


Lemma git_log_commits_raises (w : World) (path rel : string) (e : exn) :
  PyPath.relpath (getcwd w) path (getcwd w) = Ok rel ->
  git_log w rel = Raise e ->
  git_log_commits w path = Raise e.
Proof. intros Hrel Hgit. unfold git_log_commits. rewrite Hrel. simpl. by rewrite Hgit. Qed.

Lemma build_pages_raises (w : World) (rst_files : list string) (file : string) (e : exn)
    (s : State) :
  In file rst_files -> git_log_commits w file = Raise e ->
  exists e' s', build_pages w rst_files s = (Raise e', s') /\ later_clock s s'.
Proof.
  intros Hin Hfile. revert s. induction rst_files as [|path rest IH]; intros s; [done|].
  cbn [build_pages].
  destruct (git_log_commits w path) as [commits|e0] eqn:Hcommits.
  - erewrite bind_ok by reflexivity.
    assert (Hdate : exists d s1, first_commit_date w commits s = (Ok d, s1) /\ later_clock s s1).
    { destruct commits; simpl; by eexists _, _. }
    destruct Hdate as (d & s1 & Hd & Hs1 & Hp1 & He1).
    erewrite bind_ok by exact Hd.
    destruct (PyPath.relpath (getcwd w) path (getcwd w)) as [rel|e1] eqn:Hrel.
    + erewrite bind_ok by reflexivity.
      destruct Hin as [->|Hin]; [congruence|].
      destruct (IH Hin s1) as (e' & s' & Hrest & Hs' & Hp' & He').
      erewrite bind_raise by exact Hrest.
      exists e', s'. split; [done|]. repeat split; congruence.
    + erewrite bind_raise by reflexivity. by exists e1, s1.
  - erewrite bind_raise by reflexivity. by exists e0, s.
Qed.

(** The histories are read before the mode is looked at.  When git cannot
    be started for one of the source files, [main] raises, in every mode,
    and has then printed nothing and changed nothing in the file system:
    the clock alone may have been read. *)
Theorem main_stops_when_git_cannot_start
    (w : World) (args : Args) (s : State) (cfg : gmap string string)
    (file rel : string) (e : exn) :
  load_config w (arg_config args) s = (Ok cfg, s) ->
  In file (find_rst_files w (fs s) (default "content" (cfg !! "content_dir"))) ->
  PyPath.relpath (getcwd w) file (getcwd w) = Ok rel ->
  git_log w rel = Raise e ->
  exists e' s', main w args s = (Raise e', s') /\ later_clock s s'.
Proof.
  intros Hcfg Hin Hrel Hgit.
  destruct (build_pages_raises w _ file e s Hin (git_log_commits_raises _ _ _ _ Hrel Hgit))
    as (e' & s' & Hrun & Hs').
  exists e', s'. split; [|done]. unfold main.
  erewrite bind_ok by exact Hcfg.
  erewrite bind_ok by reflexivity.
  erewrite bind_raise by exact Hrun. done.
Qed.

(** ** The listings *)

(** Once the configuration has loaded and the pages are built, a dry run
    prints its heading and one line per page, in the order of the pages,
    and returns 0, whether or not skip-render is asked for as well; a
    skip-render run that is no dry run does the same with its own heading
    and lines. *)
Theorem listing_modes_print_the_pages
    (w : World) (args : Args) (s s1 : State) (cfg : gmap string string) (pages : list Page) :
  load_config w (arg_config args) s = (Ok cfg, s) ->
  build_pages w (find_rst_files w (fs s) (default "content" (cfg !! "content_dir"))) s
  = (Ok pages, s1) ->
  (arg_dry_run args = true ->
   main w args s
   = (Ok 0, {| fs := fs s; effects := effects s; clock_reads := clock_reads s1;
               printed := printed s ++ "Dry run: discovered pages:"
                          :: map dry_run_line (order pages) |}))
  /\ (arg_dry_run args = false -> arg_skip_render args = true ->
      main w args s
      = (Ok 0, {| fs := fs s; effects := effects s; clock_reads := clock_reads s1;
                  printed := printed s
                             ++ "Skip-render mode: verifying git discovery and listing pages"
                             :: map skip_render_line (order pages) |})).
Proof.
  intros Hcfg Hpages.
  destruct (build_pages_run _ _ _ _ _ Hpages) as (_ & Hfs & Hprinted & Heff).
  split; [intros Hdry|intros Hdry Hskip]; unfold main; rewrite Hdry, ?Hskip;
    (erewrite bind_ok by exact Hcfg);
    (erewrite bind_ok by reflexivity);
    (erewrite bind_ok by exact Hpages);
    (erewrite bind_ok by reflexivity);
    (erewrite bind_ok by apply print_each_run);
    cbn; rewrite <- app_assoc, Hfs, Hprinted, Heff; done.
Qed.

(** ** A static directory given with a trailing slash *)

Lemma split_last_sep_slash (dir : string) :
  PyPath.split_last_sep (dir +:+ "/") = (dir +:+ "/", "").
Proof.
  induction dir as [|c r IH]; [done|].
  change (PyPath.split_last_sep (String c (r +:+ "/")) = (String c (r +:+ "/"), "")).
  cbn [PyPath.split_last_sep]. rewrite IH.
  destruct (r +:+ "/") eqn:E; [by apply append_empty in E|done].
Qed.

Lemma abs_components_join_empty (cwd a : string) :
  PyPath.abs_components cwd (PyPath.join a "") = PyPath.abs_components cwd a.
Proof.
  unfold PyPath.abs_components. rewrite (join_join cwd a "") by done.
  set (A := PyPath.join cwd a). unfold PyPath.join. cbn [PyStr.startswith].
  destruct (negb (PyStr.truthy A) || PyStr.endswith A "/"); [by rewrite append_nil_r|].
  change (A +:+ "/" +:+ "") with (A +:+ String "/" "").
  rewrite split_all_snoc by done. rewrite fold_left_app. done.
Qed.

Lemma lookup_path_parent (p : list string) (t n : node) :
  p <> [] -> FS.lookup_path p t = Some n ->
  exists es, FS.lookup_path (removelast p) t = Some (Dir es).
Proof.
  revert t. induction p as [|name rest IH]; intros t Hne; [done|].
  cbn [FS.lookup_path]. destruct t as [data|es0]; [done|].
  destruct (FS.lookup_entry name es0) as [child|] eqn:Hchild; [|done].
  destruct rest as [|name' rest'].
  - intros _. by exists es0.
  - intros Hrest. change (removelast (name :: name' :: rest'))
      with (name :: removelast (name' :: rest')).
    cbn [FS.lookup_path]. rewrite Hchild. by apply IH.
Qed.

(** When the static directory is given with a trailing slash, its base
    name is empty and the place of the copy is the output directory
    itself (here named by a plain path that ends in a plain name): [copy_static] removes the output directory with all it holds
    and puts the static files in its place. *)
Theorem static_dir_with_trailing_slash_replaces_output_directory
    (w : World) (dir out_dir : string) (s : State) (es old : list (string * node)) :
  let static_dir := dir +:+ "/" in
  plain_path out_dir ->
  plain_component (PyPath.basename out_dir) ->
  apart (resolve w static_dir) (resolve w out_dir) ->
  FS.lookup_path (resolve w static_dir) (fs s) = Some (Dir es) ->
  FS.lookup_path (resolve w out_dir) (fs s) = Some (Dir old) ->
  exists s',
    copy_static w static_dir out_dir s = (Ok tt, s')
    /\ FS.lookup_path (resolve w out_dir) (fs s') = Some (Dir es)
    /\ effects s'
       = effects s ++ [Rmtree (PyPath.join out_dir "");
                       Copytree (PyPath.abspath (getcwd w) static_dir) (PyPath.join out_dir "")].
Proof.
  intros static_dir _ _ Hapart Hsrc Hout.
  assert (Hbase : PyPath.basename static_dir = "").
  { unfold PyPath.basename, static_dir. by rewrite split_last_sep_slash. }
  assert (Hdst : resolve w (PyPath.join out_dir (PyPath.basename static_dir))
                 = resolve w out_dir).
  { rewrite Hbase. apply abs_components_join_empty. }
  pose proof (apart_nonempty _ _ Hapart) as Hne.
  destruct (lookup_path_parent _ _ _ Hne Hout) as [parent Hparent].
  destruct (copy_static_run w static_dir out_dir s es parent) as (s' & Hrun & Hthere & _);
    rewrite ?Hdst; try done.
  { intros data. by rewrite Hout. }
  rewrite Hdst in Hthere. exists s'. split; [done|]. split; [done|].
  revert Hrun. unfold copy_static. rewrite Hbase.
  erewrite bind_ok by reflexivity.
  assert (Hdst' : resolve w (PyPath.join out_dir "") = resolve w out_dir)
    by apply abs_components_join_empty.
  rewrite bool_decide_eq_true_2 by (exists (Dir old); rewrite Hdst'; exact Hout).
  unfold fs_update at 1.
  intros Hrun. apply bind_inv_ok in Hrun as ([] & sa & Hrm & Hcp).
  unfold fs_update in Hrm, Hcp.
  destruct (FS.rmtree _ (fs s)) as [t1|]; [|done]. injection Hrm as <-.
  cbn [fs] in Hcp. destruct (FS.copytree _ _ t1) as [t2|]; [|done].
  injection Hcp as <-. cbn [effects]. by rewrite <- app_assoc.
Qed.

(** ** What a run leaves alone *)

Lemma apart_app_r (p q r : list string) : apart p q -> apart p (q ++ r).
Proof. induction 1; simpl; by constructor. Qed.

Lemma keeps_bind {A B} (p : list string) (P : A -> Prop) (m : M A) (k : A -> M B) :
  keeps p m -> returns P m -> (forall a, P a -> keeps p (k a)) -> keeps p (m ≫= k).
Proof.
  intros Hm Hr Hk s. unfold mbind, M_bind, bind.
  specialize (Hm s). specialize (Hr s).
  destruct (m s) as [[a|e] s1]; simpl in *; [|done].
  rewrite (Hk a (Hr a eq_refl) s1). done.
Qed.

Lemma keeps_seq {A B} (p : list string) (m : M A) (k : A -> M B) :
  keeps p m -> (forall a, keeps p (k a)) -> keeps p (m ≫= k).
Proof.
  intros Hm Hk. apply (keeps_bind p (fun _ => True)); [done|done|]. intros a _. apply Hk.
Qed.

Lemma keeps_nothing {A} (p : list string) (m : M A) : writes_nothing m -> keeps p m.
Proof. intros Hm s. by destruct (Hm s) as [-> _]. Qed.

Lemma keeps_fs_update (p : list string) (f : node -> result node) (e : effect) :
  (forall t t', f t = Ok t' -> FS.lookup_path p t' = FS.lookup_path p t) ->
  keeps p (fs_update f e).
Proof.
  intros Hf s. unfold fs_update. destruct (f (fs s)) as [t'|] eqn:E; [|done].
  cbn [snd fs]. by apply Hf.
Qed.

Lemma keeps_except (p : list string) (m : M unit) :
  keeps p m -> keeps p (except_FileNotFoundError_pass m).
Proof.
  intros Hm s. unfold except_FileNotFoundError_pass. specialize (Hm s).
  by destruct (m s) as [[[]|[]] s1].
Qed.

Lemma copytree_apart (p src dst : list string) (t t' : node) :
  dst <> [] -> apart p (removelast dst) ->
  FS.copytree src dst t = Ok t' -> FS.lookup_path p t' = FS.lookup_path p t.
Proof.
  intros Hne Hp. unfold FS.copytree.
  destruct (FS.lookup_path src t) as [[data|es]|]; [done| |done].
  destruct (FS.lookup_path dst t); [done|].
  destruct (FS.makedirs (removelast dst) t) as [t1|] eqn:Hmk; [|done]. cbn [result_bind].
  intros Hcp. rewrite (alter_path_apart _ p _ _ _ Hcp).
  - apply (makedirs_unaffected _ _ _ _ Hmk). by left.
  - rewrite (app_removelast_last "" Hne). by apply apart_app_r.
Qed.

Section Frame.
Variables (w : World) (out_dir : string) (p : list string).
Hypothesis Hp : apart p (resolve w out_dir).

Lemma keeps_write (name data : string) :
  plain_component name ->
  keeps p (fs_update (FS.write_file (resolve w (PyPath.join out_dir name)) data)
             (WriteFile (PyPath.join out_dir name) data)).
Proof.
  intros Hname. apply keeps_fs_update. intros t t' Hw.
  apply (write_file_lookup _ _ _ _ Hw). rewrite resolve_join by done. by apply apart_app_r.
Qed.

Lemma keeps_copy (src_dir : string) :
  plain_component (PyPath.basename src_dir) -> keeps p (copy_static w src_dir out_dir).
Proof.
  intros Hbase. unfold copy_static.
  assert (Hdst : resolve w (PyPath.join out_dir (PyPath.basename src_dir))
                 = resolve w out_dir ++ [PyPath.basename src_dir]) by by apply resolve_join.
  apply keeps_seq; [apply keeps_nothing, writes_nothing_fs_read|intros found].
  apply keeps_seq; [|intros _].
  - destruct found; [|apply keeps_nothing, writes_nothing_ret].
    apply keeps_fs_update. intros t t' Hrm. unfold FS.rmtree in Hrm.
    apply (alter_path_apart _ _ _ _ _ Hrm). rewrite Hdst. by apply apart_app_r.
  - apply keeps_fs_update. intros t t'. rewrite Hdst. apply copytree_apart.
    + by destruct (resolve w out_dir).
    + by rewrite removelast_snoc.
Qed.

Lemma keeps_publish_assets (static_dir media_dir : string) (domain : option string) :
  plain_component (PyPath.basename static_dir) ->
  plain_component (PyPath.basename media_dir) ->
  keeps p (publish_assets w static_dir media_dir out_dir domain).
Proof.
  intros Hstatic Hmedia. unfold publish_assets.
  apply keeps_seq; [|intros _].
  { apply keeps_fs_update. intros t t' Hmk. apply (makedirs_unaffected _ _ _ _ Hmk). by left. }
  apply keeps_seq; [by apply keeps_copy|intros _].
  apply keeps_seq; [|intros _; by apply keeps_except, keeps_copy].
  unfold write_cname. destruct domain as [d|]; [|apply keeps_nothing, writes_nothing_ret].
  destruct (PyStr.truthy d); [|apply keeps_nothing, writes_nothing_ret].
  apply keeps_seq; [apply keeps_write, plain_CNAME|intros _].
  apply keeps_nothing, writes_nothing_print.
Qed.

Lemma keeps_render_pages (page_tpl : Template)
    (site_title static_dir repo_url branch : string) (pages : list Page) :
  Forall (fun q => plain_component (page_out_filename q)) pages ->
  keeps p (render_pages w page_tpl site_title static_dir out_dir repo_url branch pages).
Proof.
  induction 1 as [|q rest Hq Hrest IH]; [apply keeps_nothing, writes_nothing_ret|].
  cbn [render_pages].
  apply keeps_seq; [by intros s|intros text].
  apply keeps_seq; [apply keeps_nothing, writes_nothing_lift|intros body].
  apply keeps_seq; [by apply keeps_write|intros _].
  apply keeps_seq; [apply keeps_nothing, writes_nothing_print|intros _]. exact IH.
Qed.

Lemma keeps_render_site (page_tpl index_tpl : Template)
    (site_title static_dir repo_url branch : string) (pages : list Page) :
  Forall (fun q => plain_component (page_out_filename q)) pages ->
  keeps p (render_site w page_tpl index_tpl site_title static_dir out_dir repo_url branch pages).
Proof.
  intros Hplain. unfold render_site.
  apply keeps_seq; [by apply keeps_render_pages|intros _].
  apply keeps_seq; [apply keeps_write, plain_index_html|intros _].
  apply keeps_seq; [apply keeps_nothing, writes_nothing_print|intros _].
  apply keeps_nothing, writes_nothing_ret.
Qed.

End Frame.

Lemma returns_build_pages_plain (w : World) (rst_files : list string) :
  returns (Forall (fun q => plain_component (page_out_filename q))) (build_pages w rst_files).
Proof.
  intros s pages Hrun. destruct (build_pages w rst_files s) as [r s'] eqn:E.
  simpl in Hrun. subst r. by apply build_pages_run in E as [? _].
Qed.

(** A run changes nothing outside the output directory.  Once the
    configuration has loaded, and when the output directory is named by a
    plain path and the static and the media directory by paths that end in
    a plain name, what a path that parts
    ways with the output directory leads to is the same after [main] as
    before, in every mode, whether [main] returns or raises. *)
Theorem main_changes_only_the_output_directory
    (w : World) (args : Args) (s : State) (cfg : gmap string string) (p : list string) :
  load_config w (arg_config args) s = (Ok cfg, s) ->
  plain_path (output_dir args cfg) ->
  plain_component (PyPath.basename (default "static" (cfg !! "static_dir"))) ->
  plain_component (PyPath.basename (default "media" (cfg !! "media_dir"))) ->
  apart p (resolve w (output_dir args cfg)) ->
  FS.lookup_path p (fs (main w args s).2) = FS.lookup_path p (fs s).
Proof.
  intros Hcfg _ Hstatic Hmedia Hp. unfold main.
  erewrite bind_ok by exact Hcfg. revert s Hcfg. intros s _. revert s.
  apply keeps_seq; [apply keeps_nothing, writes_nothing_fs_read|intros rst_files].
  apply (keeps_bind p _ _ _ (keeps_nothing p _ (writes_nothing_build_pages w rst_files))
           (returns_build_pages_plain w rst_files)).
  intros pages Hplain.
  assert (Hordered : Forall (fun q => plain_component (page_out_filename q)) (order pages)).
  { rewrite List.Forall_forall in Hplain |- *. intros q Hq. apply Hplain.
    by apply (Permutation_in _ (order_permutation pages)). }
  destruct (arg_dry_run args).
  { apply keeps_seq; [apply keeps_nothing, writes_nothing_print|intros _].
    apply keeps_seq; [apply keeps_nothing, writes_nothing_print_each|intros _].
    apply keeps_nothing, writes_nothing_ret. }
  destruct (arg_skip_render args).
  { apply keeps_seq; [apply keeps_nothing, writes_nothing_print|intros _].
    apply keeps_seq; [apply keeps_nothing, writes_nothing_print_each|intros _].
    apply keeps_nothing, writes_nothing_ret. }
  destruct (publish_parts w), (Environment w);
    try (apply keeps_seq; [apply keeps_nothing, writes_nothing_print|intros _];
         apply keeps_nothing, writes_nothing_ret).
  apply keeps_seq; [apply keeps_nothing, writes_nothing_lift|intros base].
  apply keeps_seq; [apply keeps_nothing, writes_nothing_lift|intros page_tpl].
  apply keeps_seq; [apply keeps_nothing, writes_nothing_lift|intros index_tpl].
  apply keeps_seq; [by apply keeps_publish_assets|intros _].
  by apply keeps_render_site.
Qed.

(** ** The site written *)

Lemma render_site_output (w : World) (page_tpl index_tpl : Template)
    (site_title static_dir out_dir repo_url branch : string) (pages : list Page)
    (s s' : State) (c : Z) :
  render_site w page_tpl index_tpl site_title static_dir out_dir repo_url branch pages s
  = (Ok c, s') ->
  Forall (fun q => plain_component (page_out_filename q)) pages ->
  c = 0
  /\ FS.read_file (resolve w (PyPath.join out_dir "index.html")) (fs s')
     = Ok (index_tpl (IndexBindings (order pages) site_title static_dir))
  /\ (forall front p back,
        pages = front ++ p :: back ->
        Forall (fun q => page_out_filename q <> page_out_filename p) back ->
        page_out_filename p <> "index.html" ->
        apart (resolve w (page_path p)) (resolve w out_dir) ->
        exists text body,
          FS.read_file (resolve w (page_path p)) (fs s) = Ok text
          /\ render_rst w text = Ok body
          /\ FS.read_file (resolve w (page_out_path out_dir p)) (fs s')
             = Ok (page_html page_tpl site_title static_dir repo_url branch p body))
  /\ printed s'
     = printed s ++ map (fun p => "Wrote " +:+ page_out_path out_dir p) pages
       ++ ["Wrote index for " +:+ str_of_nat (length pages) +:+ " pages"].
Proof.
  unfold render_site. intros Hrun Hplain.
  apply bind_inv_ok in Hrun as ([] & s1 & Hpages & Hrun).
  apply bind_inv_ok in Hrun as ([] & s2 & Hindex & Hrun).
  apply bind_inv_ok in Hrun as ([] & s3 & Hprint & Hrun).
  injection Hrun as <- <-. injection Hprint as <-.
  unfold fs_update in Hindex.
  destruct (FS.write_file _ _ (fs s1)) as [t2|] eqn:Hw; [|done].
  injection Hindex as <-. cbn [fs printed].
  destruct (write_file_lookup _ _ _ _ Hw) as [Hthere Hframe].
  split; [done|]. split; [|split].
  - unfold FS.read_file. by rewrite Hthere.
  - intros front p back -> Hback Hname Hsource.
    assert (Hp : Forall (fun q => plain_component (page_out_filename q)) (p :: back)).
    { apply Forall_app in Hplain. apply Hplain. }
    destruct (render_pages_last_wins _ _ _ _ _ _ _ _ _ _ _ _ Hpages Hp Hback)
      as (s0 & text & body & Hfront & Hread & Hbody & Hfile).
    exists text, body. split; [|split; [done|]].
    { assert (Hkept : FS.lookup_path (resolve w (page_path p)) (fs s0)
                      = FS.lookup_path (resolve w (page_path p)) (fs s)).
      { pose proof (keeps_render_pages w out_dir _ Hsource page_tpl site_title static_dir
                      repo_url branch front) as Hkeeps.
        rewrite <- (Hkeeps ltac:(apply Forall_app in Hplain; apply Hplain) s).
        by rewrite Hfront. }
      unfold FS.read_file in Hread |- *. by rewrite <- Hkept. }
    unfold FS.read_file. rewrite Hframe; [by rewrite Hfile|].
    unfold page_out_path. rewrite !resolve_join; [|apply plain_index_html|].
    + by apply apart_last.
    + by apply Forall_cons in Hp as [? _].
  - rewrite (render_pages_printed _ _ _ _ _ _ _ _ _ _ Hpages).
    by rewrite <- app_assoc, (Permutation_length (order_permutation pages)).
Qed.

(** A full render that returns has the exit code 0 and leaves, in the
    output directory (named by a plain path): [index.html] with the index
    of the pages in their order, also when a page is named [index]; and
    for every other page that no later page shares its output name with,
    the file of that name with the page rendered from the text its source
    file held when the run began (the source parting ways with the output
    directory, the static and the media directory being named by paths
    that end in a plain name).  The last lines printed are one line per
    page, in order, and the line of the index. *)
Theorem full_render_leaves_pages_and_index
    (w : World) (args : Args) (s : State) (cfg : gmap string string)
    (pages : list Page) (page_tpl index_tpl : Template) (s1 s' : State) (c : Z) :
  let out_dir := output_dir args cfg in
  let site_title := default "Site" (cfg !! "site_title") in
  let static_dir := default "static" (cfg !! "static_dir") in
  let repo_url := default "" (cfg !! "repo_url") in
  let branch := default "main" (cfg !! "branch") in
  plain_path out_dir ->
  reaches_publishing w args s cfg pages page_tpl index_tpl s1 ->
  main w args s = (Ok c, s') ->
  c = 0
  /\ FS.read_file (resolve w (PyPath.join out_dir "index.html")) (fs s')
     = Ok (index_tpl (IndexBindings (order pages) site_title static_dir))
  /\ (forall front p back,
        order pages = front ++ p :: back ->
        Forall (fun q => page_out_filename q <> page_out_filename p) back ->
        page_out_filename p <> "index.html" ->
        plain_component (PyPath.basename static_dir) ->
        plain_component (PyPath.basename (default "media" (cfg !! "media_dir"))) ->
        apart (resolve w (page_path p)) (resolve w out_dir) ->
        exists text body,
          FS.read_file (resolve w (page_path p)) (fs s) = Ok text
          /\ render_rst w text = Ok body
          /\ FS.read_file (resolve w (page_out_path out_dir p)) (fs s')
             = Ok (page_html page_tpl site_title static_dir repo_url branch p body))
  /\ exists lines,
       printed s'
       = printed s ++ lines
         ++ map (fun p => "Wrote " +:+ page_out_path out_dir p) (order pages)
         ++ ["Wrote index for " +:+ str_of_nat (length pages) +:+ " pages"].
Proof.
  intros out_dir site_title static_dir repo_url branch _ Hreach Hmain.
  rewrite (main_reaches_publishing _ _ _ _ _ _ _ _ Hreach) in Hmain.
  fold out_dir site_title static_dir repo_url branch in Hmain.
  apply bind_inv_ok in Hmain as ([] & s2 & Hpublish & Hsite).
  destruct Hreach as (_ & _ & _ & Hbuilt & _).
  apply build_pages_run in Hbuilt as (Hplain & Hfs1 & Hprinted1 & _).
  assert (Hplain' : Forall (fun q => plain_component (page_out_filename q)) (order pages)).
  { rewrite List.Forall_forall in Hplain |- *. intros q Hq. apply Hplain.
    by apply (Permutation_in _ (order_permutation pages)). }
  destruct (render_site_output _ _ _ _ _ _ _ _ _ _ _ _ Hsite Hplain')
    as (Hc & Hindex & Hfiles & Hprinted).
  assert (Hordered : order (order pages) = order pages).
  { apply py_sorted_fixed.
    apply (py_sorted_sorted _ _ _ string_ltb_asym string_ltb_negtrans). }
  rewrite Hordered in Hindex.
  assert (Hrun : publish_assets w static_dir (default "media" (cfg !! "media_dir"))
                   out_dir (cfg !! "domain") s1 = (Ok tt, s2)) by exact Hpublish.
  split; [done|]. split; [done|]. split.
  { intros front p back Horder Hback Hname Hstatic Hmedia Hsource.
    destruct (Hfiles front p back Horder Hback Hname Hsource)
      as (text & body & Hread & Hbody & Hfile).
    exists text, body. split; [|done].
    pose proof (keeps_publish_assets w out_dir _ Hsource static_dir
                  (default "media" (cfg !! "media_dir")) (cfg !! "domain")
                  Hstatic Hmedia s1) as Hkept.
    rewrite Hrun in Hkept. cbn [snd] in Hkept.
    unfold FS.read_file in Hread |- *. by rewrite <- Hfs1, <- Hkept. }
  assert (Hlines : exists lines, printed s2 = printed s1 ++ lines).
  { destruct (prints_on_publish_assets w static_dir (default "media" (cfg !! "media_dir"))
                out_dir (cfg !! "domain") s1) as [lines Hlines].
    exists lines. by rewrite Hrun in Hlines. }
  destruct Hlines as [lines Hlines]. exists lines.
  by rewrite Hprinted, Hlines, Hprinted1, <- app_assoc,
    (Permutation_length (order_permutation pages)).
Qed.

(** ** What a run leaves alone in the output directory *)

Section Beside.
Variables (w : World) (out_dir : string) (p : list string).
Hypothesis Hp : apart p (resolve w out_dir) \/ exists x r, p = resolve w out_dir ++ x :: r.

Lemma keeps_ensure_dir_beside : keeps p (ensure_dir w out_dir).
Proof.
  apply keeps_fs_update. intros t t' Hmk. by apply (makedirs_unaffected _ _ _ _ Hmk).
Qed.

Lemma keeps_write_beside (name data : string) :
  plain_component name -> apart p (resolve w out_dir ++ [name]) ->
  keeps p (fs_update (FS.write_file (resolve w (PyPath.join out_dir name)) data)
             (WriteFile (PyPath.join out_dir name) data)).
Proof.
  intros Hname Hapart. apply keeps_fs_update. intros t t' Hw.
  apply (write_file_lookup _ _ _ _ Hw). by rewrite resolve_join.
Qed.

Lemma keeps_copy_beside (src_dir : string) :
  plain_component (PyPath.basename src_dir) ->
  apart p (resolve w out_dir ++ [PyPath.basename src_dir]) ->
  keeps p (copy_static w src_dir out_dir).
Proof.
  intros Hbase Hapart. unfold copy_static.
  assert (Hdst : resolve w (PyPath.join out_dir (PyPath.basename src_dir))
                 = resolve w out_dir ++ [PyPath.basename src_dir]) by by apply resolve_join.
  apply keeps_seq; [apply keeps_nothing, writes_nothing_fs_read|intros found].
  apply keeps_seq; [|intros _].
  - destruct found; [|apply keeps_nothing, writes_nothing_ret].
    apply keeps_fs_update. intros t t' Hrm. unfold FS.rmtree in Hrm.
    apply (alter_path_apart _ _ _ _ _ Hrm). by rewrite Hdst.
  - apply keeps_fs_update. intros t t'. rewrite Hdst. unfold FS.copytree.
    destruct (FS.lookup_path _ t) as [[data|es]|]; [done| |done].
    destruct (FS.lookup_path _ t); [done|].
    rewrite removelast_snoc.
    destruct (FS.makedirs (resolve w out_dir) t) as [t1|] eqn:Hmk; [|done]. cbn [result_bind].
    intros Hcp. rewrite (alter_path_apart _ p _ _ _ Hcp) by done.
    by apply (makedirs_unaffected _ _ _ _ Hmk).
Qed.

Lemma keeps_render_pages_beside (page_tpl : Template)
    (site_title static_dir repo_url branch : string) (pages : list Page) :
  Forall (fun q => plain_component (page_out_filename q)
                   /\ apart p (resolve w out_dir ++ [page_out_filename q])) pages ->
  keeps p (render_pages w page_tpl site_title static_dir out_dir repo_url branch pages).
Proof.
  induction 1 as [|q rest [Hq Hapart] Hrest IH]; [apply keeps_nothing, writes_nothing_ret|].
  cbn [render_pages].
  apply keeps_seq; [by intros s|intros text].
  apply keeps_seq; [apply keeps_nothing, writes_nothing_lift|intros body].
  apply keeps_seq; [by apply keeps_write_beside|intros _].
  apply keeps_seq; [apply keeps_nothing, writes_nothing_print|intros _]. exact IH.
Qed.

End Beside.

Lemma html_name_is_not_CNAME (slug : string) : slug +:+ ".html" <> "CNAME".
Proof.
  intros Heq. assert (H : last_char (slug +:+ ".html") = last_char "CNAME") by by rewrite Heq.
  rewrite last_char_app in H by done. done.
Qed.

Lemma returns_build_pages_html (w : World) (rst_files : list string) :
  returns (Forall (fun q => plain_component (page_out_filename q)
                            /\ exists slug, page_out_filename q = slug +:+ ".html"))
    (build_pages w rst_files).
Proof.
  intros s pages Hrun. destruct (build_pages w rst_files s) as [r s'] eqn:E.
  simpl in Hrun. subst r.
  pose proof (build_pages_out_filename _ _ _ _ _ E) as Hhtml.
  apply build_pages_run in E as [Hplain _].
  rewrite List.Forall_forall in Hhtml, Hplain |- *. intros q Hq. split; auto.
Qed.

(** Without a domain the run leaves the [CNAME] file of the output
    directory alone.  Once the configuration has loaded with the domain
    unset or empty, and when the output directory is named by a plain path
    and the static and the media directory by paths that end in a plain
    name other than [CNAME]: what the path of the file leads to is the same
    after [main] as before, in every mode, whether [main] returns or
    raises. *)
Theorem main_without_domain_leaves_cname_alone
    (w : World) (args : Args) (s : State) (cfg : gmap string string) :
  let out_dir := output_dir args cfg in
  let static_dir := default "static" (cfg !! "static_dir") in
  let media_dir := default "media" (cfg !! "media_dir") in
  load_config w (arg_config args) s = (Ok cfg, s) ->
  cfg !! "domain" = None \/ cfg !! "domain" = Some "" ->
  plain_path out_dir ->
  plain_component (PyPath.basename static_dir) -> PyPath.basename static_dir <> "CNAME" ->
  plain_component (PyPath.basename media_dir) -> PyPath.basename media_dir <> "CNAME" ->
  FS.lookup_path (resolve w (PyPath.join out_dir "CNAME")) (fs (main w args s).2)
  = FS.lookup_path (resolve w (PyPath.join out_dir "CNAME")) (fs s).
Proof.
  intros out_dir static_dir media_dir Hcfg Hdomain _ Hstatic Hstatic' Hmedia Hmedia'.
  rewrite (resolve_join w out_dir "CNAME" plain_CNAME).
  set (p := resolve w out_dir ++ ["CNAME"]).
  assert (Hp : apart p (resolve w out_dir) \/ exists x r, p = resolve w out_dir ++ x :: r)
    by (right; by exists "CNAME", []).
  assert (Hname : forall name, name <> "CNAME" -> apart p (resolve w out_dir ++ [name])).
  { intros name Hne. apply apart_last. congruence. }
  unfold main. erewrite bind_ok by exact Hcfg.
  fold out_dir static_dir media_dir. revert s Hcfg. intros s _. revert s.
  apply keeps_seq; [apply keeps_nothing, writes_nothing_fs_read|intros rst_files].
  apply (keeps_bind p _ _ _ (keeps_nothing p _ (writes_nothing_build_pages w rst_files))
           (returns_build_pages_html w rst_files)).
  intros pages Hpages.
  assert (Hordered : Forall (fun q => plain_component (page_out_filename q)
                                      /\ apart p (resolve w out_dir ++ [page_out_filename q]))
                       (order pages)).
  { rewrite List.Forall_forall in Hpages |- *. intros q Hq.
    destruct (Hpages q) as [Hplain [slug Hslug]].
    { by apply (Permutation_in _ (order_permutation pages)). }
    split; [done|]. apply Hname. rewrite Hslug. apply html_name_is_not_CNAME. }
  destruct (arg_dry_run args).
  { apply keeps_seq; [apply keeps_nothing, writes_nothing_print|intros _].
    apply keeps_seq; [apply keeps_nothing, writes_nothing_print_each|intros _].
    apply keeps_nothing, writes_nothing_ret. }
  destruct (arg_skip_render args).
  { apply keeps_seq; [apply keeps_nothing, writes_nothing_print|intros _].
    apply keeps_seq; [apply keeps_nothing, writes_nothing_print_each|intros _].
    apply keeps_nothing, writes_nothing_ret. }
  destruct (publish_parts w), (Environment w);
    try (apply keeps_seq; [apply keeps_nothing, writes_nothing_print|intros _];
         apply keeps_nothing, writes_nothing_ret).
  apply keeps_seq; [apply keeps_nothing, writes_nothing_lift|intros base].
  apply keeps_seq; [apply keeps_nothing, writes_nothing_lift|intros page_tpl].
  apply keeps_seq; [apply keeps_nothing, writes_nothing_lift|intros index_tpl].
  apply keeps_seq; [|intros _].
  { unfold publish_assets.
    apply keeps_seq; [by apply keeps_ensure_dir_beside|intros _].
    apply keeps_seq; [apply keeps_copy_beside; auto|intros _].
    apply keeps_seq; [|intros _; apply keeps_except, keeps_copy_beside; auto].
    unfold write_cname. destruct Hdomain as [-> | ->]; apply keeps_nothing, writes_nothing_ret. }
  unfold render_site.
  apply keeps_seq; [by apply keeps_render_pages_beside|intros _].
  apply keeps_seq; [|intros _].
  { apply keeps_write_beside; [apply plain_index_html|]. by apply Hname. }
  apply keeps_seq; [apply keeps_nothing, writes_nothing_print|intros _].
  apply keeps_nothing, writes_nothing_ret.
Qed.

(** ** Runs on the concrete sites *)

Example site_discovery :
  find_rst_files (site_world true) site_tree "content"
  = ["content/about.RST"; "content/drafts/draft.rst"; "content/news.rst"].
Proof. reflexivity. Qed.

(** The content directory is read as the system reads a path: the empty
    path and a path through a directory that is missing name nothing, a
    path through directories that exist names the directory, and the
    sources are reported under the path as it was given. *)
Example site_discovery_by_other_paths :
  find_rst_files (site_world true) site_tree "" = []
  /\ find_rst_files (site_world true) site_tree "nope/../content" = []
  /\ find_rst_files (site_world true) site_tree "config.toml/../content" = []
  /\ find_rst_files (site_world true) site_tree "content/../content/drafts"
     = ["content/../content/drafts/draft.rst"]
  /\ find_rst_files (site_world true) site_tree "/home/u/site/content/drafts/"
     = ["/home/u/site/content/drafts/draft.rst"].
Proof. repeat split. Qed.

Example site_history :
  git_log_commits (site_world true) "content/news.rst"
  = Ok [ {| sha := "h2"; date := "2023-06-15T10:00:00+02:00"; author := "Ann";
            message := "Fix typo" |};
         {| sha := "h1"; date := "2020-01-01T10:00:00+00:00"; author := "Bob";
            message := "Add news | first post" |} ]
  /\ git_log_commits (site_world true) "content/drafts/draft.rst" = Ok []
  /\ git_log_commits (site_world true) "content/about.RST" = Ok [].
Proof. repeat split. Qed.

(** A full run: exit code 0, the static files copied, the CNAME file, one
    file per page and the index written; the missing media directory is
    passed over. *)
Example site_full_render :
  (main (site_world true) (site_args false false) site_state).1 = Ok 0
  /\ effects (main (site_world true) (site_args false false) site_state).2
     = [ Makedirs "site";
         Copytree "/home/u/site/static" "site/static";
         WriteFile "site/CNAME" ("example.org" +:+ nl);
         WriteFile "site/draft.html"
           "draft: <p>Draft</p> https://example.com/repo/commits/main/content/drafts/draft.rst";
         WriteFile "site/about.html"
           "about: <p>About</p> https://example.com/repo/commits/main/content/about.RST";
         WriteFile "site/news.html"
           "news: <p>News</p> https://example.com/repo/commits/main/content/news.rst";
         WriteFile "site/index.html" "draft/about/news" ]
  /\ printed (main (site_world true) (site_args false false) site_state).2
     = [ "Wrote CNAME -> site/CNAME"; "Wrote site/draft.html"; "Wrote site/about.html";
         "Wrote site/news.html"; "Wrote index for 3 pages" ].
Proof. vm_compute. repeat split. Qed.

Lemma site_reaches_publishing :
  reaches_publishing (site_world true) (site_args false false) site_state site_cfg
    site_pages show_bindings show_bindings site_state_built.
Proof.
  repeat split.
  - by eexists.
  - exists (fun _ _ => Ok show_bindings), show_bindings. repeat split.
Defined.



(** C6. The media directory, named with a trailing slash, is missing: its
    base name is empty, so the copy is aimed at the output directory
    itself; the output directory is removed with what was published into
    it, the missing source is passed over, and the run stops at the first
    page it writes. *)
Theorem absent_media_dir_with_trailing_slash_stops_the_run :
  FS.lookup_path ["home"; "u"; "site"; "media"] (fs site_state) = None
  /\ (main slash_media_world (site_args false false) site_state).1 = Raise FileNotFoundError
  /\ effects (main slash_media_world (site_args false false) site_state).2
     = [ Makedirs "site";
         Copytree "/home/u/site/static" "site/static";
         WriteFile "site/CNAME" ("example.org" +:+ nl);
         Rmtree "site/" ]
  /\ FS.lookup_path ["home"; "u"; "site"; "site"]
       (fs (main slash_media_world (site_args false false) site_state).2) = None.
Proof. vm_compute. repeat split. Qed.

(** C10. No domain is configured, the static directory holds a [CNAME]
    file and is named with a trailing slash: its base name is empty, the
    static files are copied onto the output directory itself, and the run
    returns having put a [CNAME] file there. *)
Theorem cname_from_the_static_directory_reaches_the_output :
  marker_cfg !! "domain" = None
  /\ FS.lookup_path ["home"; "u"; "site"; "site"; "CNAME"] (fs marker_state) = None
  /\ (main marker_world (site_args false false) marker_state).1 = Ok 0
  /\ effects (main marker_world (site_args false false) marker_state).2
     = [ Makedirs "site";
         Rmtree "site/";
         Copytree "/home/u/site/static" "site/";
         WriteFile "site/news.html" "news: <p>News</p> #";
         WriteFile "site/index.html" "news" ]
  /\ FS.lookup_path ["home"; "u"; "site"; "site"; "CNAME"]
       (fs (main marker_world (site_args false false) marker_state).2)
     = Some (File "old.example.org").
Proof. vm_compute. repeat split. Qed.





(** Without the static directory the same run stops with
    [FileNotFoundError], after the output directory was made and before
    anything else was written. *)
Example site_without_static :
  let bare :=
    {| fs := Dir [("home", Dir [("u", Dir [("site", Dir [
               ("config.toml", File "site");
               ("content", Dir [("news.rst", File "News")])])])])];
       printed := []; clock_reads := 0; effects := [] |} in
  (main (site_world true) (site_args false false) bare).1 = Raise FileNotFoundError
  /\ effects (main (site_world true) (site_args false false) bare).2 = [Makedirs "site"].
Proof. vm_compute. split; reflexivity. Qed.

(** ** The properties on the concrete sites *)

Lemma git_log_commits_round_trip_witness :
  git_log_commits zones_world "content/east.rst" = Ok (page_commits east_page).
Proof.
  apply (git_log_commits_round_trip zones_world "content/east.rst" "content/east.rst"
           (page_commits east_page)); [reflexivity|reflexivity|].
  repeat constructor.
Defined.

Lemma ensure_dir_makes_directory_witness :
  (exists es, FS.lookup_path ["home"; "u"; "site"; "site"] (fs site_state_ensured) = Some (Dir es))
  /\ FS.lookup_path ["home"; "u"; "site"; "content"; "news.rst"] (fs site_state_ensured)
     = Some (File "News")
  /\ exists s'', ensure_dir (site_world true) "site" site_state_ensured = (Ok tt, s'')
                 /\ fs s'' = fs site_state_ensured.
Proof.
  destruct (ensure_dir_makes_directory (site_world true) "site" site_state_built
              site_state_ensured eq_refl) as (Hdir & Hfiles & _ & Hagain).
  split; [exact Hdir|]. split; [|exact Hagain].
  apply Hfiles. reflexivity.
Defined.


Lemma copy_static_replaces_copy_witness :
  exists s',
    copy_static (site_world true) "static" "site" site_state_ensured = (Ok tt, s')
    /\ FS.lookup_path ["home"; "u"; "site"; "site"; "static"] (fs s')
       = Some (Dir [("style.css", File "body {}")])
    /\ FS.lookup_path ["home"; "u"; "site"; "static"] (fs s')
       = Some (Dir [("style.css", File "body {}")])
    /\ exists s'',
         copy_static (site_world true) "static" "site" s' = (Ok tt, s'')
         /\ FS.lookup_path ["home"; "u"; "site"; "site"; "static"] (fs s'')
            = Some (Dir [("style.css", File "body {}")]).
Proof.
  destruct (copy_static_replaces_copy (site_world true) "static" "site" site_state_ensured
              [("style.css", File "body {}")] [])
    as (s' & Hrun & Hcopy & Hframe & _ & s'' & Hrun' & Hcopy' & _).
  - by repeat split.
  - split; [done|]. repeat constructor; done.
  - vm_compute. do 3 apply apart_below. by apply apart_here.
  - reflexivity.
  - reflexivity.
  - intros data. vm_compute. discriminate.
  - exists s'. split; [exact Hrun|]. split; [exact Hcopy|]. split.
    + rewrite (Hframe ["home"; "u"; "site"; "static"]); [reflexivity|].
      vm_compute. do 3 apply apart_below. by apply apart_here.
    + exists s''. split; [exact Hrun'|exact Hcopy'].
Defined.

Lemma copy_of_missing_source_removes_old_copy_witness :
  exists s',
    copy_static (site_world true) "media" "site" site_state_stale
    = (Raise FileNotFoundError, s')
    /\ except_FileNotFoundError_pass (copy_media (site_world true) "media" "site")
         site_state_stale = (Ok tt, s')
    /\ FS.lookup_path ["home"; "u"; "site"; "site"; "media"] (fs s') = None
    /\ effects s' = [Rmtree "site/media"].
Proof.
  destruct (copy_of_missing_source_removes_old_copy (site_world true) "media" "site"
              site_state_stale
              [("config.toml", File "site");
               ("content", Dir [("news.rst", File "News")]);
               ("static", Dir [("style.css", File "body {}")]);
               ("site", Dir [("media", Dir [("old.png", File "png")])])]
              [("old.png", File "png")])
    as (s' & Hstatic & Hmedia & Hgone & _ & Heff & _).
  - by repeat split.
  - split; [done|]. repeat constructor; done.
  - done.
  - reflexivity.
  - reflexivity.
  - reflexivity.
  - exists s'. split; [exact Hstatic|]. split; [exact Hmedia|]. split; [exact Hgone|exact Heff].
Defined.

Lemma write_cname_writes_the_domain_witness :
  exists s',
    write_cname (site_world true) (Some " example.org ") "site" site_state_ensured = (Ok tt, s')
    /\ FS.read_file ["home"; "u"; "site"; "site"; "CNAME"] (fs s') = Ok ("example.org" +:+ nl)
    /\ printed s' = ["Wrote CNAME -> site/CNAME"].
Proof.
  destruct (write_cname_writes_the_domain (site_world true) " example.org " "site"
              site_state_ensured [])
    as (s' & Hrun & Hfile & _ & Hprinted).
  - split; [done|]. repeat constructor; done.
  - done.
  - reflexivity.
  - intros sub. vm_compute. discriminate.
  - exists s'. split; [exact Hrun|]. split; [exact Hfile|exact Hprinted].
Defined.

Lemma build_pages_one_page_per_file_witness :
  map page_path site_pages
  = ["content/about.RST"; "content/drafts/draft.rst"; "content/news.rst"]
  /\ Forall (built_from (site_world true)) site_pages
  /\ Forall (fun p => plain_component (page_out_filename p)) site_pages
  /\ Forall (dated (site_world true) site_state site_state_built) site_pages
  /\ later_clock site_state site_state_built
  /\ clock_reads site_state_built = 2%nat.
Proof.
  exact (build_pages_one_page_per_file (site_world true)
           (find_rst_files (site_world true) site_tree "content")
           site_state site_state_built site_pages eq_refl).
Defined.

Lemma full_render_leaves_pages_and_index_witness :
  FS.read_file ["home"; "u"; "site"; "site"; "index.html"] (fs site_state_rendered)
  = Ok "draft/about/news"
  /\ (exists text body,
        FS.read_file ["home"; "u"; "site"; "content"; "news.rst"] (fs site_state) = Ok text
        /\ render_rst (site_world true) text = Ok body
        /\ FS.read_file ["home"; "u"; "site"; "site"; "news.html"] (fs site_state_rendered)
           = Ok (page_html show_bindings "Site" "static" "https://example.com/repo.git" "main"
                   (content_page "news"
                      [ {| sha := "h2"; date := "2023-06-15T10:00:00+02:00"; author := "Ann";
                           message := "Fix typo" |};
                        {| sha := "h1"; date := "2020-01-01T10:00:00+00:00"; author := "Bob";
                           message := "Add news | first post" |} ]
                      "2020-01-01T10:00:00+00:00") body))
  /\ exists lines,
       printed site_state_rendered
       = lines ++ ["Wrote site/draft.html"; "Wrote site/about.html"; "Wrote site/news.html"]
         ++ ["Wrote index for 3 pages"].
Proof.
  destruct (full_render_leaves_pages_and_index (site_world true) (site_args false false)
              site_state site_cfg site_pages show_bindings show_bindings site_state_built
              site_state_rendered 0)
    as (_ & Hindex & Hpages & Hprinted).
  - split; [done|]. repeat constructor; done.
  - exact site_reaches_publishing.
  - vm_compute. reflexivity.
  - split; [exact Hindex|]. split; [|exact Hprinted].
    refine (Hpages (firstn 2 (order site_pages)) _ [] eq_refl _ _ _ _ _).
    + constructor.
    + discriminate.
    + by repeat split.
    + by repeat split.
    + vm_compute. do 3 apply apart_below. by apply apart_here.
Defined.


Lemma main_stops_when_git_cannot_start_witness :
  exists e' s',
    main gitless_world (site_args true false) site_state = (Raise e', s')
    /\ later_clock site_state s'.
Proof.
  apply (main_stops_when_git_cannot_start gitless_world (site_args true false) site_state
           site_cfg "content/news.rst" "content/news.rst" FileNotFoundError).
  - reflexivity.
  - vm_compute. right. right. left. reflexivity.
  - reflexivity.
  - reflexivity.
Defined.

Lemma listing_modes_print_the_pages_witness :
  main (site_world false) (site_args true true) site_state
  = (Ok 0, {| fs := fs site_state; effects := effects site_state;
              clock_reads := clock_reads site_state_built;
              printed := printed site_state ++ "Dry run: discovered pages:"
                         :: map dry_run_line (order site_pages) |}).
Proof.
  destruct (listing_modes_print_the_pages (site_world false) (site_args true true)
              site_state site_state_built site_cfg site_pages eq_refl eq_refl) as [Hdry _].
  apply Hdry. reflexivity.
Defined.

Lemma static_dir_with_trailing_slash_replaces_output_directory_witness :
  exists s',
    copy_static (site_world true) "static/" "site" site_state_ensured = (Ok tt, s')
    /\ FS.lookup_path ["home"; "u"; "site"; "site"] (fs s')
       = Some (Dir [("style.css", File "body {}")]).
Proof.
  destruct (static_dir_with_trailing_slash_replaces_output_directory (site_world true)
              "static" "site" site_state_ensured [("style.css", File "body {}")] [])
    as (s' & Hrun & Hcopy & _).
  - split; [done|]. repeat constructor; done.
  - by repeat split.
  - vm_compute. do 3 apply apart_below. by apply apart_here.
  - reflexivity.
  - reflexivity.
  - exists s'. split; [exact Hrun|exact Hcopy].
Defined.

Lemma main_changes_only_the_output_directory_witness :
  FS.lookup_path ["home"; "u"; "site"; "content"] (fs site_state_rendered)
  = FS.lookup_path ["home"; "u"; "site"; "content"] (fs site_state).
Proof.
  apply (main_changes_only_the_output_directory (site_world true) (site_args false false)
           site_state site_cfg ["home"; "u"; "site"; "content"]).
  - reflexivity.
  - split; [done|]. repeat constructor; done.
  - by repeat split.
  - by repeat split.
  - vm_compute. do 3 apply apart_below. by apply apart_here.
Defined.


Lemma main_without_domain_leaves_cname_alone_witness :
  FS.lookup_path ["home"; "u"; "site"; "site"; "CNAME"] (fs site_state_rendered)
  = Some (File ("example.org" +:+ nl))
  /\ FS.lookup_path ["home"; "u"; "site"; "site"; "CNAME"]
       (fs (main domainless_world (site_args false false) site_state_rendered).2)
     = FS.lookup_path ["home"; "u"; "site"; "site"; "CNAME"] (fs site_state_rendered).
Proof.
  split; [vm_compute; reflexivity|].
  assert (Hsame := main_without_domain_leaves_cname_alone domainless_world
                     (site_args false false) site_state_rendered
                     (<["repo_url" := "https://example.com/repo.git"]> ∅)).
  cbv zeta in Hsame.
  assert (Hpath : resolve domainless_world
                    (PyPath.join (output_dir (site_args false false)
                                    (<["repo_url" := "https://example.com/repo.git"]> ∅))
                       "CNAME")
                  = ["home"; "u"; "site"; "site"; "CNAME"]) by (vm_compute; reflexivity).
  rewrite Hpath in Hsame. apply Hsame.
  - vm_compute. reflexivity.
  - by left.
  - split; [done|]. repeat constructor; done.
  - by repeat split.
  - done.
  - by repeat split.
  - done.
Defined.
